(** * PC Monitor dashboard client (static/app.js): model and properties

    A shallow embedding of the [PCMonitor] class: the JavaScript values a
    decoded frame is made of, the coercions the reducer applies to them, the
    page it writes to, the charts backing the sliding-window series, and the
    WebSocket life cycle. *)

From Stdlib Require Import ZArith Floats.SpecFloat.
From stdpp Require Import gmap strings list pretty.

Local Set Warnings "-register-all".
Local Open Scope Z_scope.

(** ** Numbers

    A JavaScript Number is an IEEE 754 binary64 value; [spec_float] with
    precision 53 and maximal exponent 1024 is that format, with the
    arithmetic rounded to nearest-even. *)
Module Number.

Definition prec : Z := 53.
Definition emax : Z := 1024.

Definition NaN : spec_float := S754_nan.
Definition Infinity : spec_float := S754_infinity false.
Definition of_Z (z : Z) : spec_float := binary_normalize prec emax z 0 false.
Definition of_nat (n : nat) : spec_float := of_Z (Z.of_nat n).

Definition mul : spec_float → spec_float → spec_float := SFmul prec emax.
Definition div : spec_float → spec_float → spec_float := SFdiv prec emax.
Definition sub : spec_float → spec_float → spec_float := SFsub prec emax.

(** [a >= b], [a > b] and [a === b] on numbers; every comparison with NaN
    is false. *)
Definition geb (a b : spec_float) : bool :=
  match SFcompare a b with Some Gt | Some Eq => true | _ => false end.
Definition gtb (a b : spec_float) : bool :=
  match SFcompare a b with Some Gt => true | _ => false end.
Definition eqb (a b : spec_float) : bool := SFeqb a b.

Definition is_nan (a : spec_float) : bool :=
  match a with S754_nan => true | _ => false end.

(** ToBoolean on a number: [0], [-0] and [NaN] are falsy. *)
Definition truthy (a : spec_float) : bool :=
  match a with S754_zero _ | S754_nan => false | _ => true end.

(** [Math.min(a, b)]: NaN if either is, [-0] below [+0]. *)
Definition min (a b : spec_float) : spec_float :=
  match a, b with
  | S754_nan, _ | _, S754_nan => S754_nan
  | S754_zero sa, S754_zero sb => S754_zero (sa || sb)
  | _, _ => if gtb a b then b else a
  end.

(** [Math.PI], the binary64 value nearest to pi. *)
Definition PI : spec_float := S754_finite false 7074237752028440 (-51).

(** [Math.round(x)]: the nearest integer, ties towards +Infinity; a
    result of zero keeps the sign of [x]. *)
Definition round (x : spec_float) : spec_float :=
  match x with
  | S754_finite s m e =>
      if 0 <=? e then x
      else
        let den := 2 ^ (- e) in
        let num := cond_Zopp s (Z.pos m) in
        let r := (2 * num + den) `div` (2 * den) in
        if r =? 0 then S754_zero s else binary_normalize prec emax r 0 false
  | _ => x
  end.

(** *** Decimal output *)

Definition digits (n : Z) : string := pretty (Z.to_N n).

Fixpoint zeros (n : nat) : string :=
  match n with O => "" | S n => "0" +:+ zeros n end.

Definition str_take (n : nat) (s : string) : string := String.substring 0 n s.
Definition str_drop (n : nat) (s : string) : string :=
  String.substring n (String.length s - n) s.

(** Comparison of the decimal [s * 10^p] with the binary [b * 2^q], for
    non-negative [s] and [b], by cross multiplication. *)
Definition cmp_dec_bin (s p b q : Z) : comparison :=
  (s * 10 ^ Z.max p 0 * 2 ^ Z.max (- q) 0
     ?= b * 2 ^ Z.max q 0 * 10 ^ Z.max (- p) 0).

(** [floor (m * 2^e / 10^p)]. *)
Definition floor_scaled (m e p : Z) : Z :=
  (m * 2 ^ Z.max e 0 * 10 ^ Z.max (- p) 0)
    `div` (2 ^ Z.max (- e) 0 * 10 ^ Z.max p 0).

(** The largest [E] among [hi, hi-1, ...] ([fuel] candidates) with
    [10^E <= m * 2^e]. *)
Fixpoint log10_search (fuel : nat) (hi m e : Z) : Z :=
  match fuel with
  | O => hi
  | S fuel =>
      match cmp_dec_bin 1 hi m e with
      | Gt => log10_search fuel (hi - 1) m e
      | _ => hi
      end
  end.

(** [floor (log10 (m * 2^e))], from an estimate by the binary exponent. *)
Definition floor_log10 (m e : Z) : Z :=
  let est := ((e + Z.log2 m) * 30103) `div` 100000 in
  log10_search 5 (est + 2) m e.

(** Does the decimal [s * 10^p] round to the binary64 [m * 2^e] (given
    in canonical form)?  The rounding interval of [m * 2^e] is bounded by
    the midpoints to its two neighbours, which belong to it when [m] is
    even; below a power of two the lower neighbour is twice as close. *)
Definition rounds_to (m e s p : Z) : bool :=
  let lo := if (m =? 2 ^ (prec - 1)) && (3 - emax - prec <? e)
            then 4 * m - 1 else 4 * m - 2 in
  let hi := 4 * m + 2 in
  let cl := cmp_dec_bin s p lo (e - 2) in
  let ch := cmp_dec_bin s p hi (e - 2) in
  if Z.even m
  then (match cl with Lt => false | _ => true end)
       && (match ch with Gt => false | _ => true end)
  else (match cl with Gt => true | _ => false end)
       && (match ch with Lt => true | _ => false end).

(** The [k]-digit decimal nearest to [m * 2^e], as [(s, p)] with
    [10^(k-1) <= s < 10^k], if one rounds to [m * 2^e]. *)
Definition candidate (m e e10 k : Z) : option (Z * Z) :=
  let p := e10 - k + 1 in
  let lo := floor_scaled m e p in
  let up := if lo + 1 =? 10 ^ k then (10 ^ (k - 1), p + 1) else (lo + 1, p) in
  let lo_ok := rounds_to m e lo p in
  let up_ok := rounds_to m e up.1 up.2 in
  match lo_ok, up_ok with
  | true, false => Some (lo, p)
  | false, true => Some up
  | false, false => None
  | true, true =>
      match cmp_dec_bin (2 * lo + 1) p m (e + 1) with
      | Gt => Some (lo, p)
      | Lt => Some up
      | Eq => if Z.even lo then Some (lo, p) else Some up
      end
  end.

Fixpoint shortest (fuel : nat) (m e e10 k : Z) : Z * Z :=
  match fuel with
  | O => (floor_scaled m e (e10 - k + 1), e10 - k + 1)
  | S fuel =>
      match candidate m e e10 k with
      | Some sp => sp
      | None => shortest fuel m e e10 (k + 1)
      end
  end.

(** Layout of the digits [s] with decimal exponent [p] (Number::toString,
    steps 6 to 10). *)
Definition layout (s p : Z) : string :=
  let d := digits s in
  let k := Z.of_nat (String.length d) in
  let n := p + k in
  if (k <=? n) && (n <=? 21) then d +:+ zeros (Z.to_nat (n - k))
  else if (0 <? n) && (n <=? 21)
  then str_take (Z.to_nat n) d +:+ "." +:+ str_drop (Z.to_nat n) d
  else if (-6 <? n) && (n <=? 0) then "0." +:+ zeros (Z.to_nat (- n)) +:+ d
  else
    let ex := (if 0 <=? n - 1 then "+" else "-") +:+ digits (Z.abs (n - 1)) in
    if k =? 1 then d +:+ "e" +:+ ex
    else str_take 1 d +:+ "." +:+ str_drop 1 d +:+ "e" +:+ ex.

Definition canonical (x : spec_float) : spec_float :=
  match x with
  | S754_finite s m e => binary_normalize prec emax (cond_Zopp s (Z.pos m)) e s
  | _ => x
  end.

(** Number::toString(x), radix 10: the shortest decimal that reads back
    as [x]. *)
Definition to_string (x : spec_float) : string :=
  match canonical x with
  | S754_nan => "NaN"
  | S754_zero _ => "0"
  | S754_infinity s => (if s then "-" else "") +:+ "Infinity"
  | S754_finite s m e =>
      let '(d, p) := shortest 17 (Z.pos m) e (floor_log10 (Z.pos m) e) 1 in
      (if s then "-" else "") +:+ layout d p
  end.

(** Number.prototype.toFixed(f). *)
Definition toFixed (x : spec_float) (f : nat) : string :=
  match x with
  | S754_nan => "NaN"
  | S754_infinity _ => to_string x
  | S754_zero _ => if f is O then "0" else "0." +:+ zeros f
  | S754_finite s m e =>
      let sign := if s then "-" else "" in
      match cmp_dec_bin 1 21 (Z.pos m) e with
      | Gt =>
          let den := 2 ^ Z.max (- e) 0 in
          let num := Z.pos m * 2 ^ Z.max e 0 * 10 ^ Z.of_nat f in
          let n := (2 * num + den) `div` (2 * den) in
          let d := digits n in
          let d := zeros (S f - String.length d) +:+ d in
          let k := (String.length d - f)%nat in
          sign +:+ (if f is O then d else str_take k d +:+ "." +:+ str_drop k d)
      | _ => sign +:+ to_string (S754_finite false m e)
      end
  end.

End Number.

(** ** Values, exceptions and coercions *)

(** What [JSON.parse] can return, and [undefined] for what a property
    lookup yields when the property is absent. *)
Inductive value :=
  | VUndefined
  | VNull
  | VBool (b : bool)
  | VNum (f : spec_float)
  | VStr (s : string)
  | VArr (l : list value)
  | VObj (m : gmap string value).

Inductive exn :=
  | TypeError (msg : string)
  | SyntaxError (msg : string).

(** The outcome of evaluating an expression: a value or a thrown exception. *)
Inductive result (A : Type) :=
  | Ok (a : A)
  | Throw (e : exn).
Arguments Ok {A} a.
Arguments Throw {A} e.

#[global] Instance result_ret : MRet result := λ A a, Ok a.
#[global] Instance result_bind : MBind result := λ A B f r,
  match r with Ok a => f a | Throw e => Throw e end.

#[global] Instance result_fmap : FMap result := λ A B f r,
  match r with Ok a => Ok (f a) | Throw e => Throw e end.

Definition num (z : Z) : value := VNum (Number.of_Z z).

(** ToBoolean. *)
Definition truthy (v : value) : bool :=
  match v with
  | VUndefined | VNull => false
  | VBool b => b
  | VNum f => Number.truthy f
  | VStr s => negb (String.eqb s "")
  | VArr _ | VObj _ => true
  end.

(** [a || b] with a side-effect free [b]. *)
Definition or_else (a b : value) : value := if truthy a then a else b.

Definition is_null (v : value) : bool :=
  match v with VNull => true | _ => false end.
Definition is_undefined (v : value) : bool :=
  match v with VUndefined => true | _ => false end.
Definition is_nullish (v : value) : bool := is_null v || is_undefined v.

(** [v === n] for a number [n], [v === s] for a string [s]. *)
Definition strict_eq_num (v : value) (n : spec_float) : bool :=
  match v with VNum f => Number.eqb f n | _ => false end.
Definition strict_eq_str (v : value) (s : string) : bool :=
  match v with VStr t => String.eqb t s | _ => false end.

(** Property read [v.k] for a name [k] that no built-in prototype
    defines (every field name of a frame is such a name) or for [length].
    Objects made by [JSON.parse] have own data properties only; a string
    is taken as its sequence of code units, one character of a [string]
    each, which for ASCII text is the text itself. *)
Definition get (v : value) (k : string) : result value :=
  match v with
  | VUndefined | VNull =>
      Throw (TypeError ("Cannot read properties of undefined or null: " +:+ k))
  | VObj m => Ok (default VUndefined (m !! k))
  | VArr l =>
      Ok (if String.eqb k "length" then VNum (Number.of_nat (length l)) else VUndefined)
  | VStr s =>
      Ok (if String.eqb k "length" then VNum (Number.of_nat (String.length s))
          else VUndefined)
  | VBool _ | VNum _ => Ok VUndefined
  end.

Fixpoint join (sep : string) (l : list string) : string :=
  match l with
  | [] => ""
  | [s] => s
  | s :: l => s +:+ sep +:+ join sep l
  end.

(** ToString.  An array joins its elements with commas, [null] and
    [undefined] elements giving the empty string.  An object made by
    [JSON.parse] prints as [[object Object]] through
    [Object.prototype.toString], unless it has an own [toString] property:
    that one is data, not callable, [valueOf] gives back the object, and
    OrdinaryToPrimitive throws. *)
Fixpoint to_string (v : value) : result string :=
  match v with
  | VUndefined => Ok "undefined"
  | VNull => Ok "null"
  | VBool b => Ok (if b then "true" else "false")
  | VNum f => Ok (Number.to_string f)
  | VStr s => Ok s
  | VArr l =>
      join "," <$>
        (fix elements (l : list value) : result (list string) :=
           match l with
           | [] => Ok []
           | x :: l =>
               s ← (if is_nullish x then Ok "" else to_string x);
               r ← elements l;
               Ok (s :: r)
           end) l
  | VObj m =>
      if decide (is_Some (m !! "toString"))
      then Throw (TypeError "Cannot convert object to primitive value")
      else Ok "[object Object]"
  end.

(** ** The page, the charts and the browser *)

(** What the reducer writes into a list container.  The tags and class
    names of the templates are fixed text and are left out; an item keeps,
    in order, every string its template interpolates. *)
Inductive markup :=
  | CoreBar (i : nat)
  | NoFans
  | FanItem (name barWidth : string) (speedDisplay : list (string * string))
  | ProcessItem (title name cpuStr memoryStr : string)
  | DriveItem (title model type sizeStr : string).

(** An element of the page, reached by [getElementById] or by a selector.
    The reducer assigns either [textContent] or [innerHTML] of a given
    element, never both, so the two are kept apart. *)
Record element := Element {
  textContent : string;
  innerHTML : list markup;
  style : gmap string string;
  classList : gset string;
}.

(** A Chart.js chart: its data, and what [chart.update] has drawn so far
    (the datasets as they stood at each call, oldest first). *)
Record chart := Chart {
  labels : list string;
  datasets : list (list value);
  drawn : list (list (list value));
}.

Inductive readyState := CONNECTING | OPEN | CLOSED.

(** A WebSocket the page has constructed, with the time of its construction
    and of its close event. *)
Record socket := Socket {
  url : string;
  ready : readyState;
  created : Z;
  closed : option Z;
}.

(** The [PCMonitor] instance ([ws], [charts], [maxHistoryLength],
    [totalMemoryGB]) together with the part of the browser it acts on. *)
Record state := State {
  ws : option nat;
  charts : gmap string chart;
  maxHistoryLength : Z;
  totalMemoryGB : value;
  document : gmap string element;
  location : string * string;
  console : list (string * option exn);
  sockets : list socket;
  timers : list Z;
  now : Z;
}.

Definition set_ws (x : option nat) (st : state) : state :=
  State x (charts st) (maxHistoryLength st) (totalMemoryGB st) (document st)
    (location st) (console st) (sockets st) (timers st) (now st).
Definition set_charts (x : gmap string chart) (st : state) : state :=
  State (ws st) x (maxHistoryLength st) (totalMemoryGB st) (document st)
    (location st) (console st) (sockets st) (timers st) (now st).
Definition set_totalMemoryGB (x : value) (st : state) : state :=
  State (ws st) (charts st) (maxHistoryLength st) x (document st)
    (location st) (console st) (sockets st) (timers st) (now st).
Definition set_document (x : gmap string element) (st : state) : state :=
  State (ws st) (charts st) (maxHistoryLength st) (totalMemoryGB st) x
    (location st) (console st) (sockets st) (timers st) (now st).
Definition set_console (x : list (string * option exn)) (st : state) : state :=
  State (ws st) (charts st) (maxHistoryLength st) (totalMemoryGB st) (document st)
    (location st) x (sockets st) (timers st) (now st).
Definition set_sockets (x : list socket) (st : state) : state :=
  State (ws st) (charts st) (maxHistoryLength st) (totalMemoryGB st) (document st)
    (location st) (console st) x (timers st) (now st).
Definition set_timers (x : list Z) (st : state) : state :=
  State (ws st) (charts st) (maxHistoryLength st) (totalMemoryGB st) (document st)
    (location st) (console st) (sockets st) x (now st).
Definition set_now (x : Z) (st : state) : state :=
  State (ws st) (charts st) (maxHistoryLength st) (totalMemoryGB st) (document st)
    (location st) (console st) (sockets st) (timers st) x.

(** ** Statements: state and exceptions

    A statement runs on a state and ends normally or by a throw; what it
    wrote before a throw stays written. *)
Definition M (A : Type) : Type := state → result A * state.

#[global] Instance M_ret : MRet M := λ A a st, (Ok a, st).
#[global] Instance M_bind : MBind M := λ A B f m st,
  match m st with
  | (Ok a, st') => f a st'
  | (Throw e, st') => (Throw e, st')
  end.

Definition lift {A} (r : result A) : M A := λ st, (r, st).
Definition read {A} (f : state → A) : M A := λ st, (Ok (f st), st).
Definition write (f : state → state) : M unit := λ st, (Ok (), f st).

(** [try { body } catch (e) { handler e }]. *)
Definition try_catch (body : M unit) (handler : exn → M unit) : M unit := λ st,
  match body st with
  | (Ok (), st') => (Ok (), st')
  | (Throw e, st') => handler e st'
  end.

Definition console_error (msg : string) (e : option exn) : M unit :=
  write (λ st, set_console (console st ++ [(msg, e)]) st).

(** [document.getElementById(id)] and [querySelector]: the key of the
    element if the page has it.  A descendant found by a class selector
    under the element [id] has the key [id .cls]. *)
Definition getElementById (id : string) : M (option string) :=
  read (λ st, if decide (is_Some (document st !! id)) then Some id else None).
Definition querySelector (sel : string) : M (option string) := getElementById sel.

Definition modify (el : string) (f : element → element) : M unit :=
  write (λ st, set_document (alter f el (document st)) st).

(** Assignments to an element.  [innerHTML] records the items assigned,
    with the strings the reducer interpolated, not the elements the page
    parses out of that text; [style] records the string last assigned to a
    property, which is the value the page keeps when that string is a valid
    value of the property. *)
Definition set_textContent (el : string) (s : string) : M unit :=
  modify el (λ e, Element s (innerHTML e) (style e) (classList e)).
Definition set_innerHTML (el : string) (h : list markup) : M unit :=
  modify el (λ e, Element (textContent e) h (style e) (classList e)).
Definition set_style (el : string) (prop : string) (s : string) : M unit :=
  modify el (λ e, Element (textContent e) (innerHTML e) (<[prop := s]> (style e))
                    (classList e)).
Definition classList_toggle (el : string) (cls : string) (force : bool) : M unit :=
  modify el (λ e, Element (textContent e) (innerHTML e) (style e)
                    (if force then {[cls]} ∪ classList e else classList e ∖ {[cls]})).

(** The conversion of a value assigned to [textContent], a nullable
    DOMString: [null] and [undefined] give the empty string. *)
Definition DOMString (v : value) : result string :=
  if is_nullish v then Ok "" else to_string v.

(** ** The PCMonitor class *)
Section PCMonitor.

(** Two functions of the engine are taken as given: StringToNumber (the
    numeric reading of a string, which ECMAScript leaves approximate for
    long literals) and [JSON.parse], [None] standing for its
    SyntaxError. *)
Variable StringToNumber : string → spec_float.
Variable JSON_parse : string → option value.

(** ToNumber. *)
Definition to_number (v : value) : result spec_float :=
  match v with
  | VUndefined => Ok Number.NaN
  | VNull => Ok (Number.of_Z 0)
  | VBool b => Ok (Number.of_Z (if b then 1 else 0))
  | VNum f => Ok f
  | VStr s => Ok (StringToNumber s)
  | VArr _ | VObj _ => s ← to_string v; Ok (StringToNumber s)
  end.

(** The method call [v.toFixed(digits)]: only numbers have the method. *)
Definition toFixed (v : value) (digits : nat) : result string :=
  match v with
  | VNum f => Ok (Number.toFixed f digits)
  | VUndefined | VNull =>
      Throw (TypeError "Cannot read properties of undefined (reading 'toFixed')")
  | _ => Throw (TypeError "toFixed is not a function")
  end.

(** [v?.toFixed(digits)]. *)
Definition opt_toFixed (v : value) (digits : nat) : result value :=
  if is_nullish v then Ok VUndefined else VStr <$> toFixed v digits.

(** The receiver of [map], [filter] or [forEach]: only arrays have them. *)
Definition array_of (v : value) (method : string) : result (list value) :=
  match v with
  | VArr l => Ok l
  | VUndefined | VNull =>
      Throw (TypeError ("Cannot read properties of undefined: " +:+ method))
  | _ => Throw (TypeError (method +:+ " is not a function"))
  end.

(** [Math.min(v, n)] and [Math.round(v)] on a value. *)
Definition Math_min (v : value) (n : Z) : result spec_float :=
  x ← to_number v; Ok (Number.min x (Number.of_Z n)).
Definition Math_round (v : value) : result spec_float :=
  x ← to_number v; Ok (Number.round x).

(** [v / n] for a number literal [n]. *)
Definition div_by (v : value) (n : Z) : result spec_float :=
  x ← to_number v; Ok (Number.div x (Number.of_Z n)).

(** *** Connection status *)

Definition updateConnectionStatus (connected : bool) : M unit :=
  dot ← getElementById "status-dot";
  text ← getElementById "status-text";
  match dot, text with
  | Some dot, Some text =>
      classList_toggle dot "connected" connected;;
      set_textContent text (if connected then "Connected" else "Disconnected")
  | _, _ => mret ()
  end.

(** *** Charts *)

(** [new Chart(canvas.getContext('2d'), ...)] is taken to succeed: Chart.js
    is loaded and the element under the id is a canvas.  The constructor of
    the monitor is modelled for such pages only. *)
Definition createChart (canvasId : string) : M unit :=
  canvas ← getElementById canvasId;
  match canvas with
  | None => mret ()
  | Some _ =>
      write (λ st, set_charts
        (<[canvasId := Chart (replicate 60 "") [replicate 60 VNull] []]> (charts st)) st)
  end.

Definition createDualChart (canvasId : string) : M unit :=
  canvas ← getElementById canvasId;
  match canvas with
  | None => mret ()
  | Some _ =>
      write (λ st, set_charts
        (<[canvasId := Chart (replicate 60 "")
                         [replicate 60 VNull; replicate 60 VNull] []]> (charts st)) st)
  end.

Definition setupCharts : M unit :=
  createChart "cpu-chart";;
  createChart "gpu-chart";;
  createChart "memory-chart";;
  createDualChart "network-chart";;
  createDualChart "disk-chart".

(** [chart.data.datasets[i].data] of the chart [chartId], modified in
    place by [f]; reading [.data] of a dataset that is not there throws. *)
Definition with_data (chartId : string) (i : nat)
    (f : list value → list value) : M unit := λ st,
  match charts st !! chartId with
  | Some c =>
      match datasets c !! i with
      | Some d =>
          (Ok (), set_charts (<[chartId :=
             Chart (labels c) (<[i := f d]> (datasets c)) (drawn c)]> (charts st)) st)
      | None => (Throw (TypeError "Cannot read properties of undefined (reading 'data')"), st)
      end
  | None => (Throw (TypeError "Cannot read properties of undefined (reading 'data')"), st)
  end.

Definition data_push (chartId : string) (i : nat) (v : value) : M unit :=
  with_data chartId i (λ d, d ++ [v]).
Definition data_shift (chartId : string) (i : nat) : M unit :=
  with_data chartId i (drop 1).

(** [chart.update('none')]: the chart is redrawn from its data. *)
Definition chart_update (chartId : string) : M unit :=
  write (λ st, set_charts
    (alter (λ c, Chart (labels c) (datasets c) (drawn c ++ [datasets c]))
       chartId (charts st)) st).

Definition updateChart (chartId : string) (v : value) : M unit :=
  chart ← read (λ st, charts st !! chartId);
  match chart with
  | None => mret ()
  | Some _ =>
      data_push chartId 0 v;;
      data_shift chartId 0;;
      chart_update chartId
  end.

Definition updateDualChart (chartId : string) (value1 value2 : value) : M unit :=
  chart ← read (λ st, charts st !! chartId);
  match chart with
  | None => mret ()
  | Some _ =>
      data_push chartId 0 value1;;
      data_shift chartId 0;;
      data_push chartId 1 value2;;
      data_shift chartId 1;;
      chart_update chartId
  end.

(** *** Gauges, bars and text *)

Definition updateMiniGauge (gaugeId : string) (v : value) : M unit :=
  gauge ← getElementById gaugeId;
  match gauge with
  | None => mret ()
  | Some gauge =>
      fill ← querySelector (gauge +:+ " .gauge-fill");
      match fill with
      | None => mret ()
      | Some fill =>
          q ← lift (div_by v 100);
          let percentage := Number.min q (Number.of_Z 1) in
          isLarge ← read (λ st,
            from_option (λ e, bool_decide ("large-gauge" ∈ classList e)) false
              (document st !! gauge));
          let radius := Number.of_Z (if isLarge : bool then 42 else 20) in
          let circumference :=
            Number.mul (Number.mul (Number.of_Z 2) Number.PI) radius in
          let offset :=
            Number.mul circumference (Number.sub (Number.of_Z 1) percentage) in
          set_style fill "strokeDasharray" (Number.to_string circumference);;
          set_style fill "strokeDashoffset" (Number.to_string offset)
      end
  end.

Definition updateProgressBar (id : string) (percent : value) : M unit :=
  el ← getElementById id;
  match el with
  | None => mret ()
  | Some el =>
      w ← lift (Math_min percent 100);
      set_style el "width" (Number.to_string w +:+ "%")
  end.

Definition setText (id : string) (text : value) : M unit :=
  el ← getElementById id;
  match el with
  | None => mret ()
  | Some el => s ← lift (DOMString text); set_textContent el s
  end.

Definition core_bar_id (i : nat) : string := "core-bar-" +:+ pretty i.

(** [container.innerHTML = perCore.map(...).join('')]: the children of
    the container go, with the bars among them, and [n] new bars come. *)
Definition rebuild_core_bars (container : string) (n : nat) : M unit :=
  write (λ st,
    let old := from_option innerHTML [] (document st !! container) in
    let doc := foldr (λ h d, if h is CoreBar j then delete (core_bar_id j) d else d)
                 (document st) old in
    let doc := foldr (λ i d, <[core_bar_id i := Element "" [] ∅ ∅]> d) doc (seq 0 n) in
    set_document doc st);;
  set_innerHTML container (CoreBar <$> seq 0 n).

Fixpoint forEach (f : value → nat → M unit) (l : list value) (i : nat) : M unit :=
  match l with
  | [] => mret ()
  | x :: l => f x i;; forEach f l (S i)
  end.

Definition updateCoreBars (perCore : value) : M unit :=
  container ← getElementById "cpu-core-bars";
  match container with
  | None => mret ()
  | Some container =>
      len ← lift (get perCore "length");
      if negb (truthy len) then mret ()
      else
        children ← read (λ st,
          from_option (λ e, length (innerHTML e)) 0%nat (document st !! container));
        (if negb (strict_eq_num len (Number.of_nat children))
         then cores ← lift (array_of perCore "map");
              rebuild_core_bars container (length cores)
         else mret ());;
        cores ← lift (array_of perCore "forEach");
        forEach (λ usage i,
          bar ← getElementById (core_bar_id i);
          match bar with
          | None => mret ()
          | Some bar =>
              percent ← lift (Math_min usage 100);
              let pct := Number.to_string percent +:+ "%" in
              set_style bar "--bar-height" pct;;
              set_style bar "background"
                ("linear-gradient(to top, var(--accent-green) " +:+ pct +:+
                 ", var(--bg-secondary) " +:+ pct +:+ ")")
          end) cores 0%nat
  end.

(** *** The reducer: updateDashboard, one category after the other *)

Definition dashboard_cpu (data : value) : M unit :=
  cpu ← lift (get data "cpu");
  if truthy cpu then
    usage ← lift (get cpu "usage");
    let cpuUsage := or_else usage (num 0) in
    cpuTemp ← lift (get cpu "temperature");
    name ← lift (get cpu "name");
    setText "cpu-name" (or_else name (VStr "CPU"));;
    u ← lift (toFixed cpuUsage 0);
    setText "cpu-usage" (VStr (u +:+ "%"));;
    frequency ← lift (get cpu "frequency");
    freq ← lift (if truthy frequency
                 then q ← div_by frequency 1000;
                      Ok (VStr (Number.toFixed q 1 +:+ " GHz"))
                 else Ok (VStr "--"));
    setText "cpu-freq" freq;;
    cores ← lift (get cpu "cores");
    setText "cpu-cores" (or_else cores (VStr "--"));;
    threads ← lift (get cpu "threads");
    setText "cpu-threads" (or_else threads (VStr "--"));;
    temp ← lift (if truthy cpuTemp
                 then t ← toFixed cpuTemp 0; Ok (VStr (t +:+ "°C"))
                 else Ok (VStr "N/A"));
    setText "cpu-temp" temp;;
    l2_cache_kb ← lift (get cpu "l2_cache_kb");
    (if truthy l2_cache_kb
     then q ← lift (div_by l2_cache_kb 1024);
          let l2MB := Number.toFixed q 1 in
          setText "cpu-l2" (VStr (l2MB +:+ " MB"))
     else mret ());;
    l3_cache_kb ← lift (get cpu "l3_cache_kb");
    (if truthy l3_cache_kb
     then q ← lift (div_by l3_cache_kb 1024);
          let l3MB := Number.toFixed q 0 in
          setText "cpu-l3" (VStr (l3MB +:+ " MB"))
     else mret ());;
    per_core ← lift (get cpu "per_core");
    updateCoreBars (or_else per_core (VArr []));;
    updateChart "cpu-chart" cpuUsage
  else mret ().

Definition dashboard_gpu (data : value) : M unit :=
  gpu ← lift (get data "gpu");
  available ← lift (if truthy gpu then get gpu "available" else Ok gpu);
  if truthy available then
    name ← lift (get gpu "name");
    setText "gpu-name" (or_else name (VStr "GPU"));;
    usage ← lift (get gpu "usage");
    u ← lift (toFixed (or_else usage (num 0)) 0);
    setText "gpu-usage" (VStr (u +:+ "%"));;
    temperature ← lift (get gpu "temperature");
    temp ← lift (if truthy temperature
                 then t ← to_string temperature; Ok (VStr (t +:+ "°C"))
                 else Ok (VStr "N/A"));
    setText "gpu-temp" temp;;
    memory_used ← lift (get gpu "memory_used");
    used ← lift (opt_toFixed memory_used 1);
    used ← lift (to_string (or_else used (num 0)));
    memory_total ← lift (get gpu "memory_total");
    total ← lift (opt_toFixed memory_total 0);
    total ← lift (to_string (or_else total (num 0)));
    setText "gpu-vram" (VStr (used +:+ "/" +:+ total +:+ " GB"));;
    graphics_clock ← lift (get gpu "graphics_clock");
    clock ← lift (if truthy graphics_clock
                  then c ← to_string graphics_clock; Ok (VStr (c +:+ " MHz"))
                  else Ok (VStr "--"));
    setText "gpu-clock" clock;;
    memory_clock ← lift (get gpu "memory_clock");
    mclock ← lift (if truthy memory_clock
                   then c ← to_string memory_clock; Ok (VStr (c +:+ " MHz"))
                   else Ok (VStr "--"));
    setText "gpu-mem-clock" mclock;;
    fan_speed ← lift (get gpu "fan_speed");
    fan ← lift (if negb (is_null fan_speed)
                then f ← to_string fan_speed; Ok (VStr (f +:+ "%"))
                else Ok (VStr "--"));
    setText "gpu-fan" fan;;
    power ← lift (get gpu "power");
    pw ← lift (if truthy power
               then p ← toFixed power 0;
                    power_limit ← get gpu "power_limit";
                    l ← opt_toFixed power_limit 0;
                    l ← to_string (or_else l (VStr "--"));
                    Ok (VStr (p +:+ "/" +:+ l +:+ " W"))
               else Ok (VStr "--"));
    setText "gpu-power" pw;;
    updateMiniGauge "gpu-usage-gauge" (or_else usage (num 0));;
    updateMiniGauge "gpu-temp-gauge" (or_else temperature (num 0));;
    memory_percent ← lift (get gpu "memory_percent");
    updateProgressBar "gpu-vram-bar" (or_else memory_percent (num 0));;
    updateChart "gpu-chart" (or_else usage (num 0))
  else mret ().

Definition dashboard_memory (data : value) : M unit :=
  memory ← lift (get data "memory");
  if truthy memory then
    percent ← lift (get memory "percent");
    let memPct := or_else percent (num 0) in
    total ← lift (get memory "total");
    write (set_totalMemoryGB (or_else total (num 0)));;
    p ← lift (toFixed memPct 0);
    setText "mem-pct" (VStr (p +:+ "%"));;
    used ← lift (get memory "used");
    u ← lift (opt_toFixed used 1);
    u ← lift (to_string (or_else u (num 0)));
    t ← lift (opt_toFixed total 0);
    t ← lift (to_string (or_else t (num 0)));
    setText "mem-used-total" (VStr (u +:+ " / " +:+ t +:+ " GB"));;
    speed ← lift (get memory "speed");
    sp ← lift (if truthy speed
               then s ← to_string speed; Ok (VStr (s +:+ " MHz"))
               else Ok (VStr "--"));
    setText "mem-speed" sp;;
    type ← lift (get memory "type");
    setText "mem-type" (or_else type (VStr "--"));;
    slots_used ← lift (get memory "slots_used");
    slots ← lift (if negb (is_undefined slots_used)
                  then su ← to_string slots_used;
                       slots_total ← get memory "slots_total";
                       shown ← Math_min slots_total 4;
                       Ok (VStr (su +:+ "/" +:+ Number.to_string shown))
                  else Ok (VStr "--"));
    setText "mem-slots" slots;;
    updateMiniGauge "memory-gauge" memPct;;
    memGaugeText ← querySelector "memory-gauge .gauge-text";
    (if memGaugeText is Some memGaugeText
     then p ← lift (toFixed memPct 0);
          set_textContent memGaugeText (p +:+ "%")
     else mret ());;
    updateChart "memory-chart" memPct
  else mret ().

Definition dashboard_network (data : value) : M unit :=
  network ← lift (get data "network");
  if truthy network then
    download_rate ← lift (get network "download_rate");
    let download := or_else download_rate (num 0) in
    upload_rate ← lift (get network "upload_rate");
    let upload := or_else upload_rate (num 0) in
    d ← lift (toFixed download 2);
    setText "net-down" (VStr (d +:+ " MB/s"));;
    u ← lift (toFixed upload 2);
    setText "net-up" (VStr (u +:+ " MB/s"));;
    updateDualChart "network-chart" download upload
  else mret ().

Definition dashboard_ping (data : value) : M unit :=
  ping ← lift (get data "ping");
  if truthy ping then
    success ← lift (get ping "success");
    latency ← lift (get ping "ping");
    if truthy success && negb (is_null latency)
    then l ← lift (to_string latency); setText "ping-value" (VStr (l +:+ " ms"))
    else setText "ping-value" (VStr "--")
  else mret ().

Definition dashboard_disk (data : value) : M unit :=
  disk ← lift (get data "disk");
  if truthy disk then
    read_rate ← lift (get disk "read_rate");
    let readRate := or_else read_rate (num 0) in
    write_rate ← lift (get disk "write_rate");
    let writeRate := or_else write_rate (num 0) in
    r ← lift (toFixed readRate 2);
    setText "disk-read" (VStr (r +:+ " MB/s"));;
    w ← lift (toFixed writeRate 2);
    setText "disk-write" (VStr (w +:+ " MB/s"));;
    updateDualChart "disk-chart" readRate writeRate
  else mret ().

(** *** Fans *)

(** The callback of [fans.map]. *)
Definition fan_item (fan : value) : result markup :=
  p ← get fan "percent";
  let percent := if negb (is_null p) then p else VNull in
  r ← get fan "rpm";
  let rpm := if negb (is_null r) then r else VNull in
  speedDisplay ←
    (if negb (is_null percent) then
       sp ← to_string percent;
       if negb (is_null rpm)
       then sr ← to_string rpm;
            Ok [("fan-percent", sp +:+ "%"); ("fan-rpm", sr +:+ " RPM")]
       else Ok [("fan-percent", sp +:+ "%")]
     else if negb (is_null rpm)
     then sr ← to_string rpm; Ok [("fan-percent", sr +:+ " RPM")]
     else Ok [("fan-percent", "--")]);
  let barWidth := if negb (is_null percent) then percent else num 0 in
  name ← get fan "name";
  name ← to_string name;
  width ← to_string barWidth;
  Ok (FanItem name width speedDisplay).

Definition updateFansList (fanData : value) : M unit :=
  container ← getElementById "fans-list";
  match container with
  | None => mret ()
  | Some container =>
      f ← lift (get fanData "fans");
      let fans := or_else f (VArr []) in
      len ← lift (get fans "length");
      if strict_eq_num len (Number.of_Z 0)
      then set_innerHTML container [NoFans]
      else
        l ← lift (array_of fans "map");
        items ← lift (mapM fan_item l);
        set_innerHTML container items
  end.

(** *** Processes *)

(** The callback of [processes.filter]. *)
Definition not_idle (p : value) : result bool :=
  name ← get p "name";
  Ok (negb (strict_eq_str name "System Idle Process")).

Fixpoint filterM (f : value → result bool) (l : list value) : result (list value) :=
  match l with
  | [] => Ok []
  | x :: l =>
      b ← f x;
      r ← filterM f l;
      Ok (if b : bool then x :: r else r)
  end.

(** The callback of [filtered.map]; [total] is [this.totalMemoryGB]. *)
Definition process_item (total : value) (p : value) : result markup :=
  memory_percent ← get p "memory_percent";
  q ← div_by memory_percent 100;
  t ← to_number total;
  let memoryMB := Number.mul (Number.mul q t) (Number.of_Z 1024) in
  let memoryStr :=
    if Number.geb memoryMB (Number.of_Z 1024)
    then Number.toFixed (Number.div memoryMB (Number.of_Z 1024)) 1 +:+ " GB"
    else Number.toFixed memoryMB 0 +:+ " MB" in
  cpu_percent ← get p "cpu_percent";
  c ← toFixed cpu_percent 1;
  let cpuStr := c +:+ "%" in
  name ← get p "name";
  title ← to_string name;
  name ← to_string name;
  Ok (ProcessItem title name cpuStr memoryStr).

Definition updateProcessList (processes : value) : M unit :=
  container ← getElementById "process-list";
  match container with
  | None => mret ()
  | Some container =>
      l ← lift (array_of processes "filter");
      kept ← lift (filterM not_idle l);
      let filtered := take 8 kept in
      total ← read totalMemoryGB;
      items ← lift (mapM (process_item total) filtered);
      set_innerHTML container items
  end.

(** *** System information *)

(** The callback of [system.drives.map]. *)
Definition drive_item (drive : value) : result markup :=
  size_gb ← get drive "size_gb";
  n ← to_number size_gb;
  sizeStr ←
    (if Number.geb n (Number.of_Z 1000)
     then q ← div_by size_gb 1000; Ok (Number.toFixed q 1 +:+ " TB")
     else r ← Math_round size_gb; Ok (Number.to_string r +:+ " GB"));
  m ← get drive "model";
  let model := or_else m (VStr "Unknown") in
  len ← get model "length";
  len ← to_number len;
  model ←
    (if Number.gtb len (Number.of_Z 20)
     then match model with
          | VStr s => Ok (VStr (String.substring 0 17 s +:+ "..."))
          | _ => Throw (TypeError "substring is not a function")
          end
     else Ok model);
  title ← to_string m;
  model ← to_string model;
  type ← get drive "type";
  type ← to_string type;
  Ok (DriveItem title model type sizeStr).

Definition updateSystemInfo (system : value) : M unit :=
  available ← lift (get system "available");
  if negb (truthy available) then mret ()
  else
    uptime ← lift (get system "uptime");
    (if truthy uptime then setText "sys-uptime" uptime else mret ());;
    motherboard ← lift (get system "motherboard");
    (if truthy motherboard
     then product ← lift (get motherboard "product");
          setText "sys-mb-model" (or_else product (VStr "--"))
     else mret ());;
    drives ← lift (get system "drives");
    some ← lift (if truthy drives
                 then len ← get drives "length";
                      len ← to_number len;
                      Ok (Number.gtb len (Number.of_Z 0))
                 else Ok false);
    if some : bool then
      container ← getElementById "sys-drives";
      match container with
      | None => mret ()
      | Some container =>
          l ← lift (array_of drives "map");
          items ← lift (mapM drive_item l);
          set_innerHTML container items
      end
    else mret ().

Definition dashboard_fans (data : value) : M unit :=
  fans ← lift (get data "fans");
  if truthy fans then updateFansList fans else mret ().

Definition dashboard_processes (data : value) : M unit :=
  processes ← lift (get data "processes");
  if truthy processes then updateProcessList processes else mret ().

Definition dashboard_system (data : value) : M unit :=
  system ← lift (get data "system");
  if truthy system then updateSystemInfo system else mret ().

Definition updateDashboard (data : value) : M unit :=
  dashboard_cpu data;;
  dashboard_gpu data;;
  dashboard_memory data;;
  dashboard_network data;;
  dashboard_ping data;;
  dashboard_disk data;;
  dashboard_fans data;;
  dashboard_processes data;;
  dashboard_system data.

(** *** The connection *)

Definition connect : M unit :=
  loc ← read location;
  let protocol := if String.eqb loc.1 "https:" then "wss:" else "ws:" in
  let wsUrl := protocol +:+ "//" +:+ loc.2 +:+ "/ws" in
  write (λ st,
    set_ws (Some (length (sockets st)))
      (set_sockets (sockets st ++ [Socket wsUrl CONNECTING (now st) None]) st)).

(** [setTimeout(() => this.connect(), delay)]: a timer due [delay]
    milliseconds from now. *)
Definition setTimeout_connect (delay : Z) : M unit :=
  write (λ st, set_timers (timers st ++ [now st + delay]) st).

Definition onopen : M unit := updateConnectionStatus true.

Definition onclose : M unit :=
  updateConnectionStatus false;;
  setTimeout_connect 2000.

Definition onerror : M unit := console_error "WebSocket error:" None.

Definition onmessage (event_data : string) : M unit :=
  try_catch
    (data ← lift (match JSON_parse event_data with
                  | Some v => Ok v
                  | None => Throw (SyntaxError "JSON.parse")
                  end);
     updateDashboard data)
    (λ e, console_error "Failed to parse message:" (Some e)).

Definition init : M unit :=
  setupCharts;;
  connect.

(** [new PCMonitor()] on a page with the elements [doc], loaded from
    [loc] (protocol and host) at time [t]. *)
Definition constructor (doc : gmap string element) (loc : string * string)
    (t : Z) : state :=
  (init (State None ∅ 60 (num 0) doc loc [] [] [] t)).2.

(** ** Events

    The browser runs one handler at a time, to completion.  A socket is
    opened at most once and closed at most once, messages arrive while it
    is open, and a timer fires no sooner than it is due. *)
Inductive event :=
  | Open (i : nat)
  | Close (i : nat)
  | Error (i : nat)
  | Message (i : nat) (data : string)
  | Timer (k : nat)
  | Elapse (d : Z).

(** The state a handler leaves; an exception it lets through is reported
    by the browser and goes no further. *)
Definition run (handler : M unit) (st : state) : state := (handler st).2.

Definition set_socket (i : nat) (s : socket) (st : state) : state :=
  set_sockets (<[i := s]> (sockets st)) st.

Definition dispatch (ev : event) (st : state) : option state :=
  match ev with
  | Open i =>
      s ← sockets st !! i;
      match ready s with
      | CONNECTING =>
          Some (run onopen (set_socket i (Socket (url s) OPEN (created s) None) st))
      | _ => None
      end
  | Close i =>
      s ← sockets st !! i;
      match ready s with
      | CLOSED => None
      | _ =>
          Some (run onclose
                  (set_socket i (Socket (url s) CLOSED (created s) (Some (now st))) st))
      end
  | Error i =>
      s ← sockets st !! i;
      match ready s with
      | CLOSED => None
      | _ => Some (run onerror st)
      end
  | Message i data =>
      s ← sockets st !! i;
      match ready s with
      | OPEN => Some (run (onmessage data) st)
      | _ => None
      end
  | Timer k =>
      due ← timers st !! k;
      if bool_decide (due ≤ now st)
      then Some (run connect (set_timers (delete k (timers st)) st))
      else None
  | Elapse d =>
      if bool_decide (0 ≤ d) then Some (set_now (now st + d) st) else None
  end.

(** The states the page goes through from [st0]. *)
Inductive reachable (st0 : state) : state → Prop :=
  | reachable_start : reachable st0 st0
  | reachable_step st ev st' :
      reachable st0 st → dispatch ev st = Some st' → reachable st0 st'.

Fixpoint play (evs : list event) (st : state) : option state :=
  match evs with
  | [] => Some st
  | ev :: evs => st' ← dispatch ev st; play evs st'
  end.

(** ** Observations and specification-side definitions *)

(** The text and the list content an element shows, if the page has it. *)
Definition text_of (st : state) (id : string) : option string :=
  textContent <$> document st !! id.
Definition html_of (st : state) (id : string) : option (list markup) :=
  innerHTML <$> document st !! id.


(** Every series of the chart holds exactly 60 values, and did so whenever
    the chart was drawn. *)
Definition chart_ok (c : chart) : Prop :=
  (∀ d, d ∈ datasets c → length d = 60%nat)
  ∧ (∀ snap d, snap ∈ drawn c → d ∈ snap → length d = 60%nat).

Definition series_ok (st : state) : Prop :=
  ∀ id c, charts st !! id = Some c → chart_ok c.

(** What a window of capacity 60 shows after the values [l] were pushed,
    oldest first, onto the initial sentinels. *)
Definition window (l : list value) : list value :=
  drop (length l) (replicate 60 VNull ++ l).

(** The categories of a frame, the property of the frame that carries each
    and the part of the view each one owns: elements, charts and, for
    memory, [totalMemoryGB]. *)
Inductive category :=
  | Cpu | Gpu | Memory | Network | Ping | Disk | Fans | Processes | System.

Definition key (c : category) : string :=
  match c with
  | Cpu => "cpu" | Gpu => "gpu" | Memory => "memory" | Network => "network"
  | Ping => "ping" | Disk => "disk" | Fans => "fans" | Processes => "processes"
  | System => "system"
  end.

Fixpoint starts_with (p s : string) : bool :=
  match p, s with
  | "", _ => true
  | String a p, String b s => Ascii.eqb a b && starts_with p s
  | String _ _, "" => false
  end.

Definition is_core_bar (id : string) : bool := starts_with "core-bar-" id.

Definition targets (c : category) (id : string) : bool :=
  match c with
  | Cpu =>
      bool_decide (id ∈ ["cpu-name"; "cpu-usage"; "cpu-freq"; "cpu-cores"; "cpu-threads";
                         "cpu-temp"; "cpu-l2"; "cpu-l3"; "cpu-core-bars"])
      || is_core_bar id
  | Gpu =>
      bool_decide (id ∈ ["gpu-name"; "gpu-usage"; "gpu-temp"; "gpu-vram"; "gpu-clock";
                         "gpu-mem-clock"; "gpu-fan"; "gpu-power";
                         "gpu-usage-gauge .gauge-fill"; "gpu-temp-gauge .gauge-fill";
                         "gpu-vram-bar"])
  | Memory =>
      bool_decide (id ∈ ["mem-pct"; "mem-used-total"; "mem-speed"; "mem-type";
                         "mem-slots"; "memory-gauge .gauge-fill";
                         "memory-gauge .gauge-text"])
  | Network => bool_decide (id ∈ ["net-down"; "net-up"])
  | Ping => bool_decide (id ∈ ["ping-value"])
  | Disk => bool_decide (id ∈ ["disk-read"; "disk-write"])
  | Fans => bool_decide (id ∈ ["fans-list"])
  | Processes => bool_decide (id ∈ ["process-list"])
  | System => bool_decide (id ∈ ["sys-uptime"; "sys-mb-model"; "sys-drives"])
  end.

Definition series (c : category) (id : string) : bool :=
  match c with
  | Cpu => bool_decide (id = "cpu-chart")
  | Gpu => bool_decide (id = "gpu-chart")
  | Memory => bool_decide (id = "memory-chart")
  | Network => bool_decide (id = "network-chart")
  | Disk => bool_decide (id = "disk-chart")
  | _ => false
  end.

Definition owns_total (c : category) : bool :=
  match c with Memory => true | _ => false end.

(** [st'] differs from [st] at most in the elements [D], the charts [C]
    and, if [mem], in [totalMemoryGB]. *)
Definition only (D C : string → bool) (mem : bool) (st st' : state) : Prop :=
  (∀ id, D id = false → document st' !! id = document st !! id)
  ∧ (∀ id, C id = false → charts st' !! id = charts st !! id)
  ∧ (mem = false → totalMemoryGB st' = totalMemoryGB st)
  ∧ ws st' = ws st ∧ maxHistoryLength st' = maxHistoryLength st
  ∧ location st' = location st ∧ console st' = console st
  ∧ sockets st' = sockets st ∧ timers st' = timers st ∧ now st' = now st.

(** The slice of the category [c] is the same in [st] and [st']. *)
Definition same_slice (c : category) (st st' : state) : Prop :=
  (∀ id, targets c id = true → document st' !! id = document st !! id)
  ∧ (∀ id, series c id = true → charts st' !! id = charts st !! id)
  ∧ (owns_total c = true → totalMemoryGB st' = totalMemoryGB st).

(** A statement [m] relates every state to the state it leaves, however
    it ends. *)
Definition respects {A} (R : state → state → Prop) (m : M A) : Prop :=
  ∀ st, R st (m st).2.

Local Open Scope nat_scope.

(** What each part of updateDashboard may write. *)
Definition footprint_of (c : category) : state → state → Prop :=
  only (targets c) (series c) (owns_total c).

(** The part of updateDashboard that handles the category [c]. *)
Definition branch (c : category) : value → M unit :=
  match c with
  | Cpu => dashboard_cpu | Gpu => dashboard_gpu | Memory => dashboard_memory
  | Network => dashboard_network | Ping => dashboard_ping | Disk => dashboard_disk
  | Fans => dashboard_fans | Processes => dashboard_processes
  | System => dashboard_system
  end.

(** The chart [c] with its series [i] replaced by [d], and [c] redrawn. *)
Definition on_series (i : nat) (d : list value) (c : chart) : chart :=
  Chart (labels c) (<[i := d]> (datasets c)) (drawn c).
Definition redrawn (c : chart) : chart :=
  Chart (labels c) (datasets c) (drawn c ++ [datasets c]).

(** A push: what a window holds once [v] came in at the tail and the head
    went out. *)
Definition slide (d : list value) (v : value) : list value := drop 1 (d ++ [v]).

(** The calls that push into a series. *)
Inductive push :=
  | Push (chartId : string) (v : value)
  | PushPair (chartId : string) (value1 value2 : value).

Definition apply_push (p : push) : M unit :=
  match p with
  | Push chartId v => updateChart chartId v
  | PushPair chartId value1 value2 => updateDualChart chartId value1 value2
  end.

Definition pushes (ps : list push) (st : state) : state :=
  foldl (λ st p, run (apply_push p) st) st ps.

(** The charts a new monitor has: one series for cpu, gpu and memory, two
    for network and disk, each of 60 sentinels, none where the page has no
    canvas. *)
Definition fresh_chart (n : nat) : chart :=
  Chart (replicate 60 "") (replicate n (replicate 60 VNull)) [].

(** Charts are only ever added by the constructor, as fresh charts. *)
Definition adds_fresh (st st' : state) : Prop :=
  ∀ id c, charts st' !! id = Some c →
    charts st !! id = Some c
    ∨ (id ∈ ["cpu-chart"; "gpu-chart"; "memory-chart"] ∧ c = fresh_chart 1)
    ∨ (id ∈ ["network-chart"; "disk-chart"] ∧ c = fresh_chart 2).

Definition pushPairs (id : string) (ps : list (value * value)) (st : state) : state :=
  foldl (λ st p, run (updateDualChart id p.1 p.2) st) st ps.

(** A two-series chart after the pairs [ps] went in, with what was drawn
    on the way: the two windows after each of the calls. *)
Definition snapshot (ps : list (value * value)) : list (list value) :=
  [window ps.*1; window ps.*2].
Definition dual_after (ps : list (value * value)) : chart :=
  Chart (replicate 60 "") (snapshot ps) ((λ k, snapshot (take k ps)) <$> seq 1 (length ps)).

(** A socket that has not had its close event. *)
Definition live (s : socket) : bool :=
  match ready s with CLOSED => false | _ => true end.

(** The connections in flight. *)
Definition connections (st : state) : nat := length (List.filter live (sockets st)).

(** Each socket but the first was constructed 2000 ms or more after the
    close event of the one before it. *)
Definition spaced (l : list socket) : Prop :=
  ∀ j a b, l !! j = Some a → l !! S j = Some b →
    ∃ t, closed a = Some t ∧ (t + 2000 ≤ created b)%Z.

(** What holds of the connection at every moment: all sockets but the
    newest are closed and [ws] is the newest; while the newest is live no
    timer is pending, and once it is closed exactly one is, due 2000 ms
    after the close. *)
Definition connection_ok (st : state) : Prop :=
  ∃ older newest,
    sockets st = older ++ [newest]
    ∧ Forall (λ s, ready s = CLOSED) older
    ∧ ws st = Some (length older)
    ∧ spaced (sockets st)
    ∧ (if live newest then timers st = []
       else ∃ t, closed newest = Some t ∧ timers st = [(t + 2000)%Z]).

(** [st'] has the connection, the timers and the clock of [st]. *)
Definition same_connection (st st' : state) : Prop :=
  ws st' = ws st ∧ sockets st' = sockets st ∧ timers st' = timers st
  ∧ now st' = now st ∧ location st' = location st.

(** At most one connection and at most one reconnect timer are in flight. *)
Definition one_in_flight (st : state) : Prop :=
  connections st ≤ 1 ∧ length (timers st) ≤ 1.

(** The discipline as the specification has it, for a connection attempt
    and for a close event whenever they come: what is stale is invalidated,
    so that one connection and one timer at most are in flight afterwards. *)
Definition reconnect_as_stated : Prop :=
  ∀ st, one_in_flight st →
    one_in_flight (run connect st) ∧ one_in_flight (run onclose st).

Definition set_text (s : string) (e : element) : element :=
  Element s (innerHTML e) (style e) (classList e).
Definition set_html (h : list markup) (e : element) : element :=
  Element (textContent e) h (style e) (classList e).

(** The chart [c] after [v] was pushed into its first series and it was
    redrawn. *)
Definition pushed (v : value) (c : chart) : chart :=
  redrawn (on_series 0 (slide (default [] (datasets c !! 0)) v) c).


Definition element_at (k : string) (st : state) : option element := document st !! k.
Definition chart_at (id : string) (st : state) : option chart := charts st !! id.

(** [m] leaves the observation [obs] as it is, however it ends. *)
Definition keeps {X A} (obs : state → X) (m : M A) : Prop :=
  respects (λ st st', obs st' = obs st) m.

(** When [m] ends normally it has changed the observation [obs] by one of
    the functions [G]. *)
Definition changes {X A} (obs : state → X) (G : (X → X) → Prop) (m : M A) : Prop :=
  ∀ st a st', m st = (Ok a, st') → ∃ g, G g ∧ obs st' = g (obs st).

(** The footprint of the category [c] without the element [k], without
    the chart [id]. *)
Definition targets_but (c : category) (k id : string) : bool :=
  targets c id && negb (String.eqb id k).
Definition series_but (c : category) (k id : string) : bool :=
  series c id && negb (String.eqb id k).

(** The element [k], if the page has it, shows [s] in [st']. *)
Definition shows (st st' : state) (k s : string) : Prop :=
  text_of st' k = (λ _, s) <$> text_of st k.

(** An entry that [processes.filter] keeps: its name is not that of the
    idle process. *)
Definition kept (p : value) : bool :=
  match get p "name" with
  | Ok name => negb (strict_eq_str name "System Idle Process")
  | Throw _ => false
  end.

(** A process entry as the producer sends it: an object with a name, a
    numeric [cpu_percent] and, if any, a numeric [memory_percent]. *)
Definition process_entry (p : value) : Prop :=
  ∃ m name cpu_percent,
    p = VObj m ∧ m !! "name" = Some (VStr name)
    ∧ m !! "cpu_percent" = Some (VNum cpu_percent)
    ∧ (m !! "memory_percent" = None ∨ ∃ f, m !! "memory_percent" = Some (VNum f)).

Definition entry_name (p : value) : string :=
  match get p "name" with Ok (VStr name) => name | _ => "" end.

(** The entries the specification has displayed: the idle process taken
    out, then the first 8 that remain. *)
Definition displayed_spec (processes : list value) : list value :=
  take 8 (List.filter kept processes).

Definition item_name (item : markup) : string :=
  match item with ProcessItem _ name _ _ => name | _ => "" end.


(** The frame [{ "processes": [ { "name": "chrome", "memory_percent": 2 } ] }]. *)
Definition no_cpu_percent : value :=
  VObj {[ "processes" :=
            VArr [VObj {[ "name" := VStr "chrome"; "memory_percent" := num 2 ]}] ]}.

(** A fan entry with a name only. *)
Definition bare_fan : value := VObj {[ "name" := VStr "CPU Fan" ]}.

Definition placeholder (s : string) : Prop := s = "--" ∨ s = "N/A".

(** For the usage scalar: on a frame with a cpu category and no usage
    field, the usage display is left as it was, or shows a placeholder. *)
Definition usage_policy_as_stated : Prop :=
  ∀ data cpu st st',
    get data "cpu" = Ok cpu → truthy cpu = true →
    get cpu "usage" = Ok VUndefined →
    updateDashboard data st = (Ok (), st') →
    text_of st' "cpu-usage" = text_of st "cpu-usage"
    ∨ ∃ s, text_of st' "cpu-usage" = Some s ∧ placeholder s.

(** *** The monitor as a whole, and the parts the claims leave out *)

(** What the status indicator shows: the text of [status-text], and
    whether [status-dot] carries the class [connected]. *)
Definition status_shown (st : state) (connected : bool) : Prop :=
  text_of st "status-text" = Some (if connected then "Connected" else "Disconnected")
  ∧ ∃ dot, document st !! "status-dot" = Some dot
           ∧ ("connected" ∈ classList dot ↔ connected = true).

(** The indicator agrees with the newest socket: connected when it is
    open, disconnected when it is closed or is a later attempt still
    connecting; during the first attempt the page shows what it was
    loaded with. *)
Definition status_of (st : state) (newest : socket) : Prop :=
  match ready newest with
  | OPEN => status_shown st true
  | CLOSED => status_shown st false
  | CONNECTING => length (sockets st) = 1 ∨ status_shown st false
  end.

Definition status_ok (st : state) : Prop :=
  is_Some (document st !! "status-dot") ∧ is_Some (document st !! "status-text")
  ∧ ∃ newest, last (sockets st) = Some newest ∧ status_of st newest.

(** The canvases [setupCharts] looks for. *)
Definition canvases : list string :=
  ["cpu-chart"; "gpu-chart"; "memory-chart"; "network-chart"; "disk-chart"].

(** The chart under [id] is as [setupCharts] made it: sixty empty labels,
    one series, or two for the network and the disk, every series of sixty
    values, also in every drawing. *)
Definition chart_shape (id : string) (c : chart) : Prop :=
  labels c = replicate 60 ""
  ∧ length (datasets c) =
      (if bool_decide (id ∈ ["network-chart"; "disk-chart"]) then 2 else 1)
  ∧ chart_ok c.

(** [st'] has the charts of [st], each with the labels and the number of
    series it had, and with series of sixty values if it had such. *)
Definition charts_kept (st st' : state) : Prop :=
  ∀ id,
    match charts st !! id, charts st' !! id with
    | None, None => True
    | Some c, Some c' =>
        labels c' = labels c ∧ length (datasets c') = length (datasets c)
        ∧ (chart_ok c → chart_ok c')
    | _, _ => False
    end.

(** The charts [createChart] and [createDualChart] leave: a fresh chart of
    [n] series under [id] if the page [doc] has that canvas. *)
Definition with_canvas (doc : gmap string element) (n : nat) (id : string)
    (cs : gmap string chart) : gmap string chart :=
  if decide (is_Some (doc !! id)) then <[id := fresh_chart n]> cs else cs.

(** The value of the property [k] of [v], [undefined] where [v] has no
    properties. *)
Definition field (v : value) (k : string) : value :=
  match get v k with Ok x => x | Throw _ => VUndefined end.

Definition is_number (v : value) : bool :=
  match v with VNum _ => true | _ => false end.
Definition primitive (v : value) : bool :=
  match v with VArr _ | VObj _ => false | _ => true end.

(** ToString of the value does not throw. *)
Definition printable (v : value) : bool :=
  match to_string v with Ok _ => true | Throw _ => false end.

(** What the reducer asks of a field it calls [toFixed] on behind a
    truthiness test or a default ([v || 0], [v ? .. : ..]), behind an
    optional call ([v?.toFixed]), and of one it maps over behind such a
    test. *)
Definition number_if_truthy (v : value) : bool := negb (truthy v) || is_number v.
Definition number_if_given (v : value) : bool := is_nullish v || is_number v.
Definition list_if_truthy (P : value → bool) (v : value) : bool :=
  match v with VArr l => forallb P l | _ => negb (truthy v) end.

(** A category that is there: [P] holds of it. *)
Definition when (v : value) (P : value → bool) : bool := negb (truthy v) || P v.

(** What each part of the reducer asks of its category, read off the
    calls it makes. *)
Definition cpu_fields (cpu : value) : bool :=
  forallb (λ k, number_if_truthy (field cpu k)) ["usage"; "temperature"]
  && forallb (λ k, printable (field cpu k))
       ["name"; "frequency"; "cores"; "threads"; "l2_cache_kb"; "l3_cache_kb"]
  && list_if_truthy printable (field cpu "per_core").

Definition gpu_fields (gpu : value) : bool :=
  forallb (λ k, number_if_truthy (field gpu k)) ["usage"; "power"]
  && forallb (λ k, number_if_given (field gpu k))
       ["memory_used"; "memory_total"; "power_limit"]
  && forallb (λ k, printable (field gpu k))
       ["name"; "temperature"; "graphics_clock"; "memory_clock"; "fan_speed";
        "memory_percent"].

Definition memory_fields (memory : value) : bool :=
  number_if_truthy (field memory "percent")
  && forallb (λ k, number_if_given (field memory k)) ["total"; "used"]
  && forallb (λ k, printable (field memory k))
       ["speed"; "type"; "slots_used"; "slots_total"].

Definition rate_fields (k1 k2 : string) (v : value) : bool :=
  number_if_truthy (field v k1) && number_if_truthy (field v k2).

Definition ping_fields (ping : value) : bool := printable (field ping "ping").

Definition fan_fields (fan : value) : bool :=
  negb (is_nullish fan)
  && forallb (λ k, printable (field fan k)) ["percent"; "rpm"; "name"].

Definition fans_fields (fanData : value) : bool :=
  list_if_truthy fan_fields (field fanData "fans").

Definition process_fields (p : value) : bool :=
  negb (is_nullish p)
  && is_number (field p "cpu_percent")
  && forallb (λ k, printable (field p k)) ["memory_percent"; "name"].

Definition drive_fields (drive : value) : bool :=
  negb (is_nullish drive)
  && primitive (field drive "model")
  && forallb (λ k, printable (field drive k)) ["size_gb"; "type"].

Definition system_fields (system : value) : bool :=
  printable (field system "uptime")
  && printable (field (field system "motherboard") "product")
  && list_if_truthy drive_fields (field system "drives").

(** A frame every part of the reducer can work on. *)
Definition frame_fields (data : value) : bool :=
  negb (is_nullish data)
  && when (field data "cpu") cpu_fields
  && when (field data "gpu") (λ gpu, when (field gpu "available") (λ _, gpu_fields gpu))
  && when (field data "memory") memory_fields
  && when (field data "network") (rate_fields "download_rate" "upload_rate")
  && when (field data "ping") ping_fields
  && when (field data "disk") (rate_fields "read_rate" "write_rate")
  && when (field data "fans") fans_fields
  && list_if_truthy process_fields (field data "processes")
  && when (field data "system")
       (λ system, when (field system "available") (λ _, system_fields system)).

Definition is_Ok {A} (r : result A) : Prop := ∃ a, r = Ok a.

(** The monitor is prepared for a frame: its charts are as [setupCharts] made
    them and [totalMemoryGB] is a number. *)
Definition prepared (st : state) : Prop :=
  (∀ id c, charts st !! id = Some c → chart_shape id c)
  ∧ is_number (totalMemoryGB st) = true.

(** From a state that is prepared, [m] ends normally, in a state that is
    prepared and has the console of the first. *)
Definition completes {A} (m : M A) : Prop :=
  ∀ st, prepared st → ∃ a st', m st = (Ok a, st') ∧ prepared st' ∧ console st' = console st.

(** An event the monitor expects: a message, if it is one, decodes to a
    frame every part of the reducer can work on. *)
Definition expected (ev : event) : Prop :=
  match ev with
  | Message _ raw => ∃ data, JSON_parse raw = Some data ∧ frame_fields data = true
  | _ => True
  end.

(** The element [e] with the style property [prop] set to [s]. *)
Definition with_style (prop s : string) (e : element) : element :=
  Element (textContent e) (innerHTML e) (<[prop := s]> (style e)) (classList e).


(** The bar of a core at [usage] percent. *)
Definition bar_at (usage : spec_float) (bar : element) : element :=
  let pct := Number.to_string (Number.min usage (Number.of_Z 100)) +:+ "%" in
  with_style "background"
    ("linear-gradient(to top, var(--accent-green) " +:+ pct +:+
     ", var(--bg-secondary) " +:+ pct +:+ ")")
    (with_style "--bar-height" pct bar).

(** The page once the bars [i], [i+1], ... are at the usages [fs]. *)
Fixpoint paint (fs : list spec_float) (i : nat) (doc : gmap string element) :
    gmap string element :=
  match fs with
  | [] => doc
  | f :: fs => paint fs (S i) (alter (bar_at f) (core_bar_id i) doc)
  end.

(** The page with the children of [container] replaced by [n] new bars. *)
Definition rebuilt (container : string) (n : nat) (doc : gmap string element) :
    gmap string element :=
  alter (set_html (CoreBar <$> seq 0 n)) container
    (foldr (λ i d, <[core_bar_id i := Element "" [] ∅ ∅]> d)
       (foldr (λ h d, if h is CoreBar j then delete (core_bar_id j) d else d) doc
          (from_option innerHTML [] (doc !! container)))
       (seq 0 n)).

(** A fan as the producer reports it: a name, and a percentage and a
    speed that are numbers or [null]. *)
Definition fan_entry (fan : string * option spec_float * option spec_float) : value :=
  VObj {[ "name" := VStr fan.1.1;
          "percent" := from_option VNum VNull fan.1.2;
          "rpm" := from_option VNum VNull fan.2 ]}.

(** The row of the fan: its name, the width of its bar and what is shown
    of its speed. *)
Definition fan_row (fan : string * option spec_float * option spec_float) : markup :=
  FanItem fan.1.1 (from_option Number.to_string "0" fan.1.2)
    match fan.1.2, fan.2 with
    | Some p, Some r =>
        [("fan-percent", Number.to_string p +:+ "%");
         ("fan-rpm", Number.to_string r +:+ " RPM")]
    | Some p, None => [("fan-percent", Number.to_string p +:+ "%")]
    | None, Some r => [("fan-percent", Number.to_string r +:+ " RPM")]
    | None, None => [("fan-percent", "--")]
    end.

(** The chart [c] after [v1] and [v2] were pushed into its two series and
    it was redrawn. *)
Definition pushed_pair (v1 v2 : value) (c : chart) : chart :=
  redrawn (on_series 1 (slide (default [] (datasets c !! 1)) v2)
             (on_series 0 (slide (default [] (datasets c !! 0)) v1) c)).

(** [st'] is [st] outside the panels: in the charts that belong to no
    category, in the connection, the timers, the clock, the location, the
    console and [maxHistoryLength]. *)
Definition outside_panels (st st' : state) : Prop :=
  (∀ id, (∀ c, series c id = false) → charts st' !! id = charts st !! id)
  ∧ ws st' = ws st ∧ sockets st' = sockets st ∧ timers st' = timers st
  ∧ now st' = now st ∧ location st' = location st ∧ console st' = console st
  ∧ maxHistoryLength st' = maxHistoryLength st.

(** ** Basic facts about statements *)

Lemma bind_Ok {A B} (m : M A) (f : A → M B) st a st' :
  m st = (Ok a, st') → (m ≫= f) st = f a st'.
Proof. intros H. unfold mbind, M_bind. by rewrite H. Qed.

Lemma bind_Throw {A B} (m : M A) (f : A → M B) st e st' :
  m st = (Throw e, st') → (m ≫= f) st = (Throw e, st').
Proof. intros H. unfold mbind, M_bind. by rewrite H. Qed.

Lemma bind_Ok_inv {A B} (m : M A) (f : A → M B) st b st' :
  (m ≫= f) st = (Ok b, st') →
  ∃ a st1, m st = (Ok a, st1) ∧ f a st1 = (Ok b, st').
Proof.
  unfold mbind, M_bind. destruct (m st) as [[a|e] st1]; [eauto | discriminate].
Qed.

Lemma lift_Ok_inv {A} (r : result A) st a st' :
  lift r st = (Ok a, st') → r = Ok a ∧ st' = st.
Proof. unfold lift. by intros [= -> ->]. Qed.

Section respects.
Context (R : state → state → Prop) `{!PreOrder R}.

Lemma respects_ret {A} (a : A) : respects R (mret a).
Proof. intros st. reflexivity. Qed.

Lemma respects_lift {A} (r : result A) : respects R (lift r).
Proof. intros st. reflexivity. Qed.

Lemma respects_read {A} (f : state → A) : respects R (read f).
Proof. intros st. reflexivity. Qed.

Lemma respects_write (f : state → state) :
  (∀ st, R st (f st)) → respects R (write f).
Proof. intros H st. apply H. Qed.

Lemma respects_bind {A B} (m : M A) (f : A → M B) :
  respects R m → (∀ a, respects R (f a)) → respects R (m ≫= f).
Proof.
  intros Hm Hf st. specialize (Hm st). unfold mbind, M_bind.
  destruct (m st) as [[a|e] st1]; simpl in *; [|done].
  by etrans; [|apply Hf].
Qed.

Lemma respects_lift_bind {A B} (r : result A) (f : A → M B) :
  (∀ a, r = Ok a → respects R (f a)) → respects R (lift r ≫= f).
Proof.
  intros Hf st. unfold mbind, M_bind, lift.
  destruct r as [a|e]; [by apply Hf | reflexivity].
Qed.

Lemma respects_getElementById_bind {B} id (f : option string → M B) :
  respects R (f None) → respects R (f (Some id)) → respects R (getElementById id ≫= f).
Proof.
  intros HN HS st. unfold mbind, M_bind, getElementById, read.
  destruct (decide _); [apply HS | apply HN].
Qed.

Lemma respects_try_catch (body : M unit) (handler : exn → M unit) :
  respects R body → (∀ e, respects R (handler e)) → respects R (try_catch body handler).
Proof.
  intros Hb Hh st. specialize (Hb st). unfold try_catch.
  destruct (body st) as [[[]|e] st1]; simpl in *; [done|].
  by etrans; [|apply Hh].
Qed.

Lemma respects_forEach (f : value → nat → M unit) l i :
  (∀ x j, respects R (f x j)) → respects R (forEach f l i).
Proof.
  intros Hf. revert i. induction l as [|x l IH]; intros i; simpl.
  - apply respects_ret.
  - apply respects_bind; [apply Hf | intros _; apply IH].
Qed.

End respects.

(** ** Footprints *)

#[local] Instance only_preorder D C mem : PreOrder (only D C mem).
Proof.
  split.
  - intros st. by repeat split.
  - intros st1 st2 st3 (Hd & Hc & Hm & ? & ? & ? & ? & ? & ? & ?)
      (Hd' & Hc' & Hm' & ? & ? & ? & ? & ? & ? & ?).
    repeat split; try congruence.
    + intros id Hid. by rewrite Hd', Hd.
    + intros id Hid. by rewrite Hc', Hc.
    + intros Hmem. by rewrite Hm', Hm.
Qed.

Lemma only_set_document D C mem st doc :
  (∀ id, D id = false → doc !! id = document st !! id) →
  only D C mem st (set_document doc st).
Proof. intros H. by repeat split. Qed.

Lemma only_set_charts D C mem st cs :
  (∀ id, C id = false → cs !! id = charts st !! id) →
  only D C mem st (set_charts cs st).
Proof. intros H. by repeat split. Qed.

Section footprint.
Context (D C : string → bool) (mem : bool).

Lemma only_modify el f : D el = true → respects (only D C mem) (modify el f).
Proof.
  intros Hel st. apply only_set_document. intros id Hid.
  apply lookup_alter_ne. congruence.
Qed.

Lemma only_set_textContent el s :
  D el = true → respects (only D C mem) (set_textContent el s).
Proof. apply only_modify. Qed.

Lemma only_set_innerHTML el h :
  D el = true → respects (only D C mem) (set_innerHTML el h).
Proof. apply only_modify. Qed.

Lemma only_set_style el prop s :
  D el = true → respects (only D C mem) (set_style el prop s).
Proof. apply only_modify. Qed.

Lemma only_classList_toggle el cls force :
  D el = true → respects (only D C mem) (classList_toggle el cls force).
Proof. apply only_modify. Qed.

Lemma only_with_data id i f : C id = true → respects (only D C mem) (with_data id i f).
Proof.
  intros Hid st. unfold with_data.
  destruct (charts st !! id) as [c|]; [|reflexivity].
  destruct (datasets c !! i); [|reflexivity].
  apply only_set_charts. intros id' Hid'. apply lookup_insert_ne. congruence.
Qed.

Lemma only_chart_update id : C id = true → respects (only D C mem) (chart_update id).
Proof.
  intros Hid st. apply only_set_charts. intros id' Hid'.
  apply lookup_alter_ne. congruence.
Qed.

Lemma only_rebuild_core_bars container n :
  D container = true → (∀ i, D (core_bar_id i) = true) →
  respects (only D C mem) (rebuild_core_bars container n).
Proof.
  intros Hc Hb. unfold rebuild_core_bars.
  apply respects_bind; [apply _ | | intros _; by apply only_modify].
  intros st. apply only_set_document. intros id Hid.
  induction (seq 0 n) as [|i l IH]; simpl.
  - induction (from_option innerHTML [] (document st !! container)) as [|h l IH];
      simpl; [done|].
    destruct h; try done. rewrite lookup_delete_ne; [done|].
    intros <-. by rewrite Hb in Hid.
  - rewrite lookup_insert_ne; [done|]. intros <-. by rewrite Hb in Hid.
Qed.

End footprint.

(** One step of a footprint proof: split a sequence, skip a pure step,
    branch on a test. *)
Ltac footprint_side := first [assumption | reflexivity | done].

(** Two evaluations of one pure expression gave the same value. *)
Ltac same_result :=
  repeat match goal with
    | H1 : ?r = Ok ?x, H2 : ?r = Ok ?y |- _ =>
        first [ constr_eq x y; clear H2
              | assert (y = x) by congruence; subst y; clear H2 ]
    end.

Ltac footprint_step :=
  cbv beta zeta;
  lazymatch goal with
  | |- respects _ (getElementById _ ≫= _) => apply respects_getElementById_bind
  | |- respects _ (querySelector _ ≫= _) => apply respects_getElementById_bind
  | |- respects _ (lift _ ≫= _) =>
      apply respects_lift_bind; [apply _ | intros ? ?; same_result]
  | |- respects _ (_ ≫= _) => apply respects_bind; [apply _ | | intros ?]
  | |- respects _ (mret _) => apply respects_ret; apply _
  | |- respects _ (lift _) => apply respects_lift; apply _
  | |- respects _ (read _) => apply respects_read; apply _
  | |- respects _ (write _) =>
      apply respects_write; intros ?; repeat split; done
  | |- respects _ (set_textContent _ _) => apply only_set_textContent; footprint_side
  | |- respects _ (set_innerHTML _ _) => apply only_set_innerHTML; footprint_side
  | |- respects _ (set_style _ _ _) => apply only_set_style; footprint_side
  | |- respects _ (classList_toggle _ _ _) => apply only_classList_toggle; footprint_side
  | |- respects _ (data_push _ _ _) => apply only_with_data; footprint_side
  | |- respects _ (data_shift _ _) => apply only_with_data; footprint_side
  | |- respects _ (chart_update _) => apply only_chart_update; footprint_side
  | |- respects _ (rebuild_core_bars _ _) => apply only_rebuild_core_bars; footprint_side
  | |- respects _ (forEach _ _ _) => apply respects_forEach; [apply _ | intros ? ?]
  | |- respects _ (if _ then _ else _) => case_match; try congruence
  | |- respects _ (match _ with _ => _ end) => case_match; try congruence
  end.

Ltac footprint := repeat footprint_step.

Section footprint_methods.
Context (D C : string → bool) (mem : bool).

Lemma only_setText id v : D id = true → respects (only D C mem) (setText id v).
Proof. intros Hid. unfold setText. footprint. Qed.

Lemma only_updateChart id v : C id = true → respects (only D C mem) (updateChart id v).
Proof. intros Hid. unfold updateChart. footprint. Qed.

Lemma only_updateDualChart id v1 v2 :
  C id = true → respects (only D C mem) (updateDualChart id v1 v2).
Proof. intros Hid. unfold updateDualChart. footprint. Qed.

Lemma only_updateMiniGauge g v :
  D (g +:+ " .gauge-fill") = true → respects (only D C mem) (updateMiniGauge g v).
Proof. intros Hid. unfold updateMiniGauge, querySelector. footprint. Qed.

Lemma only_updateProgressBar id v :
  D id = true → respects (only D C mem) (updateProgressBar id v).
Proof. intros Hid. unfold updateProgressBar. footprint. Qed.

Lemma only_updateCoreBars perCore :
  D "cpu-core-bars" = true → (∀ i, D (core_bar_id i) = true) →
  respects (only D C mem) (updateCoreBars perCore).
Proof.
  intros Hc Hb. unfold updateCoreBars.
  footprint.
Qed.

Lemma only_updateFansList fanData :
  D "fans-list" = true → respects (only D C mem) (updateFansList fanData).
Proof. intros Hid. unfold updateFansList. footprint. Qed.

Lemma only_updateProcessList processes :
  D "process-list" = true → respects (only D C mem) (updateProcessList processes).
Proof. intros Hid. unfold updateProcessList. footprint. Qed.

Lemma only_updateSystemInfo system :
  D "sys-uptime" = true → D "sys-mb-model" = true → D "sys-drives" = true →
  respects (only D C mem) (updateSystemInfo system).
Proof.
  intros H1 H2 H3. unfold updateSystemInfo.
  repeat first [apply only_setText; assumption | footprint_step].
Qed.

End footprint_methods.

Lemma core_bar_is_target i : targets Cpu (core_bar_id i) = true.
Proof. unfold targets. apply orb_true_intro. right. reflexivity. Qed.

(** A step over a call of a method of the class. *)
Ltac footprint_call :=
  lazymatch goal with
  | |- respects _ (setText _ _) => apply only_setText; footprint_side
  | |- respects _ (updateChart _ _) => apply only_updateChart; footprint_side
  | |- respects _ (updateDualChart _ _ _) => apply only_updateDualChart; footprint_side
  | |- respects _ (updateMiniGauge _ _) => apply only_updateMiniGauge; footprint_side
  | |- respects _ (updateProgressBar _ _) => apply only_updateProgressBar; footprint_side
  | |- respects _ (updateCoreBars _) =>
      apply only_updateCoreBars;
        [ footprint_side
        | first [ apply core_bar_is_target
                | intros ?; rewrite core_bar_is_target; reflexivity ] ]
  | |- respects _ (updateFansList _) => apply only_updateFansList; footprint_side
  | |- respects _ (updateProcessList _) => apply only_updateProcessList; footprint_side
  | |- respects _ (updateSystemInfo _) => apply only_updateSystemInfo; footprint_side
  end.

Ltac footprint_all := repeat first [footprint_call | footprint_step].

Lemma footprint_cpu data : respects (footprint_of Cpu) (dashboard_cpu data).
Proof. unfold dashboard_cpu, footprint_of. footprint_all. Qed.

Lemma footprint_gpu data : respects (footprint_of Gpu) (dashboard_gpu data).
Proof. unfold dashboard_gpu, footprint_of. footprint_all. Qed.

Lemma footprint_memory data : respects (footprint_of Memory) (dashboard_memory data).
Proof. unfold dashboard_memory, footprint_of. footprint_all. Qed.

Lemma footprint_network data : respects (footprint_of Network) (dashboard_network data).
Proof. unfold dashboard_network, footprint_of. footprint_all. Qed.

Lemma footprint_ping data : respects (footprint_of Ping) (dashboard_ping data).
Proof. unfold dashboard_ping, footprint_of. footprint_all. Qed.

Lemma footprint_disk data : respects (footprint_of Disk) (dashboard_disk data).
Proof. unfold dashboard_disk, footprint_of. footprint_all. Qed.

Lemma footprint_fans data : respects (footprint_of Fans) (dashboard_fans data).
Proof. unfold dashboard_fans, footprint_of. footprint_all. Qed.

Lemma footprint_processes data :
  respects (footprint_of Processes) (dashboard_processes data).
Proof. unfold dashboard_processes, footprint_of. footprint_all. Qed.

Lemma footprint_system data : respects (footprint_of System) (dashboard_system data).
Proof. unfold dashboard_system, footprint_of. footprint_all. Qed.

(** No element and no chart belongs to two categories. *)
Lemma targets_disjoint b c id : targets b id = true → targets c id = true → b = c.
Proof.
  destruct b, c; try reflexivity; unfold targets, is_core_bar;
    rewrite ?orb_true_iff, ?bool_decide_eq_true; intros H1 H2; exfalso;
    set_unfold; destruct_or!; subst; simpl in *; discriminate.
Qed.

Lemma series_disjoint b c id : series b id = true → series c id = true → b = c.
Proof.
  destruct b, c; try reflexivity; unfold series;
    rewrite ?bool_decide_eq_true; intros H1 H2; exfalso; subst; discriminate.
Qed.


#[local] Instance same_slice_preorder c : PreOrder (same_slice c).
Proof.
  split.
  - intros st. by repeat split.
  - intros st1 st2 st3 (Hd & Hc & Hm) (Hd' & Hc' & Hm'). repeat split.
    + intros id Hid. by rewrite Hd', Hd.
    + intros id Hid. by rewrite Hc', Hc.
    + intros Hown. by rewrite Hm', Hm.
Qed.

(** ** Absent categories *)

#[local] Instance category_eq_dec : EqDecision category.
Proof. solve_decision. Defined.

Lemma updateDashboard_branches data :
  updateDashboard data =
    (branch Cpu data;; branch Gpu data;; branch Memory data;; branch Network data;;
     branch Ping data;; branch Disk data;; branch Fans data;; branch Processes data;;
     branch System data).
Proof. reflexivity. Qed.

Lemma branch_footprint c data : respects (footprint_of c) (branch c data).
Proof.
  destruct c; simpl;
    auto using footprint_cpu, footprint_gpu, footprint_memory, footprint_network,
      footprint_ping, footprint_disk, footprint_fans, footprint_processes,
      footprint_system.
Qed.

(** A category that is absent (or null, or otherwise falsy) is skipped. *)
Lemma branch_absent c data v st :
  get data (key c) = Ok v → truthy v = false → branch c data st = (Ok (), st).
Proof.
  intros Hget Hv.
  destruct c; simpl in *;
    unfold dashboard_cpu, dashboard_gpu, dashboard_memory, dashboard_network,
      dashboard_ping, dashboard_disk, dashboard_fans, dashboard_processes,
      dashboard_system, mbind, M_bind, lift;
    rewrite Hget; rewrite ?Hv; simpl; rewrite ?Hv; reflexivity.
Qed.

Lemma respects_mono {A} (R R' : state → state → Prop) (m : M A) :
  (∀ st st', R st st' → R' st st') → respects R m → respects R' m.
Proof. intros HR Hm st. apply HR, Hm. Qed.



(** ** Sliding windows *)


Lemma slide_length d v : length (slide d v) = length d.
Proof. unfold slide. rewrite length_drop, length_app. simpl. lia. Qed.

Lemma slide_nonempty d v : d ≠ [] → slide d v = drop 1 d ++ [v].
Proof. by destruct d. Qed.

Lemma updateChart_None id v st :
  charts st !! id = None → updateChart id v st = (Ok (), st).
Proof. intros H. unfold updateChart, read, mbind, M_bind. by rewrite H. Qed.

Lemma updateChart_Some id v st c d :
  charts st !! id = Some c → datasets c !! 0 = Some d →
  updateChart id v st =
    (Ok (), set_charts (<[id := redrawn (on_series 0 (slide d v) c)]> (charts st)) st).
Proof.
  intros Hc Hd. pose proof (lookup_lt_Some _ _ _ Hd) as Hlt.
  unfold updateChart, read, mbind, M_bind, data_push, data_shift, with_data, chart_update,
    write.
  rewrite Hc. simpl. rewrite Hc, Hd. simpl. rewrite lookup_insert_eq. simpl.
  rewrite list_lookup_insert_eq by done. simpl.
  unfold set_charts; simpl. do 2 f_equal.
  apply map_eq. intros j. rewrite lookup_alter. case_decide as Hj.
  - subst j. rewrite !lookup_insert_eq. simpl. unfold redrawn, on_series; simpl.
    by rewrite !list_insert_insert_eq.
  - by rewrite !lookup_insert_ne.
Qed.

Lemma updateChart_stuck id v st c :
  charts st !! id = Some c → datasets c !! 0 = None → (updateChart id v st).2 = st.
Proof.
  intros Hc Hd. unfold updateChart, read, mbind, M_bind, data_push, with_data.
  rewrite Hc. simpl. by rewrite Hc, Hd.
Qed.

Lemma updateDualChart_None id v1 v2 st :
  charts st !! id = None → updateDualChart id v1 v2 st = (Ok (), st).
Proof. intros H. unfold updateDualChart, read, mbind, M_bind. by rewrite H. Qed.

Lemma updateDualChart_Some id v1 v2 st c d1 d2 :
  charts st !! id = Some c → datasets c !! 0 = Some d1 → datasets c !! 1 = Some d2 →
  updateDualChart id v1 v2 st =
    (Ok (), set_charts
       (<[id := redrawn (on_series 1 (slide d2 v2) (on_series 0 (slide d1 v1) c))]>
          (charts st)) st).
Proof.
  intros Hc Hd1 Hd2. pose proof (lookup_lt_Some _ _ _ Hd1) as Hlt1.
  pose proof (lookup_lt_Some _ _ _ Hd2) as Hlt2.
  unfold updateDualChart, read, mbind, M_bind, data_push, data_shift, with_data,
    chart_update, write.
  rewrite Hc. simpl. rewrite Hc, Hd1. simpl. rewrite lookup_insert_eq. simpl.
  rewrite list_lookup_insert_eq by done. simpl. rewrite lookup_insert_eq. simpl.
  rewrite list_insert_insert_eq, list_lookup_insert_ne, Hd2 by done. simpl.
  rewrite lookup_insert_eq. simpl.
  rewrite list_lookup_insert_eq by (by rewrite length_insert). simpl.
  unfold set_charts; simpl. do 2 f_equal.
  apply map_eq. intros j. rewrite lookup_alter. case_decide as Hj.
  - subst j. rewrite !lookup_insert_eq. simpl. unfold redrawn, on_series; simpl.
    by rewrite !list_insert_insert_eq.
  - by rewrite !lookup_insert_ne.
Qed.

Lemma updateDualChart_half id v1 v2 st c d1 :
  charts st !! id = Some c → datasets c !! 0 = Some d1 → datasets c !! 1 = None →
  (updateDualChart id v1 v2 st).2 =
    set_charts (<[id := on_series 0 (slide d1 v1) c]> (charts st)) st.
Proof.
  intros Hc Hd1 Hd2. pose proof (lookup_lt_Some _ _ _ Hd1) as Hlt1.
  unfold updateDualChart, read, mbind, M_bind, data_push, data_shift, with_data.
  rewrite Hc. simpl. rewrite Hc, Hd1. simpl. rewrite lookup_insert_eq. simpl.
  rewrite list_lookup_insert_eq by done. simpl. rewrite lookup_insert_eq. simpl.
  rewrite list_insert_insert_eq, list_lookup_insert_ne, Hd2 by done. simpl.
  unfold set_charts, on_series; simpl. by rewrite insert_insert_eq.
Qed.

Lemma updateDualChart_stuck id v1 v2 st c :
  charts st !! id = Some c → datasets c !! 0 = None → (updateDualChart id v1 v2 st).2 = st.
Proof.
  intros Hc Hd. unfold updateDualChart, read, mbind, M_bind, data_push, with_data.
  rewrite Hc. simpl. by rewrite Hc, Hd.
Qed.

Lemma series_ok_insert st id c' :
  series_ok st → chart_ok c' → series_ok (set_charts (<[id := c']> (charts st)) st).
Proof.
  intros Hok Hc' id' c''. simpl. rewrite lookup_insert. case_decide.
  - by intros [= <-].
  - apply Hok.
Qed.

Lemma chart_ok_on_series c i d :
  chart_ok c → length d = 60 → chart_ok (on_series i d c).
Proof.
  intros [Hc Hdr] Hd. split; [|done].
  intros d' [j Hj]%list_elem_of_lookup_1. simpl in Hj.
  apply list_lookup_insert_Some in Hj as [(_ & <- & _)|[_ Hj]]; [done|].
  eapply Hc, list_elem_of_lookup_2, Hj.
Qed.

Lemma chart_ok_redrawn c : chart_ok c → chart_ok (redrawn c).
Proof.
  intros [Hc Hdr]. split; [done|]. simpl.
  intros snap d [Hsnap|Hsnap]%elem_of_app Hd.
  - by eapply Hdr.
  - apply list_elem_of_singleton in Hsnap as ->. by apply Hc.
Qed.

Lemma series_ok_updateChart id v st :
  series_ok st → series_ok (run (updateChart id v) st).
Proof.
  intros Hok. unfold run. destruct (charts st !! id) as [c|] eqn:Hc.
  - destruct (datasets c !! 0) as [d|] eqn:Hd.
    + erewrite updateChart_Some by done. cbn [snd].
      apply series_ok_insert; [done|].
      apply chart_ok_redrawn, chart_ok_on_series; [by eapply Hok|].
      rewrite slide_length. eapply (proj1 (Hok id c Hc)), list_elem_of_lookup_2; done.
    + by erewrite updateChart_stuck.
  - by rewrite updateChart_None.
Qed.

Lemma series_ok_updateDualChart id v1 v2 st :
  series_ok st → series_ok (run (updateDualChart id v1 v2) st).
Proof.
  intros Hok. unfold run. destruct (charts st !! id) as [c|] eqn:Hc.
  - pose proof (Hok id c Hc) as Hall.
    destruct (datasets c !! 0) as [d1|] eqn:Hd1.
    + assert (length (slide d1 v1) = 60).
      { rewrite slide_length. eapply (proj1 Hall), list_elem_of_lookup_2; done. }
      destruct (datasets c !! 1) as [d2|] eqn:Hd2.
      * erewrite updateDualChart_Some by done. cbn [snd].
        apply series_ok_insert; [done|].
        apply chart_ok_redrawn, chart_ok_on_series; [by apply chart_ok_on_series|].
        rewrite slide_length. eapply (proj1 Hall), list_elem_of_lookup_2; done.
      * erewrite updateDualChart_half by done.
        apply series_ok_insert; [done|]. by apply chart_ok_on_series.
    + by erewrite updateDualChart_stuck.
  - by rewrite updateDualChart_None.
Qed.

Lemma series_ok_pushes ps st : series_ok st → series_ok (pushes ps st).
Proof.
  revert st. induction ps as [|[id v|id v1 v2] ps IH]; intros st Hok; simpl; [done|..].
  - apply IH. by apply series_ok_updateChart.
  - apply IH. by apply series_ok_updateDualChart.
Qed.

#[local] Instance adds_fresh_preorder : PreOrder adds_fresh.
Proof.
  split.
  - intros st id c. by left.
  - intros st1 st2 st3 H12 H23 id c [H|H]%H23; [by apply H12 | by right].
Qed.

Lemma adds_fresh_createChart id :
  id ∈ ["cpu-chart"; "gpu-chart"; "memory-chart"] → respects adds_fresh (createChart id).
Proof.
  intros Hid. unfold createChart.
  apply respects_getElementById_bind; [apply respects_ret; apply _|].
  apply respects_write. intros st id' c. unfold set_charts; simpl.
  rewrite lookup_insert. case_decide; [|by left].
  intros [= <-]. subst. right. left. split; [done | reflexivity].
Qed.

Lemma adds_fresh_createDualChart id :
  id ∈ ["network-chart"; "disk-chart"] → respects adds_fresh (createDualChart id).
Proof.
  intros Hid. unfold createDualChart.
  apply respects_getElementById_bind; [apply respects_ret; apply _|].
  apply respects_write. intros st id' c. unfold set_charts; simpl.
  rewrite lookup_insert. case_decide; [|by left].
  intros [= <-]. subst. right. right. split; [done | reflexivity].
Qed.

Lemma adds_fresh_init : respects adds_fresh init.
Proof.
  unfold init, setupCharts, connect.
  repeat lazymatch goal with
    | |- respects _ (createChart _) => apply adds_fresh_createChart; set_solver
    | |- respects _ (createDualChart _) => apply adds_fresh_createDualChart; set_solver
    | |- respects _ (read _) => apply respects_read; apply _
    | |- respects _ (_ ≫= _) => apply respects_bind; [apply _ | | intros ?]
    end.
  apply respects_write. intros st id c H. left. exact H.
Qed.

Lemma constructor_charts doc loc t id c :
  charts (constructor doc loc t) !! id = Some c →
  (id ∈ ["cpu-chart"; "gpu-chart"; "memory-chart"] ∧ c = fresh_chart 1)
  ∨ (id ∈ ["network-chart"; "disk-chart"] ∧ c = fresh_chart 2).
Proof.
  intros [H|H]%adds_fresh_init; [|done].
  simpl in H. by rewrite lookup_empty in H.
Qed.

Lemma constructor_series_ok doc loc t : series_ok (constructor doc loc t).
Proof.
  intros id c [[_ ->]|[_ ->]]%constructor_charts; (split; [|by intros ?? ?%elem_of_nil]);
    simpl; set_unfold; intros; destruct_or?; by subst.
Qed.

(** *** Paired series *)

Lemma window_length l : length (window l) = 60.
Proof. unfold window. rewrite length_drop, length_app, length_replicate. lia. Qed.

Lemma window_snoc l v : slide (window l) v = window (l ++ [v]).
Proof.
  unfold slide, window. generalize (replicate 60 VNull). intros r.
  rewrite length_app. change (length [v]) with 1.
  rewrite (assoc_L (++) r l [v]), <-drop_drop. f_equal.
  rewrite (drop_app_le (r ++ l) [v]); [done|]. rewrite length_app. lia.
Qed.

Lemma window_lookup l i :
  i < 60 →
  window l !! i = if decide (60 ≤ i + length l) then l !! (i + length l - 60) else Some VNull.
Proof.
  intros Hi. unfold window. rewrite lookup_drop. case_decide.
  - rewrite lookup_app_r; rewrite length_replicate; [|lia]. f_equal. lia.
  - rewrite lookup_app_l by (rewrite length_replicate; lia).
    apply lookup_replicate_2. lia.
Qed.

Lemma dual_after_snoc ps p :
  redrawn (on_series 1 (slide (window ps.*2) p.2)
             (on_series 0 (slide (window ps.*1) p.1) (dual_after ps)))
  = dual_after (ps ++ [p]).
Proof.
  unfold redrawn, on_series, dual_after, snapshot; simpl.
  rewrite !window_snoc, !fmap_app, length_app. simpl. f_equal.
  rewrite Nat.add_1_r, seq_S, fmap_app. simpl. f_equal.
  - apply list_fmap_ext. intros i k Hk%lookup_seq. 
    rewrite take_app_le by lia. done.
  - rewrite take_ge by (rewrite length_app; simpl; lia).
    by rewrite !fmap_app.
Qed.

Lemma pushPairs_snoc id ps p st :
  pushPairs id (ps ++ [p]) st = run (updateDualChart id p.1 p.2) (pushPairs id ps st).
Proof. unfold pushPairs. by rewrite foldl_snoc. Qed.

Lemma pushPairs_chart id ps st :
  charts st !! id = Some (dual_after []) →
  charts (pushPairs id ps st) !! id = Some (dual_after ps).
Proof.
  intros Hst. induction ps as [|p ps IH] using rev_ind; [done|].
  rewrite pushPairs_snoc. unfold run.
  erewrite updateDualChart_Some by (done || reflexivity). simpl.
  by rewrite lookup_insert_eq, dual_after_snoc.
Qed.

Lemma pushPairs_no_chart id ps st :
  charts st !! id = None → charts (pushPairs id ps st) !! id = None.
Proof.
  intros Hst. induction ps as [|p ps IH] using rev_ind; [done|].
  rewrite pushPairs_snoc. unfold run. by rewrite updateDualChart_None.
Qed.

(** C3.  A paired series stays aligned: after any sequence of
    updateDualChart calls on the network or the disk chart, both series
    have length 60, the values at an index [i] are both initial sentinels
    or were both pushed by one and the same call, and everything the chart
    ever drew is the pair of windows as it stood after some number of whole
    calls, one drawing per call. *)
Theorem dual_series_aligned doc loc t id ps c :
  id = "network-chart" ∨ id = "disk-chart" →
  charts (pushPairs id ps (constructor doc loc t)) !! id = Some c →
  ∃ s1 s2,
    datasets c = [s1; s2] ∧ length s1 = 60 ∧ length s2 = 60
    ∧ (∀ i, i < 60 →
         if decide (60 ≤ i + length ps)
         then ∃ a b, ps !! (i + length ps - 60) = Some (a, b)
                     ∧ s1 !! i = Some a ∧ s2 !! i = Some b
         else s1 !! i = Some VNull ∧ s2 !! i = Some VNull)
    ∧ length (drawn c) = length ps
    ∧ (∀ k snap, drawn c !! k = Some snap → snap = snapshot (take (S k) ps)).
Proof.
  intros Hid Hc.
  assert (c = dual_after ps) as ->.
  { destruct (charts (constructor doc loc t) !! id) as [c0|] eqn:Hc0.
    - assert (c0 = dual_after []) as ->.
      { apply constructor_charts in Hc0 as [[Hin ->]|[_ ->]]; [|done].
        set_unfold. destruct Hid; destruct_or?; by subst. }
      rewrite (pushPairs_chart _ _ _ Hc0) in Hc. by injection Hc.
    - by rewrite (pushPairs_no_chart _ _ _ Hc0) in Hc. }
  exists (window ps.*1), (window ps.*2). split_and!; try done.
  - apply window_length.
  - apply window_length.
  - intros i Hi. rewrite !window_lookup, !length_fmap by done.
    case_decide; [|done].
    destruct (ps !! (i + length ps - 60)) as [[a b]|] eqn:Hp.
    + exists a, b. rewrite !list_lookup_fmap, Hp. done.
    + apply lookup_ge_None in Hp. lia.
  - simpl. by rewrite length_fmap, length_seq.
  - simpl. intros k snap. rewrite list_lookup_fmap.
    intros [k' [Hk ->]]%fmap_Some. apply lookup_seq in Hk as [-> _]. done.
Qed.

(** ** The connection *)

#[local] Instance same_connection_preorder : PreOrder same_connection.
Proof.
  split.
  - intros st. by repeat split.
  - intros st1 st2 st3 (? & ? & ? & ? & ?) (? & ? & ? & ? & ?).
    repeat split; congruence.
Qed.

Lemma only_same_connection D C mem st st' : only D C mem st st' → same_connection st st'.
Proof. intros (_ & _ & _ & ? & _ & ? & _ & ? & ? & ?). by repeat split. Qed.

Lemma same_connection_updateDashboard data :
  respects same_connection (updateDashboard data).
Proof.
  rewrite updateDashboard_branches.
  repeat (apply respects_bind; [apply _ | | intros _]);
    (eapply respects_mono; [|apply branch_footprint]);
    intros st st'; apply only_same_connection.
Qed.

Lemma same_connection_console_error msg e :
  respects same_connection (console_error msg e).
Proof. intros st. by repeat split. Qed.

Lemma same_connection_onmessage raw : respects same_connection (onmessage raw).
Proof.
  unfold onmessage. apply respects_try_catch; [apply _ | |].
  - apply respects_lift_bind; [apply _|]. intros data _.
    apply same_connection_updateDashboard.
  - intros e. apply same_connection_console_error.
Qed.

Lemma same_connection_updateConnectionStatus connected :
  respects same_connection (updateConnectionStatus connected).
Proof.
  eapply respects_mono; [apply (only_same_connection (λ _, true) (λ _, true) true)|].
  unfold updateConnectionStatus. footprint.
Qed.

Lemma same_connection_setupCharts : respects same_connection setupCharts.
Proof.
  unfold setupCharts, createChart, createDualChart.
  repeat lazymatch goal with
    | |- respects _ (getElementById _ ≫= _) => apply respects_getElementById_bind
    | |- respects _ (_ ≫= _) => apply respects_bind; [apply _ | | intros ?]
    | |- respects _ (mret _) => apply respects_ret; apply _
    | |- respects _ (write _) => apply respects_write; intros ?; by repeat split
    end.
Qed.

Lemma updateConnectionStatus_Ok connected st :
  (updateConnectionStatus connected st).1 = Ok ().
Proof.
  unfold updateConnectionStatus, getElementById, read, mbind, M_bind.
  by repeat destruct (decide _).
Qed.

Lemma createChart_Ok id st : (createChart id st).1 = Ok ().
Proof. unfold createChart, getElementById, read, mbind, M_bind. by destruct (decide _). Qed.

Lemma createDualChart_Ok id st : (createDualChart id st).1 = Ok ().
Proof.
  unfold createDualChart, getElementById, read, mbind, M_bind. by destruct (decide _).
Qed.

Lemma seq_Ok (m k : M unit) st :
  (m st).1 = Ok () → (m;; k) st = k (m st).2.
Proof. unfold mbind, M_bind. destruct (m st) as [[[]|e] st']; simpl; by intros [=]. Qed.

Lemma setupCharts_Ok st : (setupCharts st).1 = Ok ().
Proof.
  unfold setupCharts.
  rewrite !seq_Ok; auto using createChart_Ok, createDualChart_Ok.
Qed.

Lemma connection_ok_same st st' :
  same_connection st st' → connection_ok st → connection_ok st'.
Proof.
  intros (Hws & Hs & Ht & _ & _) (older & newest & ? & ? & ? & ? & ?).
  exists older, newest. rewrite Hws, Hs, Ht. done.
Qed.

Lemma connection_ok_constructor doc loc t : connection_ok (constructor doc loc t).
Proof.
  unfold constructor, init. rewrite seq_Ok by apply setupCharts_Ok.
  set (st0 := State _ _ _ _ _ _ _ _ _ _).
  destruct (same_connection_setupCharts st0) as (_ & Hs & Ht & _ & _).
  unfold connect, read, write, mbind, M_bind. simpl.
  exists [], (Socket ((if String.eqb (location (setupCharts st0).2).1 "https:"
                       then "wss:" else "ws:") +:+ "//" +:+
                      (location (setupCharts st0).2).2 +:+ "/ws")
                CONNECTING (now (setupCharts st0).2) None).
  rewrite Hs. simpl. split_and!; done.
Qed.

Lemma spaced_replace older s s' :
  created s' = created s → spaced (older ++ [s]) → spaced (older ++ [s']).
Proof.
  intros Hcr Hsp j a b Ha Hb.
  assert (S j < length (older ++ [s'])) as Hj by (by eapply lookup_lt_Some).
  rewrite length_app in Hj. simpl in Hj.
  rewrite lookup_app_l in Ha by lia.
  destruct (decide (S j = length older)) as [Heq|Hne].
  - rewrite lookup_app_r, Heq, Nat.sub_diag in Hb by lia. injection Hb as <-.
    destruct (Hsp j a s) as (t & ? & ?).
    + by rewrite lookup_app_l by lia.
    + by rewrite lookup_app_r, Heq, Nat.sub_diag by lia.
    + exists t. by rewrite Hcr.
  - rewrite lookup_app_l in Hb by lia.
    apply (Hsp j a b); by rewrite lookup_app_l by lia.
Qed.

Lemma spaced_snoc l s new t :
  spaced (l ++ [s]) → closed s = Some t → (t + 2000 ≤ created new)%Z →
  spaced ((l ++ [s]) ++ [new]).
Proof.
  intros Hsp Hcl Hle j a b Ha Hb.
  assert (S j < length ((l ++ [s]) ++ [new])) as Hj by (by eapply lookup_lt_Some).
  rewrite !length_app in Hj. simpl in Hj.
  rewrite lookup_app_l in Ha by (rewrite length_app; simpl; lia).
  destruct (decide (j = length l)) as [Heq|Hne].
  - subst j. rewrite lookup_app_r, Nat.sub_diag in Ha by lia. injection Ha as <-.
    rewrite lookup_app_r in Hb by (rewrite length_app; simpl; lia).
    rewrite length_app in Hb. simpl in Hb.
    replace (S (length l) - (length l + 1)) with 0 in Hb by lia.
    injection Hb as <-. eauto.
  - rewrite lookup_app_l in Hb by (rewrite length_app; simpl; lia).
    by apply (Hsp j a b).
Qed.

(** A socket that can still have an event is the newest one. *)
Lemma live_is_newest older newest i s :
  Forall (λ s, ready s = CLOSED) older → (older ++ [newest]) !! i = Some s →
  ready s ≠ CLOSED → i = length older ∧ s = newest.
Proof.
  intros Hold Hi Hs. destruct (decide (i < length older)) as [Hlt|Hge].
  - rewrite lookup_app_l in Hi by done.
    rewrite Forall_lookup in Hold. by apply Hold in Hi.
  - rewrite lookup_app_r in Hi by lia.
    destruct (i - length older) as [|n] eqn:Hn; simpl in Hi; [|done].
    injection Hi as <-. split; [lia | done].
Qed.

Lemma connections_app older newest :
  Forall (λ s, ready s = CLOSED) older →
  length (List.filter live (older ++ [newest])) = if live newest then 1 else 0.
Proof.
  intros Hold. rewrite List.filter_app, length_app.
  replace (List.filter live older) with (@nil socket).
  - simpl. by destruct (live newest).
  - induction Hold as [|s l Hs _ IH]; [done|]. simpl. unfold live at 1. by rewrite Hs.
Qed.

Lemma run_onopen st : same_connection st (run onopen st).
Proof. apply same_connection_updateConnectionStatus. Qed.

Lemma run_onclose st :
  ∃ st1, same_connection st st1
         ∧ run onclose st = set_timers (timers st1 ++ [(now st1 + 2000)%Z]) st1.
Proof.
  exists (updateConnectionStatus false st).2. split.
  - apply same_connection_updateConnectionStatus.
  - unfold run, onclose. by rewrite seq_Ok by apply updateConnectionStatus_Ok.
Qed.

Lemma dispatch_connection_ok ev st st' :
  connection_ok st → dispatch ev st = Some st' → connection_ok st'.
Proof.
  intros (older & newest & Hs & Hold & Hws & Hsp & Htm) Hev.
  destruct ev as [i|i|i|i raw|k|d]; simpl in Hev.
  - (* open *)
    destruct (sockets st !! i) as [s|] eqn:Hi; simpl in Hev; [|done].
    destruct (ready s) eqn:Hr; try done. injection Hev as <-.
    rewrite Hs in Hi. eapply live_is_newest in Hi as [-> ->]; [|done|congruence].
    eapply connection_ok_same; [apply run_onopen|].
    exists older, (Socket (url newest) OPEN (created newest) None).
    unfold set_socket; simpl. rewrite Hs.
    rewrite insert_app_r_alt, Nat.sub_diag by done. simpl.
    split_and!; try done.
    + eapply spaced_replace; [|by rewrite <-Hs]. done.
    + unfold live in Htm. by rewrite Hr in Htm.
  - (* close *)
    destruct (sockets st !! i) as [s|] eqn:Hi; simpl in Hev; [|done].
    assert (ready s ≠ CLOSED ∧
            st' = run onclose
                    (set_socket i (Socket (url s) CLOSED (created s) (Some (now st))) st))
      as [Hr ->] by (destruct (ready s); split; congruence).
    rewrite Hs in Hi. eapply live_is_newest in Hi as [-> ->]; [|done..].
    destruct (run_onclose
                (set_socket (length older)
                   (Socket (url newest) CLOSED (created newest) (Some (now st))) st))
      as (st1 & (Hws1 & Hs1 & Ht1 & Hn1 & _) & ->).
    exists older, (Socket (url newest) CLOSED (created newest) (Some (now st))).
    simpl. rewrite Hws1, Hs1, Ht1, Hn1. unfold set_socket; simpl. rewrite Hs.
    rewrite insert_app_r_alt, Nat.sub_diag by done. simpl.
    split_and!; try done.
    + eapply spaced_replace; [|by rewrite <-Hs]. done.
    + exists (now st). split; [done|].
      assert (live newest = true) as Hl by (unfold live; by destruct (ready newest)).
      rewrite Hl in Htm. by rewrite Htm.
  - (* error *)
    destruct (sockets st !! i) as [s|] eqn:Hi; simpl in Hev; [|done].
    assert (st' = run onerror st) as -> by (destruct (ready s); congruence).
    eapply connection_ok_same; [apply same_connection_console_error|].
    by exists older, newest.
  - (* message *)
    destruct (sockets st !! i) as [s|] eqn:Hi; simpl in Hev; [|done].
    assert (st' = run (onmessage raw) st) as -> by (destruct (ready s); congruence).
    eapply connection_ok_same; [apply same_connection_onmessage|].
    by exists older, newest.
  - (* timer *)
    destruct (timers st !! k) as [due|] eqn:Hk; simpl in Hev; [|done].
    case_bool_decide as Hdue; [|done]. injection Hev as <-.
    destruct (live newest) eqn:Hl; [by rewrite Htm in Hk|].
    destruct Htm as (t & Hcl & Htm). rewrite Htm in Hk.
    destruct k; [|done]. injection Hk as <-.
    unfold run, connect, read, write, mbind, M_bind. simpl. rewrite Htm, Hs. simpl.
    eexists (older ++ [newest]), _. split_and!; try done.
    + apply Forall_app. split; [done|]. apply Forall_singleton.
      unfold live in Hl. by destruct (ready newest).
    + eapply spaced_snoc; [by rewrite <-Hs|done|]. done.
  - (* time passes *)
    case_bool_decide; [|done]. injection Hev as <-.
    by exists older, newest.
Qed.

Lemma play_connection_ok evs st st' :
  connection_ok st → play evs st = Some st' → connection_ok st'.
Proof.
  revert st. induction evs as [|ev evs IH]; intros st Hok; simpl.
  - by intros [= <-].
  - destruct (dispatch ev st) as [st1|] eqn:Hev; simpl; [|done].
    apply IH. by eapply dispatch_connection_ok.
Qed.

(** C4.  A message that [JSON.parse] rejects is logged and dropped: the
    handler ends normally, and charts, [totalMemoryGB], page, sockets,
    timers and clock are what they were; the socket it came on stays open. *)
Theorem malformed_message_dropped raw st :
  JSON_parse raw = None →
  onmessage raw st =
    (Ok (), set_console
              (console st ++ [("Failed to parse message:", Some (SyntaxError "JSON.parse"))])
              st)
  ∧ (∀ i st', dispatch (Message i raw) st = Some st' →
       charts st' = charts st ∧ totalMemoryGB st' = totalMemoryGB st
       ∧ document st' = document st ∧ ws st' = ws st ∧ sockets st' = sockets st
       ∧ timers st' = timers st ∧ now st' = now st
       ∧ ∃ s, sockets st' !! i = Some s ∧ ready s = OPEN).
Proof.
  intros Hraw.
  assert (Hrun : onmessage raw st =
    (Ok (), set_console
              (console st ++ [("Failed to parse message:", Some (SyntaxError "JSON.parse"))])
              st)).
  { unfold onmessage, try_catch, mbind, M_bind, lift. by rewrite Hraw. }
  split; [done|]. intros i st' Hev. simpl in Hev.
  destruct (sockets st !! i) as [s|] eqn:Hi; simpl in Hev; [|done].
  destruct (ready s) eqn:Hr; try done. injection Hev as <-.
  unfold run. rewrite Hrun. simpl. split_and!; try done. by exists s.
Qed.

(** C5, as amended.  Under the browser's discipline of events (a socket
    has one close event, and [connect] runs at construction and from the
    reconnect timer only), from the construction of the monitor on: the
    live connections and the pending reconnect timers are one in all; a
    close event schedules exactly one timer, due 2000 ms later, and leaves
    no connection; the timer fires only when every socket is closed and no
    other timer is pending, 2000 ms or more after the close, and its
    connection attempt is the only one; so each socket after the first was
    constructed 2000 ms or more after the close of the one before it.
    Nothing is ever invalidated: in any state [connect] adds a socket,
    closes none and clears no timer, and the close handler adds a timer
    whatever is pending. *)
Theorem reconnect_discipline doc loc t evs st :
  play evs (constructor doc loc t) = Some st →
  connections st + length (timers st) = 1
  ∧ spaced (sockets st)
  ∧ (∀ i st', dispatch (Close i) st = Some st' →
       timers st = [] ∧ timers st' = [(now st + 2000)%Z] ∧ connections st' = 0)
  ∧ (∀ k st', dispatch (Timer k) st = Some st' →
       Forall (λ s, ready s = CLOSED) (sockets st) ∧ timers st' = []
       ∧ ∃ s t new, last (sockets st) = Some s ∧ closed s = Some t
                    ∧ (t + 2000 ≤ now st)%Z
                    ∧ sockets st' = sockets st ++ [new]
                    ∧ ready new = CONNECTING ∧ created new = now st)
  ∧ (∀ s, (∃ new, sockets (run connect s) = sockets s ++ [new]
                  ∧ ready new = CONNECTING)
          ∧ timers (run connect s) = timers s)
  ∧ (∀ s, sockets (run onclose s) = sockets s
          ∧ timers (run onclose s) = timers s ++ [(now s + 2000)%Z]).
Proof.
  intros Hplay.
  assert (Hok : connection_ok st).
  { eapply play_connection_ok; [apply connection_ok_constructor | done]. }
  destruct Hok as (older & newest & Hs & Hold & Hws & Hsp & Htm).
  split_and!.
  - unfold connections. rewrite Hs, connections_app by done.
    destruct (live newest); [by rewrite Htm|].
    destruct Htm as (t' & _ & ->). done.
  - done.
  - intros i st' Hev. simpl in Hev.
    destruct (sockets st !! i) as [s|] eqn:Hi; simpl in Hev; [|done].
    assert (ready s ≠ CLOSED ∧
            st' = run onclose
                    (set_socket i (Socket (url s) CLOSED (created s) (Some (now st))) st))
      as [Hr ->] by (destruct (ready s); split; congruence).
    rewrite Hs in Hi. eapply live_is_newest in Hi as [-> ->]; [|done..].
    assert (live newest = true) as Hl by (unfold live; by destruct (ready newest)).
    rewrite Hl in Htm.
    destruct (run_onclose
                (set_socket (length older)
                   (Socket (url newest) CLOSED (created newest) (Some (now st))) st))
      as (st1 & (Hws1 & Hs1 & Ht1 & Hn1 & _) & ->).
    unfold connections. simpl. rewrite Hs1, Ht1, Hn1. unfold set_socket; simpl.
    rewrite Hs, Htm, insert_app_r_alt, Nat.sub_diag by done. simpl.
    by rewrite connections_app.
  - intros k st' Hev. simpl in Hev.
    destruct (timers st !! k) as [due|] eqn:Hk; simpl in Hev; [|done].
    case_bool_decide as Hdue; [|done]. injection Hev as <-.
    destruct (live newest) eqn:Hl; [by rewrite Htm in Hk|].
    destruct Htm as (t' & Hcl & Htm). rewrite Htm in Hk.
    destruct k; [|done]. injection Hk as <-.
    unfold run, connect, read, write, mbind, M_bind. simpl. rewrite Htm, Hs. simpl.
    split_and!; try done.
    + apply Forall_app. split; [done|]. apply Forall_singleton.
      unfold live in Hl. by destruct (ready newest).
    + eexists newest, t', _. rewrite last_snoc. split_and!; done.
  - intros s. split; [|done]. by eexists.
  - intros s. destruct (run_onclose s) as (s1 & (_ & Hs1 & Ht1 & Hn1 & _) & ->).
    simpl. by rewrite Hs1, Ht1, Hn1.
Qed.

(** ** Running a statement step by step *)



Lemma set_document_same st : set_document (document st) st = st.
Proof. by destruct st. Qed.

Lemma set_charts_same st : set_charts (charts st) st = st.
Proof. by destruct st. Qed.

Lemma setText_eval id v s st :
  DOMString v = Ok s →
  setText id v st = (Ok (), set_document (alter (set_text s) id (document st)) st).
Proof.
  intros Hs. unfold setText, getElementById, read, mbind, M_bind.
  destruct (decide _) as [Hid|Hid]; simpl.
  - unfold lift. by rewrite Hs.
  - rewrite alter_id', set_document_same; [done|].
    by apply eq_None_not_Some.
Qed.







(** ** What a statement leaves of one observation *)

#[local] Instance keeps_preorder {X} (obs : state → X) :
  PreOrder (λ st st', obs st' = obs st).
Proof. split; [done|]. intros st1 st2 st3 H1 H2. congruence. Qed.

Lemma keeps_element D C mem k {A} (m : M A) :
  D k = false → respects (only D C mem) m → keeps (element_at k) m.
Proof. intros Hk Hm st. destruct (Hm st) as (Hd & _). by apply Hd. Qed.

Lemma keeps_chart D C mem id {A} (m : M A) :
  C id = false → respects (only D C mem) m → keeps (chart_at id) m.
Proof. intros Hk Hm st. destruct (Hm st) as (_ & Hc & _). by apply Hc. Qed.

Section changes.
Context {X : Type} (obs : state → X) (G : (X → X) → Prop).

Lemma changes_lift_bind {A B} (r : result A) (f : A → M B) :
  (∀ a, r = Ok a → changes obs G (f a)) → changes obs G (lift r ≫= f).
Proof.
  intros Hf st b st' (a & st1 & [-> ->]%lift_Ok_inv & Hb)%bind_Ok_inv.
  by eapply Hf.
Qed.

Lemma changes_bind_keep {A B} (m : M A) (f : A → M B) :
  keeps obs m → (∀ a, changes obs G (f a)) → changes obs G (m ≫= f).
Proof.
  intros Hm Hf st b st' (a & st1 & Ha & Hb)%bind_Ok_inv.
  destruct (Hf a st1 b st' Hb) as (g & Hg & ->). exists g. split; [done|].
  f_equal. specialize (Hm st). by rewrite Ha in Hm.
Qed.

Lemma changes_bind_here {A B} (m : M A) (f : A → M B) :
  changes obs G m → (∀ a, keeps obs (f a)) → changes obs G (m ≫= f).
Proof.
  intros Hm Hf st b st' (a & st1 & Ha & Hb)%bind_Ok_inv.
  destruct (Hm st a st1 Ha) as (g & Hg & Hst1). exists g. split; [done|].
  rewrite <-Hst1. specialize (Hf a st1). by rewrite Hb in Hf.
Qed.

End changes.

Lemma changes_setText k G v :
  (∃ s, DOMString v = Ok s ∧ G (fmap (set_text s))) →
  changes (element_at k) G (setText k v).
Proof.
  intros (s & Hs & HG) st a st'. rewrite (setText_eval _ _ _ _ Hs).
  intros [= _ <-]. exists (fmap (set_text s)). split; [done|].
  unfold element_at; simpl. by rewrite lookup_alter_eq.
Qed.

Lemma changes_updateChart id G v :
  G (fmap (pushed v)) → changes (chart_at id) G (updateChart id v).
Proof.
  intros HG st a st' Hrun. exists (fmap (pushed v)). split; [done|].
  unfold chart_at. destruct (charts st !! id) as [c|] eqn:Hc.
  - destruct (datasets c !! 0) as [d|] eqn:Hd.
    + erewrite updateChart_Some in Hrun by done. injection Hrun as _ <-.
      unfold set_charts. cbn [charts]. rewrite lookup_insert_eq.
      cbn [fmap option_fmap option_map]. unfold pushed. by rewrite Hd.
    + unfold updateChart, read, mbind, M_bind, data_push, with_data in Hrun.
      rewrite Hc in Hrun. simpl in Hrun. by rewrite Hc, Hd in Hrun.
  - rewrite updateChart_None in Hrun by done. injection Hrun as _ <-. by rewrite Hc.
Qed.

Ltac keeps_run c :=
  lazymatch goal with
  | |- keeps (element_at ?k) _ =>
      apply (keeps_element (targets_but c k) (series c) (owns_total c));
        [reflexivity | footprint_all]
  | |- keeps (chart_at ?id) _ =>
      apply (keeps_chart (targets c) (series_but c id) (owns_total c));
        [reflexivity | footprint_all]
  end.

Ltac changes_leaf :=
  lazymatch goal with
  | |- changes (element_at ?k) _ (setText ?k _) => apply changes_setText
  | |- changes (chart_at ?id) _ (updateChart ?id _) => apply changes_updateChart
  end.

Ltac changes_run c :=
  cbv beta zeta;
  lazymatch goal with
  | |- changes _ _ (lift _ ≫= _) =>
      apply changes_lift_bind; intros ? ?; same_result; changes_run c
  | |- changes _ _ ((if _ then _ else _) ≫= _) =>
      case_match; try congruence; changes_run c
  | |- changes _ _ (_ ≫= _) =>
      first [ apply changes_bind_here; [changes_run c | intros ?; solve [keeps_run c]]
            | apply changes_bind_keep; [solve [keeps_run c] | intros ?; changes_run c] ]
  | |- changes _ _ (if _ then _ else _) => case_match; try congruence; changes_run c
  | |- changes _ _ _ => changes_leaf
  end.

Lemma result_bind_inv {A B} (r : result A) (f : A → result B) b :
  r ≫= f = Ok b → ∃ a, r = Ok a ∧ f a = Ok b.
Proof. destruct r as [a|e]; [eauto | discriminate]. Qed.

(** *** From one category to the whole of updateDashboard *)

Lemma branch_keeps_element b c k data :
  targets c k = true → b ≠ c → keeps (element_at k) (branch b data).
Proof.
  intros Hk Hbc. apply (keeps_element (targets b) (series b) (owns_total b)).
  - destruct (targets b k) eqn:Hb; [|done]. destruct Hbc. eauto using targets_disjoint.
  - apply branch_footprint.
Qed.

Lemma branch_keeps_chart b c id data :
  series c id = true → b ≠ c → keeps (chart_at id) (branch b data).
Proof.
  intros Hk Hbc. apply (keeps_chart (targets b) (series b) (owns_total b)).
  - destruct (series b id) eqn:Hb; [|done]. destruct Hbc. eauto using series_disjoint.
  - apply branch_footprint.
Qed.

Lemma changes_updateDashboard {X} (obs : state → X) G c data :
  (∀ b, b ≠ c → keeps obs (branch b data)) →
  changes obs G (branch c data) → changes obs G (updateDashboard data).
Proof.
  intros Hkeep Hc. rewrite updateDashboard_branches.
  destruct c;
    repeat first
      [ apply changes_bind_here;
          [ exact Hc
          | intros _;
            repeat (apply respects_bind; [apply _ | by apply Hkeep | intros _]);
            by apply Hkeep ]
      | apply changes_bind_keep; [by apply Hkeep | intros _]
      | exact Hc ].
Qed.

Lemma changes_element_updateDashboard k G c data :
  targets c k = true →
  changes (element_at k) G (branch c data) →
  changes (element_at k) G (updateDashboard data).
Proof.
  intros Hk. apply changes_updateDashboard. intros b Hb.
  by eapply branch_keeps_element.
Qed.

Lemma changes_chart_updateDashboard id G c data :
  series c id = true →
  changes (chart_at id) G (branch c data) →
  changes (chart_at id) G (updateDashboard data).
Proof.
  intros Hk. apply changes_updateDashboard. intros b Hb.
  by eapply branch_keeps_chart.
Qed.

Lemma text_of_changed st st' k s :
  element_at k st' = set_text s <$> element_at k st →
  text_of st' k = (λ _, s) <$> text_of st k.
Proof.
  unfold text_of, element_at. intros ->. by destruct (document st !! k).
Qed.

(** *** Memory slots *)

Lemma gtb_min f n :
  Number.gtb f (Number.of_Z n) = true → Number.min f (Number.of_Z n) = Number.of_Z n.
Proof.
  unfold Number.min. intros H. rewrite H.
  destruct f, (Number.of_Z n); try done.
Qed.

Lemma memory_slots_changes data memory slots_used :
  get data "memory" = Ok memory → truthy memory = true →
  get memory "slots_used" = Ok slots_used → is_undefined slots_used = false →
  changes (element_at "mem-slots")
    (λ g, ∃ used slots_total total,
        to_string slots_used = Ok used
        ∧ get memory "slots_total" = Ok slots_total
        ∧ to_number slots_total = Ok total
        ∧ g = fmap (set_text (used +:+ "/" +:+
                      Number.to_string (Number.min total (Number.of_Z 4)))))
    (dashboard_memory data).
Proof.
  intros Hmem Htruthy Hused Hdef. unfold dashboard_memory.
  changes_run Memory.
  match goal with H : (if negb _ then _ else _) = Ok _ |- _ =>
    rewrite Hdef in H; simpl in H;
    apply result_bind_inv in H as (used & Hu & H);
    apply result_bind_inv in H as (total & Ht & H);
    apply result_bind_inv in H as (shown & Hm & H);
    apply result_bind_inv in Hm as (n & Hn & Hm);
    injection H as <-; injection Hm as <-
  end.
  eexists. split; [reflexivity|]. by exists used, total, n.
Qed.

(** C10.  When a frame has a memory category with [slots_used] defined and
    its reduction completes, the slot display is the text of [slots_used]
    as it came, a slash, and [Math.min(slots_total, 4)]: a total above 4
    is shown as 4. *)
Theorem memory_slots_denominator data memory slots_used st st' :
  get data "memory" = Ok memory → truthy memory = true →
  get memory "slots_used" = Ok slots_used → slots_used ≠ VUndefined →
  updateDashboard data st = (Ok (), st') →
  ∃ used slots_total total,
    to_string slots_used = Ok used
    ∧ get memory "slots_total" = Ok slots_total
    ∧ to_number slots_total = Ok total
    ∧ text_of st' "mem-slots" =
        (λ _, used +:+ "/" +:+ Number.to_string (Number.min total (Number.of_Z 4)))
          <$> text_of st "mem-slots"
    ∧ (Number.gtb total (Number.of_Z 4) = true →
       text_of st' "mem-slots" = (λ _, used +:+ "/4") <$> text_of st "mem-slots").
Proof.
  intros Hmem Htruthy Hused Hdef Hrun.
  assert (is_undefined slots_used = false) as Hdef' by (by destruct slots_used).
  pose proof (memory_slots_changes data memory slots_used Hmem Htruthy Hused Hdef')
    as Hch.
  apply (changes_element_updateDashboard _ _ Memory) in Hch; [|reflexivity].
  destruct (Hch st () st' Hrun) as (g & (used & slots_total & total & ? & ? & ? & ->) & Hg).
  exists used, slots_total, total. split_and!; try done.
  - by apply text_of_changed.
  - intros Hgt. rewrite gtb_min in Hg by done. by apply text_of_changed.
Qed.


(** *** CPU scalars *)

Lemma toFixed_zero : toFixed (num 0) 0 = Ok "0".
Proof. by vm_compute. Qed.

Ltac result_inv :=
  repeat match goal with
    | H : Ok _ = Ok _ |- _ => injection H as H; subst
    | H : (_ ≫= _) = Ok _ |- _ =>
        let a := fresh "a" in let Ha := fresh "Ha" in
        apply result_bind_inv in H as (a & Ha & H)
    end.

Section cpu.
Context (data cpu : value).
Context (Hcpu : get data "cpu" = Ok cpu) (Hpresent : truthy cpu = true).

Lemma cpu_usage_missing usage :
  get cpu "usage" = Ok usage → truthy usage = false →
  changes (element_at "cpu-usage") (λ g, g = fmap (set_text "0%")) (dashboard_cpu data).
Proof.
  intros Hget Hv. unfold dashboard_cpu. changes_run Cpu.
  match goal with H : toFixed _ _ = Ok _ |- _ =>
    unfold or_else in H; rewrite Hv, toFixed_zero in H end.
  result_inv. by eexists.
Qed.

Lemma cpu_usage_present f :
  get cpu "usage" = Ok (VNum f) → truthy (VNum f) = true →
  changes (element_at "cpu-usage")
    (λ g, g = fmap (set_text (Number.toFixed f 0 +:+ "%"))) (dashboard_cpu data).
Proof.
  intros Hget Hv. unfold dashboard_cpu. changes_run Cpu.
  match goal with H : toFixed _ _ = Ok _ |- _ =>
    unfold or_else in H; rewrite Hv in H; cbn [toFixed] in H end.
  result_inv. by eexists.
Qed.

Lemma cpu_usage_missing_series usage :
  get cpu "usage" = Ok usage → truthy usage = false →
  changes (chart_at "cpu-chart") (λ g, g = fmap (pushed (num 0))) (dashboard_cpu data).
Proof.
  intros Hget Hv. unfold dashboard_cpu. changes_run Cpu; unfold or_else; by rewrite Hv.
Qed.

Lemma cpu_usage_present_series usage :
  get cpu "usage" = Ok usage → truthy usage = true →
  changes (chart_at "cpu-chart") (λ g, g = fmap (pushed usage)) (dashboard_cpu data).
Proof.
  intros Hget Hv. unfold dashboard_cpu. changes_run Cpu; unfold or_else; by rewrite Hv.
Qed.

Lemma cpu_frequency_missing frequency :
  get cpu "frequency" = Ok frequency → truthy frequency = false →
  changes (element_at "cpu-freq") (λ g, g = fmap (set_text "--")) (dashboard_cpu data).
Proof.
  intros Hget Hv. unfold dashboard_cpu. changes_run Cpu.
  match goal with H : (if truthy frequency then _ else _) = Ok _ |- _ =>
    rewrite Hv in H end.
  result_inv. by eexists.
Qed.

Lemma cpu_frequency_present f :
  get cpu "frequency" = Ok (VNum f) → truthy (VNum f) = true →
  changes (element_at "cpu-freq")
    (λ g, g = fmap (set_text (Number.toFixed (Number.div f (Number.of_Z 1000)) 1 +:+ " GHz")))
    (dashboard_cpu data).
Proof.
  intros Hget Hv. unfold dashboard_cpu. changes_run Cpu.
  match goal with H : (if truthy (VNum f) then _ else _) = Ok _ |- _ =>
    rewrite Hv in H; unfold div_by in H; cbn [to_number mbind result_bind] in H end.
  result_inv. by eexists.
Qed.

Lemma cpu_temperature_missing temperature :
  get cpu "temperature" = Ok temperature → truthy temperature = false →
  changes (element_at "cpu-temp") (λ g, g = fmap (set_text "N/A")) (dashboard_cpu data).
Proof.
  intros Hget Hv. unfold dashboard_cpu. changes_run Cpu.
  match goal with H : (if truthy temperature then _ else _) = Ok _ |- _ =>
    rewrite Hv in H end.
  result_inv. by eexists.
Qed.

Lemma cpu_temperature_present f :
  get cpu "temperature" = Ok (VNum f) → truthy (VNum f) = true →
  changes (element_at "cpu-temp")
    (λ g, g = fmap (set_text (Number.toFixed f 0 +:+ "°C"))) (dashboard_cpu data).
Proof.
  intros Hget Hv. unfold dashboard_cpu. changes_run Cpu.
  match goal with H : (if truthy (VNum f) then _ else _) = Ok _ |- _ =>
    rewrite Hv in H; cbn [toFixed mbind result_bind] in H end.
  result_inv. by eexists.
Qed.

Lemma cpu_l2_missing l2_cache_kb :
  get cpu "l2_cache_kb" = Ok l2_cache_kb → truthy l2_cache_kb = false →
  keeps (element_at "cpu-l2") (dashboard_cpu data).
Proof. intros Hget Hv. unfold dashboard_cpu. keeps_run Cpu. Qed.

Lemma cpu_l3_missing l3_cache_kb :
  get cpu "l3_cache_kb" = Ok l3_cache_kb → truthy l3_cache_kb = false →
  keeps (element_at "cpu-l3") (dashboard_cpu data).
Proof. intros Hget Hv. unfold dashboard_cpu. keeps_run Cpu. Qed.

Lemma cpu_l2_present f :
  get cpu "l2_cache_kb" = Ok (VNum f) → truthy (VNum f) = true →
  changes (element_at "cpu-l2")
    (λ g, g = fmap (set_text (Number.toFixed (Number.div f (Number.of_Z 1024)) 1 +:+ " MB")))
    (dashboard_cpu data).
Proof.
  intros Hget Hv. unfold dashboard_cpu. changes_run Cpu;
    match goal with H : div_by _ _ = Ok _ |- _ =>
      unfold div_by in H; cbn [to_number mbind result_bind] in H end;
    result_inv; by eexists.
Qed.

Lemma cpu_l3_present f :
  get cpu "l3_cache_kb" = Ok (VNum f) → truthy (VNum f) = true →
  changes (element_at "cpu-l3")
    (λ g, g = fmap (set_text (Number.toFixed (Number.div f (Number.of_Z 1024)) 0 +:+ " MB")))
    (dashboard_cpu data).
Proof.
  intros Hget Hv. unfold dashboard_cpu. changes_run Cpu;
    match goal with H : div_by _ _ = Ok _ |- _ =>
      unfold div_by in H; cbn [to_number mbind result_bind] in H end;
    result_inv; by eexists.
Qed.

End cpu.

Lemma keeps_updateDashboard {X} (obs : state → X) data :
  (∀ b, keeps obs (branch b data)) → keeps obs (updateDashboard data).
Proof.
  intros Hkeep. rewrite updateDashboard_branches. unfold keeps.
  repeat (apply respects_bind; [apply _ | by apply Hkeep | intros _]).
  by apply Hkeep.
Qed.

(** C9, as amended.  On a frame with a cpu category whose reduction
    completes: the usage, frequency and temperature displays are written
    whether or not their field is there, a missing (absent, null or zero)
    frequency or temperature as the placeholder, a missing usage as "0%",
    with 0 pushed into the CPU series; the L2 and L3 displays are written
    only when their field is there and keep their text otherwise. *)
Theorem cpu_scalars_policy data cpu st st' :
  get data "cpu" = Ok cpu → truthy cpu = true →
  updateDashboard data st = (Ok (), st') →
  (∀ usage, get cpu "usage" = Ok usage →
     (truthy usage = false →
        shows st st' "cpu-usage" "0%"
        ∧ chart_at "cpu-chart" st' = pushed (num 0) <$> chart_at "cpu-chart" st)
     ∧ (∀ f, usage = VNum f → truthy usage = true →
        shows st st' "cpu-usage" (Number.toFixed f 0 +:+ "%")
        ∧ chart_at "cpu-chart" st' = pushed usage <$> chart_at "cpu-chart" st))
  ∧ (∀ frequency, get cpu "frequency" = Ok frequency →
     (truthy frequency = false → shows st st' "cpu-freq" "--")
     ∧ (∀ f, frequency = VNum f → truthy frequency = true →
        shows st st' "cpu-freq"
          (Number.toFixed (Number.div f (Number.of_Z 1000)) 1 +:+ " GHz")))
  ∧ (∀ temperature, get cpu "temperature" = Ok temperature →
     (truthy temperature = false → shows st st' "cpu-temp" "N/A")
     ∧ (∀ f, temperature = VNum f → truthy temperature = true →
        shows st st' "cpu-temp" (Number.toFixed f 0 +:+ "°C")))
  ∧ (∀ l2_cache_kb, get cpu "l2_cache_kb" = Ok l2_cache_kb →
     (truthy l2_cache_kb = false → text_of st' "cpu-l2" = text_of st "cpu-l2")
     ∧ (∀ f, l2_cache_kb = VNum f → truthy l2_cache_kb = true →
        shows st st' "cpu-l2"
          (Number.toFixed (Number.div f (Number.of_Z 1024)) 1 +:+ " MB")))
  ∧ (∀ l3_cache_kb, get cpu "l3_cache_kb" = Ok l3_cache_kb →
     (truthy l3_cache_kb = false → text_of st' "cpu-l3" = text_of st "cpu-l3")
     ∧ (∀ f, l3_cache_kb = VNum f → truthy l3_cache_kb = true →
        shows st st' "cpu-l3"
          (Number.toFixed (Number.div f (Number.of_Z 1024)) 0 +:+ " MB"))).
Proof.
  intros Hcpu Hpresent Hrun.
  assert (Htext : ∀ k s, targets Cpu k = true →
            changes (element_at k) (λ g, g = fmap (set_text s)) (dashboard_cpu data) →
            shows st st' k s).
  { intros k s Hk Hch.
    apply (changes_element_updateDashboard _ _ Cpu) in Hch; [|done].
    destruct (Hch st () st' Hrun) as (g & -> & Hg). by apply text_of_changed. }
  assert (Hchart : ∀ v,
            changes (chart_at "cpu-chart") (λ g, g = fmap (pushed v)) (dashboard_cpu data) →
            chart_at "cpu-chart" st' = pushed v <$> chart_at "cpu-chart" st).
  { intros v Hch.
    apply (changes_chart_updateDashboard _ _ Cpu) in Hch; [|done].
    by destruct (Hch st () st' Hrun) as (g & -> & Hg). }
  assert (Hkeep : ∀ k, targets Cpu k = true →
            keeps (element_at k) (dashboard_cpu data) →
            text_of st' k = text_of st k).
  { intros k Hk Hkp. unfold text_of.
    assert (keeps (element_at k) (updateDashboard data)) as Hall.
    { apply keeps_updateDashboard. intros b.
      destruct (decide (b = Cpu)) as [->|Hb]; [done|]. by eapply branch_keeps_element. }
    specialize (Hall st). rewrite Hrun in Hall. unfold element_at in Hall.
    simpl in Hall. by rewrite Hall. }
  split_and!; intros v Hv; (split; [intros Hf | intros f -> Ht]).
  - split; [apply Htext | apply Hchart];
      eauto using cpu_usage_missing, cpu_usage_missing_series.
  - split; [apply Htext | apply Hchart];
      eauto using cpu_usage_present, cpu_usage_present_series.
  - apply Htext; eauto using cpu_frequency_missing.
  - apply Htext; eauto using cpu_frequency_present.
  - apply Htext; eauto using cpu_temperature_missing.
  - apply Htext; eauto using cpu_temperature_present.
  - apply Hkeep; eauto using cpu_l2_missing.
  - apply Htext; eauto using cpu_l2_present.
  - apply Hkeep; eauto using cpu_l3_missing.
  - apply Htext; eauto using cpu_l3_present.
Qed.

(** ** The process list *)

Lemma filterM_filter l l' :
  filterM not_idle l = Ok l' → l' = List.filter kept l.
Proof.
  revert l'. induction l as [|p l IH]; intros l'; simpl; [by intros [= <-]|].
  intros (b & Hb & (r & Hr & [= <-])%result_bind_inv)%result_bind_inv.
  rewrite <-(IH r Hr). unfold kept, not_idle in *.
  destruct (get p "name") as [name|]; [|done]. by injection Hb as <-.
Qed.

Lemma mapM_Forall2 {A B} (f : A → result B) l l' :
  mapM f l = Ok l' → Forall2 (λ x y, f x = Ok y) l l'.
Proof.
  revert l'. induction l as [|x l IH]; intros l'; simpl; [intros [= <-]; constructor|].
  intros (y & Hy & (r & Hr & [= <-])%result_bind_inv)%result_bind_inv.
  constructor; auto.
Qed.

Lemma process_list_when_complete processes st st' :
  is_Some (document st !! "process-list") →
  updateProcessList (VArr processes) st = (Ok (), st') →
  ∃ items,
    html_of st' "process-list" = Some items
    ∧ Forall2 (λ p item, process_item (totalMemoryGB st) p = Ok item)
        (displayed_spec processes) items.
Proof.
  intros [e He] Hrun.
  unfold updateProcessList, getElementById, read, mbind, M_bind in Hrun.
  destruct (decide _) as [_|[]]; [|by eexists]. simpl in Hrun.
  unfold lift in Hrun.
  destruct (filterM not_idle processes) as [l|] eqn:Hfilter; [|done].
  apply filterM_filter in Hfilter as ->.
  destruct (mapM _ _) as [items|] eqn:Hitems; [|done].
  injection Hrun as <-. exists items.
  apply mapM_Forall2 in Hitems. split; [|done].
  unfold html_of, set_document. cbn [document]. by rewrite lookup_alter_eq, He.
Qed.

Lemma process_entry_name p : process_entry p → get p "name" = Ok (VStr (entry_name p)).
Proof.
  intros (m & name & cpu & -> & Hn & _). unfold entry_name. simpl. by rewrite Hn.
Qed.

Lemma process_entry_kept p :
  process_entry p → kept p = negb (String.eqb (entry_name p) "System Idle Process").
Proof. intros Hp. unfold kept. by rewrite (process_entry_name p Hp). Qed.

Lemma process_entry_item total t p :
  process_entry p → to_number total = Ok t →
  ∃ item, process_item total p = Ok item ∧ item_name item = entry_name p.
Proof.
  intros Hp Ht. pose proof (process_entry_name p Hp) as Hname.
  destruct Hp as (m & name & cpu & -> & Hn & Hc & Hm).
  unfold process_item. rewrite Hname. cbn [get]. rewrite Hc.
  assert (∃ q, div_by (default VUndefined (m !! "memory_percent")) 100 = Ok q) as [q Hq].
  { destruct Hm as [->|[f ->]]; by eexists. }
  cbn [mbind result_bind]. rewrite Hq. cbn [mbind result_bind]. rewrite Ht.
  cbn [mbind result_bind default toFixed to_string]. by eexists.
Qed.

Lemma process_entries_filter l :
  Forall process_entry l → filterM not_idle l = Ok (List.filter kept l).
Proof.
  induction 1 as [|p l Hp _ IH]; [done|]. simpl. rewrite IH.
  unfold not_idle, kept. by rewrite (process_entry_name p Hp).
Qed.

Lemma process_entries_items total t l :
  Forall process_entry l → to_number total = Ok t →
  ∃ items, mapM (process_item total) l = Ok items
           ∧ item_name <$> items = entry_name <$> l.
Proof.
  intros Hl Ht. induction Hl as [|p l Hp _ (items & IH & Hnames)].
  - by exists [].
  - destruct (process_entry_item total t p Hp Ht) as (item & Hitem & Hname).
    exists (item :: items). split.
    + cbn [mapM]. rewrite Hitem. cbn [mbind result_bind]. by rewrite IH.
    + rewrite !fmap_cons. by rewrite Hname, Hnames.
Qed.

Lemma filter_entry_names l :
  Forall process_entry l →
  entry_name <$> List.filter kept l =
    List.filter (λ name, negb (String.eqb name "System Idle Process")) (entry_name <$> l).
Proof.
  induction 1 as [|p l Hp _ IH]; [done|].
  rewrite fmap_cons. cbn [List.filter].
  rewrite <-(process_entry_kept p Hp). destruct (kept p); [rewrite fmap_cons|];
    by rewrite IH.
Qed.


(** ** A process entry without [cpu_percent] *)

(** C1, at an input the claim covers.  On a page that has the process
    list, the frame with one process entry lacking [cpu_percent] makes
    updateDashboard end by an exception ([cpu_percent.toFixed] on
    [undefined]) with nothing written; the message handler catches and logs
    it.  A fan entry lacking [percent] and [rpm] does not raise, and shows
    "undefined%" and "undefined RPM", not the placeholder. *)
Theorem missing_cpu_percent_raises st :
  is_Some (document st !! "process-list") →
  (∃ e, updateDashboard no_cpu_percent st = (Throw e, st)
        ∧ ∀ raw, JSON_parse raw = Some no_cpu_percent →
            onmessage raw st =
              (Ok (), set_console (console st ++ [("Failed to parse message:", Some e)]) st))
  ∧ fan_item bare_fan =
      Ok (FanItem "CPU Fan" "undefined"
            [("fan-percent", "undefined%"); ("fan-rpm", "undefined RPM")]).
Proof.
  intros Hlist. split; [|by vm_compute].
  assert (∃ e, updateProcessList
                 (VArr [VObj {[ "name" := VStr "chrome"; "memory_percent" := num 2 ]}]) st
               = (Throw e, st)) as [e He].
  { unfold updateProcessList, getElementById, read, mbind, M_bind.
    destruct (decide _) as [_|[]]; [|done]. cbn [lift array_of].
    replace (filterM not_idle _) with
      (Ok [VObj {[ "name" := VStr "chrome"; "memory_percent" := num 2 ]}])
      by (by vm_compute).
    cbn [take mapM]. unfold process_item at 1.
    replace (get _ "memory_percent") with (Ok (num 2)) by (by vm_compute).
    replace (get _ "cpu_percent") with (Ok VUndefined) by (by vm_compute).
    unfold div_by. cbn [to_number num mbind result_bind].
    destruct (to_number (totalMemoryGB st)) as [t|e]; cbn; eauto. }
  assert (updateDashboard no_cpu_percent st = (Throw e, st)) as Hrun.
  { rewrite updateDashboard_branches.
    erewrite bind_Ok by (by apply (branch_absent Cpu _ VUndefined)).
    erewrite bind_Ok by (by apply (branch_absent Gpu _ VUndefined)).
    erewrite bind_Ok by (by apply (branch_absent Memory _ VUndefined)).
    erewrite bind_Ok by (by apply (branch_absent Network _ VUndefined)).
    erewrite bind_Ok by (by apply (branch_absent Ping _ VUndefined)).
    erewrite bind_Ok by (by apply (branch_absent Disk _ VUndefined)).
    erewrite bind_Ok by (by apply (branch_absent Fans _ VUndefined)).
    apply bind_Throw. exact He. }
  exists e. split; [done|]. intros raw Hraw.
  unfold onmessage, try_catch. unfold mbind at 1, M_bind at 1, lift.
  by rewrite Hraw, Hrun.
Qed.

(** ** The monitor as a whole, and the parts the claims leave out *)

Lemma onmessage_Ok raw st : (onmessage raw st).1 = Ok ().
Proof.
  unfold onmessage, try_catch.
  by repeat case_match.
Qed.

(** *** The status indicator *)

Lemma untargeted_kept k data :
  (∀ c, targets c k = false) → keeps (element_at k) (updateDashboard data).
Proof.
  intros Hk. unfold keeps. rewrite updateDashboard_branches.
  repeat (apply respects_bind; [apply _ | | intros _]);
    (eapply keeps_element; [apply Hk | apply branch_footprint]).
Qed.

Lemma onmessage_keeps_element k raw :
  (∀ c, targets c k = false) → keeps (element_at k) (onmessage raw).
Proof.
  intros Hk. unfold keeps, onmessage. apply respects_try_catch; [apply _ | |].
  - apply respects_lift_bind; [apply _|]. intros data _. by apply untargeted_kept.
  - by intros e st.
Qed.

Lemma updateConnectionStatus_eval connected st :
  is_Some (document st !! "status-dot") → is_Some (document st !! "status-text") →
  updateConnectionStatus connected st =
    (Ok (),
     set_document
       (alter (set_text (if connected then "Connected" else "Disconnected")) "status-text"
          (alter (λ e, Element (textContent e) (innerHTML e) (style e)
                         (if connected then {["connected"]} ∪ classList e
                          else classList e ∖ {["connected"]}))
             "status-dot" (document st))) st).
Proof.
  intros Hdot Htext.
  unfold updateConnectionStatus, getElementById, read, mbind, M_bind.
  destruct (decide _) as [_|[]]; [|done]. simpl.
  destruct (decide _) as [_|[]]; [|done]. reflexivity.
Qed.

Lemma status_shown_updateConnectionStatus connected st :
  is_Some (document st !! "status-dot") → is_Some (document st !! "status-text") →
  status_shown (run (updateConnectionStatus connected) st) connected.
Proof.
  intros [dot Hdot] [text Htext]. unfold run.
  rewrite updateConnectionStatus_eval by done. unfold status_shown, text_of. simpl.
  rewrite lookup_alter_eq, !lookup_alter_ne, Htext by done. split; [done|].
  rewrite lookup_alter_eq, Hdot. simpl. eexists. split; [done|]. simpl.
  destruct connected.
  - rewrite elem_of_union, elem_of_singleton. by split; [|left].
  - rewrite elem_of_difference, elem_of_singleton. by split; [intros [_ []]|].
Qed.

Lemma status_elements_updateConnectionStatus connected st k :
  is_Some (document st !! k) →
  is_Some (document (run (updateConnectionStatus connected) st) !! k).
Proof.
  intros Hk. unfold run, updateConnectionStatus, getElementById, read, mbind, M_bind.
  repeat (destruct (decide _); simpl); try done.
  by rewrite !lookup_alter_is_Some.
Qed.

Lemma status_untargeted c :
  targets c "status-dot" = false ∧ targets c "status-text" = false.
Proof. by destruct c. Qed.

Lemma status_ok_same st st' :
  sockets st' = sockets st →
  document st' !! "status-dot" = document st !! "status-dot" →
  document st' !! "status-text" = document st !! "status-text" →
  status_ok st → status_ok st'.
Proof.
  unfold status_ok, status_of, status_shown, text_of. by intros -> -> ->.
Qed.

Lemma keeps_setupCharts {X} (obs : state → X) :
  (∀ cs st, obs (set_charts cs st) = obs st) → keeps obs setupCharts.
Proof.
  intros Hobs. unfold keeps, setupCharts, createChart, createDualChart.
  repeat lazymatch goal with
    | |- respects _ (getElementById _ ≫= _) => apply respects_getElementById_bind
    | |- respects _ (_ ≫= _) => apply respects_bind; [apply _ | | intros ?]
    | |- respects _ (mret _) => apply respects_ret; apply _
    | |- respects _ (write _) => apply respects_write; intros ?; apply Hobs
    end.
Qed.

Lemma constructor_keeps {X} (obs : state → X) doc loc t :
  (∀ cs st, obs (set_charts cs st) = obs st) →
  (∀ st, obs (connect st).2 = obs st) →
  obs (constructor doc loc t) = obs (State None ∅ 60 (num 0) doc loc [] [] [] t).
Proof.
  intros Hcharts Hconnect.
  unfold constructor, init. rewrite seq_Ok by apply setupCharts_Ok.
  rewrite Hconnect. by apply keeps_setupCharts.
Qed.

Lemma constructor_document doc loc t : document (constructor doc loc t) = doc.
Proof. by rewrite (constructor_keeps document). Qed.

Lemma constructor_sockets doc loc t :
  ∃ s, sockets (constructor doc loc t) = [s] ∧ ready s = CONNECTING
       ∧ url s = (if String.eqb loc.1 "https:" then "wss:" else "ws:")
                   +:+ "//" +:+ loc.2 +:+ "/ws"
       ∧ location (constructor doc loc t) = loc.
Proof.
  unfold constructor, init. rewrite seq_Ok by apply setupCharts_Ok.
  set (st0 := State _ _ _ _ _ _ _ _ _ _).
  destruct (same_connection_setupCharts st0) as (_ & Hs & _ & _ & Hl).
  unfold connect, read, write, mbind, M_bind. simpl. rewrite Hs, Hl. simpl.
  eexists. split_and!; done.
Qed.

Lemma status_ok_constructor doc loc t :
  is_Some (doc !! "status-dot") → is_Some (doc !! "status-text") →
  status_ok (constructor doc loc t).
Proof.
  intros Hdot Htext. unfold status_ok. rewrite constructor_document.
  destruct (constructor_sockets doc loc t) as (s & Hs & Hr & _).
  split_and!; [done..|]. exists s. rewrite Hs. split; [done|].
  unfold status_of. rewrite Hr, Hs. by left.
Qed.

Lemma dispatch_status_ok ev st st' :
  connection_ok st → status_ok st → dispatch ev st = Some st' → status_ok st'.
Proof.
  intros (older & newest & Hs & Hold & Hws & Hsp & Htm) (Hdot & Htext & Hst) Hev.
  assert (Hstatus : status_ok st) by done.
  destruct Hst as (newest' & Hlast & Hst). rewrite Hs, last_snoc in Hlast.
  injection Hlast as <-.
  destruct ev as [i|i|i|i raw|k|d]; simpl in Hev.
  - (* open *)
    destruct (sockets st !! i) as [s|] eqn:Hi; simpl in Hev; [|done].
    destruct (ready s) eqn:Hr; try done. injection Hev as <-.
    rewrite Hs in Hi. eapply live_is_newest in Hi as [-> ->]; [|done|congruence].
    set (st1 := set_socket _ _ st).
    destruct (run_onopen st1) as (_ & Hs1 & _).
    split_and!.
    + by apply status_elements_updateConnectionStatus.
    + by apply status_elements_updateConnectionStatus.
    + exists (Socket (url newest) OPEN (created newest) None). split.
      * rewrite Hs1. unfold st1, set_socket. simpl.
        rewrite Hs, insert_app_r_alt, Nat.sub_diag by done. apply last_snoc.
      * by apply status_shown_updateConnectionStatus.
  - (* close *)
    destruct (sockets st !! i) as [s|] eqn:Hi; simpl in Hev; [|done].
    assert (ready s ≠ CLOSED ∧
            st' = run onclose
                    (set_socket i (Socket (url s) CLOSED (created s) (Some (now st))) st))
      as [Hr ->] by (destruct (ready s); split; congruence).
    rewrite Hs in Hi. eapply live_is_newest in Hi as [-> ->]; [|done..].
    set (st1 := set_socket _ _ st).
    assert (run onclose st1 =
              set_timers (timers (run (updateConnectionStatus false) st1)
                            ++ [(now (run (updateConnectionStatus false) st1) + 2000)%Z])
                (run (updateConnectionStatus false) st1)) as ->.
    { unfold run, onclose. by rewrite seq_Ok by apply updateConnectionStatus_Ok. }
    destruct (same_connection_updateConnectionStatus false st1) as (_ & Hs1 & _).
    fold (run (updateConnectionStatus false) st1) in Hs1.
    pose proof (status_shown_updateConnectionStatus false st1 Hdot Htext) as Hshown.
    split_and!.
    + by apply (status_elements_updateConnectionStatus false st1).
    + by apply (status_elements_updateConnectionStatus false st1).
    + exists (Socket (url newest) CLOSED (created newest) (Some (now st))). split.
      * simpl. rewrite Hs1. unfold st1, set_socket. simpl.
        rewrite Hs, insert_app_r_alt, Nat.sub_diag by done. apply last_snoc.
      * exact Hshown.
  - (* error *)
    destruct (sockets st !! i) as [s|] eqn:Hi; simpl in Hev; [|done].
    assert (st' = run onerror st) as -> by (destruct (ready s); congruence).
    by eapply status_ok_same.
  - (* message *)
    destruct (sockets st !! i) as [s|] eqn:Hi; simpl in Hev; [|done].
    assert (st' = run (onmessage raw) st) as -> by (destruct (ready s); congruence).
    destruct (same_connection_onmessage raw st) as (_ & Hs1 & _).
    eapply status_ok_same; [exact Hs1 | | | done].
    + apply (onmessage_keeps_element "status-dot"). intros c. apply status_untargeted.
    + apply (onmessage_keeps_element "status-text"). intros c. apply status_untargeted.
  - (* timer *)
    destruct (timers st !! k) as [due|] eqn:Hk; simpl in Hev; [|done].
    case_bool_decide as Hdue; [|done]. injection Hev as <-.
    destruct (live newest) eqn:Hl; [by rewrite Htm in Hk|].
    assert (ready newest = CLOSED) as Hr by (unfold live in Hl; by destruct (ready newest)).
    unfold status_of in Hst. rewrite Hr in Hst.
    split_and!; [done..|].
    eexists. split; [apply last_snoc|]. right. exact Hst.
  - (* time passes *)
    case_bool_decide; [|done]. injection Hev as <-.
    by eapply status_ok_same.
Qed.

Lemma play_status_ok evs st st' :
  connection_ok st → status_ok st → play evs st = Some st' → status_ok st'.
Proof.
  revert st. induction evs as [|ev evs IH]; intros st Hc Hok; simpl.
  - by intros [= <-].
  - destruct (dispatch ev st) as [st1|] eqn:Hev; simpl; [|done].
    apply IH; [by eapply dispatch_connection_ok | by eapply dispatch_status_ok].
Qed.

(** X2.  On a page that has the status dot and the status text the
    indicator follows the newest socket, through every sequence of events:
    while that socket is open the text is "Connected" and the dot has the
    class [connected]; once it is closed, and while a later socket is
    connecting, the text is "Disconnected" and the dot has not the class.
    During the first attempt the page shows what it was loaded with. *)
Theorem status_tracks_connection doc loc t evs st :
  is_Some (doc !! "status-dot") → is_Some (doc !! "status-text") →
  play evs (constructor doc loc t) = Some st →
  ∃ newest, last (sockets st) = Some newest
    ∧ match ready newest with
      | OPEN => status_shown st true
      | CLOSED => status_shown st false
      | CONNECTING => length (sockets st) = 1 ∨ status_shown st false
      end.
Proof.
  intros Hdot Htext Hplay.
  destruct (play_status_ok evs _ _ (connection_ok_constructor doc loc t)
              (status_ok_constructor doc loc t Hdot Htext) Hplay) as (_ & _ & H).
  exact H.
Qed.

(** *** The address of the sockets *)

Lemma dispatch_origin P loc ev st st' :
  location st = loc → Forall (λ s, P (url s)) (sockets st) →
  P ((if String.eqb loc.1 "https:" then "wss:" else "ws:") +:+ "//" +:+ loc.2 +:+ "/ws") →
  dispatch ev st = Some st' →
  location st' = loc ∧ Forall (λ s, P (url s)) (sockets st').
Proof.
  intros Hloc Hall HP Hev.
  destruct ev as [i|i|i|i raw|k|d]; simpl in Hev.
  - destruct (sockets st !! i) as [s|] eqn:Hi; simpl in Hev; [|done].
    destruct (ready s) eqn:Hr; try done. injection Hev as <-.
    destruct (run_onopen (set_socket i (Socket (url s) OPEN (created s) None) st))
      as (_ & -> & _ & _ & ->).
    split; [done|]. simpl. apply Forall_insert; [done|]. simpl.
    by eapply (Forall_lookup_1 _ _ _ _ Hall).
  - destruct (sockets st !! i) as [s|] eqn:Hi; simpl in Hev; [|done].
    assert (st' = run onclose
                    (set_socket i (Socket (url s) CLOSED (created s) (Some (now st))) st))
      as -> by (destruct (ready s); congruence).
    destruct (run_onclose
                (set_socket i (Socket (url s) CLOSED (created s) (Some (now st))) st))
      as (st1 & (_ & Hs1 & _ & _ & Hl1) & ->).
    simpl. rewrite Hs1, Hl1. split; [done|]. simpl. apply Forall_insert; [done|]. simpl.
    by eapply (Forall_lookup_1 _ _ _ _ Hall).
  - destruct (sockets st !! i) as [s|] eqn:Hi; simpl in Hev; [|done].
    assert (st' = run onerror st) as -> by (destruct (ready s); congruence). done.
  - destruct (sockets st !! i) as [s|] eqn:Hi; simpl in Hev; [|done].
    assert (st' = run (onmessage raw) st) as -> by (destruct (ready s); congruence).
    destruct (same_connection_onmessage raw st) as (_ & Hs1 & _ & _ & Hl1).
    unfold run. by rewrite Hs1, Hl1.
  - destruct (timers st !! k) as [due|] eqn:Hk; simpl in Hev; [|done].
    case_bool_decide as Hdue; [|done]. injection Hev as <-.
    split; [done|]. simpl. apply Forall_app. split; [done|].
    apply Forall_singleton. simpl. by rewrite Hloc.
  - case_bool_decide; [|done]. by injection Hev as <-.
Qed.

Lemma play_origin P loc evs st st' :
  location st = loc → Forall (λ s, P (url s)) (sockets st) →
  P ((if String.eqb loc.1 "https:" then "wss:" else "ws:") +:+ "//" +:+ loc.2 +:+ "/ws") →
  play evs st = Some st' →
  location st' = loc ∧ Forall (λ s, P (url s)) (sockets st').
Proof.
  intros Hloc Hall HP. revert st Hloc Hall.
  induction evs as [|ev evs IH]; intros st Hloc Hall; simpl.
  - by intros [= <-].
  - destruct (dispatch ev st) as [st1|] eqn:Hev; simpl; [|done].
    destruct (dispatch_origin P _ _ _ _ Hloc Hall HP Hev). by apply IH.
Qed.

(** X3.  Every socket the monitor constructs, the first and each
    reconnection, has the address [ws://host/ws] of the page's host, with
    [wss:] when the page was loaded over https. *)
Theorem sockets_use_page_origin doc protocol host t evs st s :
  play evs (constructor doc (protocol, host) t) = Some st →
  s ∈ sockets st →
  url s = (if String.eqb protocol "https:" then "wss:" else "ws:")
            +:+ "//" +:+ host +:+ "/ws".
Proof.
  intros Hplay Hs.
  destruct (constructor_sockets doc (protocol, host) t) as (s0 & Hs0 & _ & Hu0 & Hl0).
  destruct (play_origin
              (λ u, u = (if String.eqb protocol "https:" then "wss:" else "ws:")
                          +:+ "//" +:+ host +:+ "/ws")
              (protocol, host) evs _ st Hl0) as [_ Hall]; [|done..|].
  - rewrite Hs0. by apply Forall_singleton.
  - by eapply (proj1 (Forall_forall _ _) Hall).
Qed.

(** *** The charts, from construction on *)

#[local] Instance charts_kept_preorder : PreOrder charts_kept.
Proof.
  split.
  - intros st id. by destruct (charts st !! id).
  - intros st1 st2 st3 H12 H23 id. specialize (H12 id). specialize (H23 id).
    destruct (charts st1 !! id), (charts st2 !! id), (charts st3 !! id); try done.
    destruct H12 as (? & ? & ?), H23 as (? & ? & ?).
    split_and!; [congruence..|auto].
Qed.

Lemma charts_kept_same st st' : charts st' = charts st → charts_kept st st'.
Proof. intros H id. rewrite H. by destruct (charts st !! id). Qed.

Lemma only_no_charts D mem st st' :
  only D (λ _, false) mem st st' → charts st' = charts st.
Proof. intros (_ & Hc & _). apply map_eq. intros id. by apply Hc. Qed.

Lemma charts_kept_untouched {A} (m : M A) :
  respects (only (λ _, true) (λ _, false) true) m → respects charts_kept m.
Proof. intros Hm st. eapply charts_kept_same, only_no_charts, Hm. Qed.

Lemma charts_kept_insert st id c c' :
  charts st !! id = Some c →
  labels c' = labels c → length (datasets c') = length (datasets c) →
  (chart_ok c → chart_ok c') →
  charts_kept st (set_charts (<[id := c']> (charts st)) st).
Proof.
  intros Hc Hl Hn Hok id'. simpl. rewrite lookup_insert. case_decide as Hid.
  - subst id'. by rewrite Hc.
  - by destruct (charts st !! id').
Qed.

Lemma chart_ok_series c i d : chart_ok c → datasets c !! i = Some d → length d = 60.
Proof. intros [Hc _] Hd. eapply Hc, list_elem_of_lookup_2, Hd. Qed.

Lemma charts_kept_updateChart id v : respects charts_kept (updateChart id v).
Proof.
  intros st. destruct (charts st !! id) as [c|] eqn:Hc.
  - destruct (datasets c !! 0) as [d|] eqn:Hd.
    + erewrite updateChart_Some by done. cbn [snd].
      eapply charts_kept_insert; [done|done|..].
      * simpl. by rewrite length_insert.
      * intros Hok. apply chart_ok_redrawn, chart_ok_on_series; [done|].
        rewrite slide_length. by eapply chart_ok_series.
    + erewrite updateChart_stuck by done. reflexivity.
  - rewrite updateChart_None by done. reflexivity.
Qed.

Lemma charts_kept_updateDualChart id v1 v2 :
  respects charts_kept (updateDualChart id v1 v2).
Proof.
  intros st. destruct (charts st !! id) as [c|] eqn:Hc.
  - destruct (datasets c !! 0) as [d1|] eqn:Hd1.
    + destruct (datasets c !! 1) as [d2|] eqn:Hd2.
      * erewrite updateDualChart_Some by done. cbn [snd].
        eapply charts_kept_insert; [done|done|..].
        -- simpl. by rewrite !length_insert.
        -- intros Hok. apply chart_ok_redrawn, chart_ok_on_series.
           ++ apply chart_ok_on_series; [done|].
              rewrite slide_length. by eapply chart_ok_series.
           ++ rewrite slide_length. by eapply chart_ok_series.
      * erewrite updateDualChart_half by done.
        eapply charts_kept_insert; [done|done|..].
        -- simpl. by rewrite length_insert.
        -- intros Hok. apply chart_ok_on_series; [done|].
           rewrite slide_length. by eapply chart_ok_series.
    + erewrite updateDualChart_stuck by done. reflexivity.
  - rewrite updateDualChart_None by done. reflexivity.
Qed.

(** A step of a proof that the charts are kept: the two methods that push
    are steps of their own, the other methods and assignments leave the
    charts alone. *)
Ltac charts_step :=
  lazymatch goal with
  | |- respects _ (updateChart _ _) => apply charts_kept_updateChart
  | |- respects _ (updateDualChart _ _ _) => apply charts_kept_updateDualChart
  | |- respects _ (setText _ _) =>
      apply charts_kept_untouched, only_setText; reflexivity
  | |- respects _ (updateMiniGauge _ _) =>
      apply charts_kept_untouched, only_updateMiniGauge; reflexivity
  | |- respects _ (updateProgressBar _ _) =>
      apply charts_kept_untouched, only_updateProgressBar; reflexivity
  | |- respects _ (updateCoreBars _) =>
      apply charts_kept_untouched, only_updateCoreBars; [reflexivity | intros ?; reflexivity]
  | |- respects _ (updateFansList _) =>
      apply charts_kept_untouched, only_updateFansList; reflexivity
  | |- respects _ (updateProcessList _) =>
      apply charts_kept_untouched, only_updateProcessList; reflexivity
  | |- respects _ (updateSystemInfo _) =>
      apply charts_kept_untouched, only_updateSystemInfo; reflexivity
  | |- respects _ (set_textContent _ _) =>
      apply charts_kept_untouched, only_set_textContent; reflexivity
  | |- respects _ (write _) => apply charts_kept_untouched; footprint_step
  | |- _ => footprint_step
  end.

Lemma charts_kept_updateDashboard data : respects charts_kept (updateDashboard data).
Proof.
  unfold updateDashboard, dashboard_cpu, dashboard_gpu, dashboard_memory,
    dashboard_network, dashboard_ping, dashboard_disk, dashboard_fans,
    dashboard_processes, dashboard_system, querySelector.
  repeat charts_step.
Qed.

Lemma charts_kept_onmessage raw : respects charts_kept (onmessage raw).
Proof.
  unfold onmessage. apply respects_try_catch; [apply _ | |].
  - apply respects_lift_bind; [apply _|]. intros data _.
    apply charts_kept_updateDashboard.
  - intros e st. by apply charts_kept_same.
Qed.

Lemma charts_kept_updateConnectionStatus connected :
  respects charts_kept (updateConnectionStatus connected).
Proof.
  apply charts_kept_untouched. unfold updateConnectionStatus. footprint.
Qed.

Lemma dispatch_charts_kept ev st st' : dispatch ev st = Some st' → charts_kept st st'.
Proof.
  intros Hev. destruct ev as [i|i|i|i raw|k|d]; simpl in Hev.
  - destruct (sockets st !! i) as [s|]; simpl in Hev; [|done].
    destruct (ready s); try done. injection Hev as <-.
    set (st1 := set_socket _ _ st).
    trans st1; [by apply charts_kept_same | apply charts_kept_updateConnectionStatus].
  - destruct (sockets st !! i) as [s|]; simpl in Hev; [|done].
    assert (st' = run onclose
                    (set_socket i (Socket (url s) CLOSED (created s) (Some (now st))) st))
      as -> by (destruct (ready s); congruence).
    set (st1 := set_socket _ _ st).
    unfold run, onclose. rewrite seq_Ok by apply updateConnectionStatus_Ok.
    trans st1; [by apply charts_kept_same|].
    trans (updateConnectionStatus false st1).2;
      [apply charts_kept_updateConnectionStatus | by apply charts_kept_same].
  - destruct (sockets st !! i) as [s|]; simpl in Hev; [|done].
    assert (st' = run onerror st) as -> by (destruct (ready s); congruence).
    by apply charts_kept_same.
  - destruct (sockets st !! i) as [s|]; simpl in Hev; [|done].
    assert (st' = run (onmessage raw) st) as -> by (destruct (ready s); congruence).
    apply charts_kept_onmessage.
  - destruct (timers st !! k) as [due|]; simpl in Hev; [|done].
    case_bool_decide; [|done]. injection Hev as <-. by apply charts_kept_same.
  - case_bool_decide; [|done]. injection Hev as <-. by apply charts_kept_same.
Qed.

Lemma play_charts_kept evs st st' : play evs st = Some st' → charts_kept st st'.
Proof.
  revert st. induction evs as [|ev evs IH]; intros st; simpl.
  - intros [= <-]. reflexivity.
  - destruct (dispatch ev st) as [st1|] eqn:Hev; simpl; [|done].
    intros Hplay. etrans; [by eapply dispatch_charts_kept | by apply IH].
Qed.

Lemma createChart_eval id st :
  createChart id st =
    (Ok (), set_charts (with_canvas (document st) 1 id (charts st)) st).
Proof.
  unfold createChart, with_canvas, getElementById, read, mbind, M_bind.
  destruct (decide _); simpl; [done|]. by rewrite set_charts_same.
Qed.

Lemma createDualChart_eval id st :
  createDualChart id st =
    (Ok (), set_charts (with_canvas (document st) 2 id (charts st)) st).
Proof.
  unfold createDualChart, with_canvas, getElementById, read, mbind, M_bind.
  destruct (decide _); simpl; [done|]. by rewrite set_charts_same.
Qed.

Lemma constructor_charts_eval doc loc t :
  charts (constructor doc loc t) =
    with_canvas doc 2 "disk-chart"
      (with_canvas doc 2 "network-chart"
         (with_canvas doc 1 "memory-chart"
            (with_canvas doc 1 "gpu-chart" (with_canvas doc 1 "cpu-chart" ∅)))).
Proof.
  unfold constructor, init. rewrite seq_Ok by apply setupCharts_Ok.
  set (st0 := State _ _ _ _ _ _ _ _ _ _).
  change (charts (setupCharts st0).2 = with_canvas (document st0) 2 "disk-chart"
      (with_canvas (document st0) 2 "network-chart"
         (with_canvas (document st0) 1 "memory-chart"
            (with_canvas (document st0) 1 "gpu-chart"
               (with_canvas (document st0) 1 "cpu-chart" (charts st0)))))).
  generalize st0. intros st. unfold setupCharts.
  repeat (erewrite bind_Ok by first [apply createChart_eval | apply createDualChart_eval]).
  by rewrite createDualChart_eval.
Qed.

Lemma lookup_with_canvas doc n id cs j :
  with_canvas doc n id cs !! j =
    if decide (j = id ∧ is_Some (doc !! id)) then Some (fresh_chart n) else cs !! j.
Proof.
  unfold with_canvas. destruct (decide (is_Some (doc !! id))) as [Hc|Hc].
  - destruct (decide (j = id)) as [->|Hj].
    + rewrite lookup_insert_eq. by rewrite decide_True.
    + rewrite lookup_insert_ne by done. rewrite decide_False; [done|]. by intros [? _].
  - rewrite decide_False; [done|]. by intros [_ ?].
Qed.

Lemma fresh_chart_ok n : chart_ok (fresh_chart n).
Proof.
  split; [|by intros ?? ?%elem_of_nil]. unfold fresh_chart. cbn [datasets].
  intros d [-> _]%elem_of_replicate. apply length_replicate.
Qed.

Lemma constructor_chart doc loc t id :
  match charts (constructor doc loc t) !! id with
  | Some c => id ∈ canvases ∧ is_Some (doc !! id) ∧ chart_shape id c
  | None => id ∉ canvases ∨ doc !! id = None
  end.
Proof.
  rewrite constructor_charts_eval.
  repeat (rewrite lookup_with_canvas;
          destruct (decide (_ ∧ _)) as [[-> ?]|?];
          [ split_and!;
              [ unfold canvases; set_solver | done
              | split_and!; [done | vm_compute; reflexivity | apply fresh_chart_ok] ]
          | ]).
  rewrite lookup_empty.
  destruct (decide (id ∈ canvases)) as [Hin|Hout]; [|by left].
  right. apply eq_None_not_Some. intros Hdoc. unfold canvases in Hin.
  repeat (apply elem_of_cons in Hin as [->|Hin]; [tauto|]).
  by apply elem_of_nil in Hin.
Qed.

Lemma charts_kept_pushes ps st : charts_kept st (pushes ps st).
Proof.
  revert st. induction ps as [|[id v|id v1 v2] ps IH]; intros st; simpl; [reflexivity|..].
  - trans (run (updateChart id v) st); [apply charts_kept_updateChart | apply IH].
  - trans (run (updateDualChart id v1 v2) st);
      [apply charts_kept_updateDualChart | apply IH].
Qed.

Lemma constructor_fresh_chart doc loc t id :
  id ∈ canvases → is_Some (doc !! id) →
  charts (constructor doc loc t) !! id =
    Some (fresh_chart (if bool_decide (id ∈ ["network-chart"; "disk-chart"]) then 2 else 1)).
Proof.
  intros Hid Hdoc. rewrite constructor_charts_eval.
  unfold canvases in Hid. rewrite !elem_of_cons, elem_of_nil in Hid.
  destruct Hid as [->|[->|[->|[->|[->|[]]]]]];
    repeat (rewrite lookup_with_canvas;
            destruct (decide (_ ∧ _)) as [[? ?]|?];
            [first [discriminate | vm_compute; reflexivity]
            | try (exfalso; match goal with H : ¬ _ |- _ => apply H; by split end)]).
Qed.

(** C2.  Every sliding-window series keeps exactly 60 values.  On a page
    that has the canvas of a chart, the new monitor has that chart, with one
    series (two for the network and the disk) of 60 null sentinels each;
    after every sequence of pushes (single or paired, on any chart) the
    chart is still there with as many series, every series still has length
    60 and had it each time its chart was drawn; and a push puts the new
    value at the tail and drops the value at the head. *)
Theorem sliding_window_length doc loc t ps :
  let st0 := constructor doc loc t in
  let st := pushes ps st0 in
  (∀ id, id ∈ canvases → is_Some (doc !! id) →
     let n := if bool_decide (id ∈ ["network-chart"; "disk-chart"]) then 2 else 1 in
     (∃ c0, charts st0 !! id = Some c0
            ∧ datasets c0 = replicate n (replicate 60 VNull))
     ∧ ∃ c, charts st !! id = Some c ∧ length (datasets c) = n
            ∧ ∀ d, d ∈ datasets c → length d = 60)
  ∧ (∀ id c d, charts st0 !! id = Some c → d ∈ datasets c → d = replicate 60 VNull)
  ∧ series_ok st
  ∧ (∀ id v c d, charts st !! id = Some c → datasets c !! 0 = Some d →
       ∃ c', charts (run (updateChart id v) st) !! id = Some c'
             ∧ datasets c' !! 0 = Some (drop 1 d ++ [v])
             ∧ length (drop 1 d ++ [v]) = 60)
  ∧ (∀ id v1 v2 c d1 d2, charts st !! id = Some c → datasets c = [d1; d2] →
       ∃ c', charts (run (updateDualChart id v1 v2) st) !! id = Some c'
             ∧ datasets c' = [drop 1 d1 ++ [v1]; drop 1 d2 ++ [v2]]).
Proof using.
  clear StringToNumber JSON_parse. intros st0 st.
  assert (Hok : series_ok st) by apply series_ok_pushes, constructor_series_ok.
  split_and!.
  - intros id Hid Hdoc n.
    pose proof (constructor_fresh_chart doc loc t id Hid Hdoc) as H0. fold st0 n in H0.
    split; [by eexists|].
    pose proof (charts_kept_pushes ps st0 id) as Hkept. fold st in Hkept.
    rewrite H0 in Hkept. destruct (charts st !! id) as [c|] eqn:Hc; [|done].
    destruct Hkept as (_ & Hn & _). exists c. split; [done|]. split.
    + rewrite Hn. apply length_replicate.
    + apply (proj1 (Hok id c Hc)).
  - intros id c d [[_ ->]|[_ ->]]%constructor_charts; simpl; set_unfold;
      intros; destruct_or?; by subst.
  - done.
  - intros id v c d Hc Hd.
    assert (length d = 60) as Hlen
      by (eapply (proj1 (Hok id c Hc)), list_elem_of_lookup_2; done).
    assert (d ≠ []) by (by destruct d).
    unfold run. erewrite updateChart_Some by done. simpl.
    rewrite lookup_insert_eq. eexists. split; [done|]. simpl.
    rewrite list_lookup_insert_eq by (by eapply lookup_lt_Some).
    rewrite slide_nonempty by done. split; [done|].
    rewrite <-slide_nonempty, slide_length by done. done.
  - intros id v1 v2 c d1 d2 Hc Hd.
    assert (length d1 = 60) as Hlen1
      by (eapply (proj1 (Hok id c Hc)); rewrite Hd; set_solver).
    assert (length d2 = 60) as Hlen2
      by (eapply (proj1 (Hok id c Hc)); rewrite Hd; set_solver).
    assert (d1 ≠ [] ∧ d2 ≠ []) as [??] by (by destruct d1, d2).
    unfold run. erewrite updateDualChart_Some by (done || by rewrite Hd). simpl.
    rewrite lookup_insert_eq. eexists. split; [done|]. simpl.
    rewrite Hd. simpl. by rewrite !slide_nonempty.
Qed.

(** X4.  Through every sequence of events the monitor has a chart for
    exactly those of its five canvases that the page had at construction,
    and each chart keeps the shape [setupCharts] gave it: sixty empty
    labels, one series (two for network and disk), sixty values in every
    series and in every drawing.  No frame, however its reduction ends,
    adds or removes a chart or a series. *)
Theorem charts_stay_as_set_up doc loc t evs st id :
  play evs (constructor doc loc t) = Some st →
  match charts st !! id with
  | Some c => id ∈ canvases ∧ is_Some (doc !! id) ∧ chart_shape id c
  | None => id ∉ canvases ∨ doc !! id = None
  end.
Proof.
  intros Hplay. pose proof (play_charts_kept _ _ _ Hplay id) as Hkept.
  pose proof (constructor_chart doc loc t id) as Hstart.
  destruct (charts (constructor doc loc t) !! id) as [c|],
    (charts st !! id) as [c'|]; try done.
  destruct Hstart as (Hid & Hdoc & Hl & Hn & Hok), Hkept as (Hl' & Hn' & Hok').
  split_and!; [done | done |]. split_and!; [congruence | congruence | auto].
Qed.

(** *** Frames the reducer can work on *)

Lemma is_Ok_bind {A B} (r : result A) (f : A → result B) :
  is_Ok r → (∀ a, r = Ok a → is_Ok (f a)) → is_Ok (r ≫= f).
Proof. intros [a ->] Hf. by apply Hf. Qed.

Lemma get_field v k : is_nullish v = false → get v k = Ok (field v k).
Proof. unfold field. by destruct v. Qed.

Lemma truthy_not_nullish v : truthy v = true → is_nullish v = false.
Proof. by destruct v. Qed.

Lemma printable_to_string v : printable v = true → is_Ok (to_string v).
Proof. unfold printable. destruct (to_string v) as [s|]; [by exists s | done]. Qed.

Lemma printable_to_number v : printable v = true → is_Ok (to_number v).
Proof.
  intros [s Hs]%printable_to_string. unfold to_number.
  destruct v; try by eexists. all: rewrite Hs; by eexists.
Qed.

Lemma printable_DOMString v : printable v = true → is_Ok (DOMString v).
Proof.
  intros Hv. unfold DOMString. destruct (is_nullish v); [by eexists|].
  by apply printable_to_string.
Qed.

Lemma primitive_printable v : primitive v = true → printable v = true.
Proof. by destruct v. Qed.

Lemma is_number_primitive v : is_number v = true → primitive v = true.
Proof. by destruct v. Qed.

Lemma printable_or_else a b :
  printable a = true → printable b = true → printable (or_else a b) = true.
Proof. unfold or_else. by destruct (truthy a). Qed.

Lemma primitive_or_else a b :
  primitive a = true → primitive b = true → primitive (or_else a b) = true.
Proof. unfold or_else. by destruct (truthy a). Qed.

Lemma number_or_else v z : number_if_truthy v = true → is_number (or_else v (num z)) = true.
Proof. unfold number_if_truthy, or_else. by destruct (truthy v). Qed.

Lemma number_when_truthy v : number_if_truthy v = true → truthy v = true → is_number v = true.
Proof. unfold number_if_truthy. intros H Ht. by rewrite Ht in H. Qed.

Lemma number_or_zero v z : number_if_given v = true → is_number (or_else v (num z)) = true.
Proof. unfold number_if_given, or_else. destruct v; try done. simpl. by destruct (Number.truthy f). Qed.

Lemma number_toFixed v n : is_number v = true → is_Ok (toFixed v n).
Proof. destruct v; try done. by eexists. Qed.

Lemma given_opt_toFixed v n : number_if_given v = true → is_Ok (opt_toFixed v n).
Proof. destruct v; try done; by eexists. Qed.

Lemma opt_toFixed_primitive v n u : opt_toFixed v n = Ok u → primitive u = true.
Proof.
  unfold opt_toFixed. destruct (is_nullish v); [by intros [= <-]|].
  destruct (toFixed v n); simpl; [by intros [= <-] | done].
Qed.

Lemma list_or_empty P v :
  list_if_truthy P v = true → ∃ l, or_else v (VArr []) = VArr l ∧ forallb P l = true.
Proof.
  unfold list_if_truthy, or_else. destruct v; simpl; try (intros ->%negb_true_iff);
    try by exists []. all: eauto.
Qed.

Lemma list_when_truthy P v :
  list_if_truthy P v = true → truthy v = true → ∃ l, v = VArr l ∧ forallb P l = true.
Proof.
  unfold list_if_truthy. destruct v; try (by intros ->%negb_true_iff); eauto.
Qed.

Lemma is_Ok_mapM {A B} (f : A → result B) l :
  Forall (λ x, is_Ok (f x)) l → is_Ok (mapM f l).
Proof.
  induction 1 as [|x l [y Hy] _ [r Hr]]; simpl; [by eexists|].
  rewrite Hy. simpl. rewrite Hr. by eexists.
Qed.

Lemma is_Ok_filterM (f : value → result bool) l :
  Forall (λ x, is_Ok (f x)) l →
  ∃ r, filterM f l = Ok r ∧ ∀ x, x ∈ r → x ∈ l.
Proof.
  induction 1 as [|x l [b Hb] _ (r & Hr & Hin)]; simpl; [by exists []|].
  rewrite Hb. simpl. rewrite Hr. simpl. eexists. split; [done|].
  intros y Hy. destruct b; [apply elem_of_cons in Hy as [->|Hy]|];
    rewrite elem_of_cons; auto.
Qed.

Lemma chart_shape_kept st st' id c' :
  charts_kept st st' → (∀ id c, charts st !! id = Some c → chart_shape id c) →
  charts st' !! id = Some c' → chart_shape id c'.
Proof.
  intros Hkept Hsh Hc'. specialize (Hkept id). rewrite Hc' in Hkept.
  destruct (charts st !! id) as [c|] eqn:Hc; [|done].
  destruct (Hsh id c Hc) as (Hl & Hn & Hok), Hkept as (Hl' & Hn' & Hok').
  split_and!; [congruence | congruence | auto].
Qed.

Lemma prepared_kept st st' :
  charts_kept st st' → totalMemoryGB st' = totalMemoryGB st → prepared st → prepared st'.
Proof.
  intros Hkept Ht [Hsh Hn]. split; [|by rewrite Ht].
  intros id c'. by apply (chart_shape_kept st).
Qed.

Lemma completes_ret {A} (a : A) : completes (mret a).
Proof. intros st Hst. by exists a, st. Qed.

Lemma completes_bind {A B} (m : M A) (k : A → M B) :
  completes m → (∀ a, completes (k a)) → completes (m ≫= k).
Proof.
  intros Hm Hk st Hst. destruct (Hm st Hst) as (a & st1 & Ha & Hst1 & Hc1).
  destruct (Hk a st1 Hst1) as (b & st2 & Hb & Hst2 & Hc2).
  exists b, st2. erewrite bind_Ok by done. split_and!; [done | done | congruence].
Qed.

Lemma completes_lift_bind {A B} (r : result A) (k : A → M B) :
  is_Ok r → (∀ a, r = Ok a → completes (k a)) → completes (lift r ≫= k).
Proof. intros [a ->] Hk st Hst. by apply Hk. Qed.

Lemma completes_get_bind {B} v key (k : value → M B) :
  is_nullish v = false → completes (k (field v key)) →
  completes (lift (get v key) ≫= k).
Proof. intros Hv Hk. rewrite get_field by done. exact Hk. Qed.

Lemma completes_getElementById_bind {B} id (k : option string → M B) :
  completes (k None) → completes (k (Some id)) → completes (getElementById id ≫= k).
Proof.
  intros HN HS st Hst. unfold mbind, M_bind, getElementById, read.
  destruct (decide _); [by apply HS | by apply HN].
Qed.

Lemma completes_read_bind {A B} (f : state → A) (k : A → M B) :
  (∀ a, completes (k a)) → completes (read f ≫= k).
Proof. intros Hk st Hst. by apply Hk. Qed.

Lemma completes_read_total {B} (k : value → M B) :
  (∀ v, is_number v = true → completes (k v)) → completes (read totalMemoryGB ≫= k).
Proof. intros Hk st Hst. apply Hk; [|done]. apply Hst. Qed.

Lemma completes_modify el f : completes (modify el f).
Proof. intros st Hst. exists (), (set_document (alter f el (document st)) st). by split_and!. Qed.

Lemma completes_set_total v :
  is_number v = true → completes (write (set_totalMemoryGB v)).
Proof.
  intros Hv st [Hsh _]. exists (), (set_totalMemoryGB v st). by split_and!.
Qed.

Lemma completes_updateChart id v : completes (updateChart id v).
Proof.
  intros st Hst. destruct (charts st !! id) as [c|] eqn:Hc.
  - destruct (proj1 Hst id c Hc) as (_ & Hn & _).
    destruct (datasets c) as [|d ds] eqn:Hd; [by case_bool_decide|].
    pose proof (charts_kept_updateChart id v st) as Hkept.
    erewrite updateChart_Some in Hkept |- * by (done || by rewrite Hd).
    eexists _, _. split; [done|]. split; [|done]. by eapply prepared_kept.
  - rewrite updateChart_None by done. by eexists _, _.
Qed.

Lemma completes_updateDualChart id v1 v2 :
  id ∈ ["network-chart"; "disk-chart"] → completes (updateDualChart id v1 v2).
Proof.
  intros Hid st Hst. destruct (charts st !! id) as [c|] eqn:Hc.
  - destruct (proj1 Hst id c Hc) as (_ & Hn & _).
    rewrite bool_decide_true in Hn by done.
    destruct (datasets c) as [|d1 [|d2 ds]] eqn:Hd; [done..|].
    pose proof (charts_kept_updateDualChart id v1 v2 st) as Hkept.
    erewrite updateDualChart_Some in Hkept |- * by (done || by rewrite Hd).
    eexists _, _. split; [done|]. split; [|done]. by eapply prepared_kept.
  - rewrite updateDualChart_None by done. by eexists _, _.
Qed.

Lemma completes_forEach (f : value → nat → M unit) l i :
  (∀ x j, x ∈ l → completes (f x j)) → completes (forEach f l i).
Proof.
  revert i. induction l as [|x l IH]; intros i Hf; simpl.
  - apply completes_ret.
  - apply completes_bind; [apply Hf; left|].
    intros _. apply IH. intros y j Hy. apply Hf. by right.
Qed.

Lemma completes_write (f : state → state) :
  (∀ st, charts (f st) = charts st) → (∀ st, totalMemoryGB (f st) = totalMemoryGB st) →
  (∀ st, console (f st) = console st) → completes (write f).
Proof.
  intros Hc Ht Hl st [Hsh Hn]. exists (), (f st). split_and!; [done| |done].
  split; [by rewrite Hc | by rewrite Ht].
Qed.

(** The facts a proof has about the fields: the conjuncts of what the
    frame is asked, and what the tests on the way have shown. *)
Ltac schema_facts :=
  repeat match goal with
    | H : _ && _ = true |- _ => apply andb_prop in H as [? ?]
    | H : forallb _ (_ :: _) = true |- _ => cbn [forallb] in H
    | H : forallb _ [] = true |- _ => clear H
    end.

(** The value a pure expression gave is the string it ends in. *)
Ltac string_result H :=
  repeat match type of H with
    | (if ?b then _ else _) = Ok _ => destruct b
    | (_ ≫= _) = Ok _ => apply result_bind_inv in H as (? & _ & H)
    end;
  injection H as <-; reflexivity.

Ltac ok_fact :=
  lazymatch goal with
  | |- is_nullish _ = false =>
      first [assumption | apply truthy_not_nullish; assumption | reflexivity]
  | |- printable (or_else _ _) = true =>
      first [ apply primitive_printable, is_number_primitive; ok_fact
            | apply printable_or_else; ok_fact ]
  | |- primitive (or_else _ _) = true => apply primitive_or_else; ok_fact
  | |- is_number (or_else _ (num _)) = true =>
      first [apply number_or_else; assumption | apply number_or_zero; assumption]
  | |- is_number _ = true =>
      first [assumption | reflexivity | apply number_when_truthy; assumption]
  | |- primitive _ = true =>
      first [ assumption | reflexivity | apply is_number_primitive; ok_fact
            | eapply opt_toFixed_primitive; eassumption ]
  | |- printable (if ?b then _ else _) = true => destruct b eqn:?; ok_fact
  | |- printable ?v = true =>
      first [ assumption | reflexivity | apply primitive_printable; ok_fact
            | match goal with H : _ = Ok v |- _ => solve [string_result H] end ]
  | |- _ => assumption
  end.

(** A pure expression does not throw. *)
Ltac ok_run :=
  cbv beta iota zeta;
  lazymatch goal with
  | |- is_Ok (Ok _) => by eexists
  | |- is_Ok (get ?v ?k ≫= _) =>
      rewrite (get_field v k) by ok_fact; cbn [mbind result_bind]; ok_run
  | |- is_Ok (_ ≫= _) => apply is_Ok_bind; [ok_run | intros ? ?; ok_run]
  | |- is_Ok (if ?b then _ else _) => destruct b eqn:?; ok_run
  | |- is_Ok (get ?v ?k) => rewrite (get_field v k) by ok_fact; by eexists
  | |- is_Ok (to_string _) => apply printable_to_string; try ok_fact
  | |- is_Ok (to_number _) => apply printable_to_number; try ok_fact
  | |- is_Ok (DOMString _) => apply printable_DOMString; try ok_fact
  | |- is_Ok (div_by _ _) => unfold div_by; ok_run
  | |- is_Ok (Math_min _ _) => unfold Math_min; ok_run
  | |- is_Ok (Math_round _) => unfold Math_round; ok_run
  | |- is_Ok (toFixed _ _) => apply number_toFixed; try ok_fact
  | |- is_Ok (opt_toFixed _ _) => apply given_opt_toFixed; try ok_fact
  | |- _ => idtac
  end.

(** A statement built from the steps below ends normally. *)
Ltac completes_leaf :=
  lazymatch goal with
  | |- completes (mret _) => apply completes_ret
  | |- completes (set_textContent _ _) => apply completes_modify
  | |- completes (set_innerHTML _ _) => apply completes_modify
  | |- completes (set_style _ _ _) => apply completes_modify
  | |- completes (classList_toggle _ _ _) => apply completes_modify
  | |- completes (write (set_totalMemoryGB _)) => apply completes_set_total; try ok_fact
  | |- completes (write _) => apply completes_write; done
  | |- completes (updateChart _ _) => apply completes_updateChart
  | |- completes (updateDualChart _ _ _) =>
      apply completes_updateDualChart; set_solver
  end.

Ltac completes_run :=
  cbv beta iota zeta;
  lazymatch goal with
  | |- completes (lift (get ?v ?k) ≫= _) =>
      apply completes_get_bind; [try ok_fact | completes_run]
  | |- completes (lift _ ≫= _) =>
      apply completes_lift_bind;
        [ ok_run
        | let a := fresh in
          let H := fresh in
          intros a H;
          try match type of H with Ok _ = Ok _ => injection H as <- end;
          completes_run ]
  | |- completes (getElementById _ ≫= _) =>
      apply completes_getElementById_bind; completes_run
  | |- completes (querySelector _ ≫= _) =>
      apply completes_getElementById_bind; completes_run
  | |- completes (read totalMemoryGB ≫= _) =>
      apply completes_read_total; intros ? ?; completes_run
  | |- completes (read _ ≫= _) => apply completes_read_bind; intros ?; completes_run
  | |- completes (_ ≫= _) => apply completes_bind; [completes_run | intros ?; completes_run]
  | |- completes (if ?b then _ else _) => destruct b eqn:?; completes_run
  | |- completes (match ?x with Some _ => _ | None => _ end) =>
      destruct x eqn:?; completes_run
  | |- _ => first [completes_leaf | idtac]
  end.

Lemma completes_setText id v : printable v = true → completes (setText id v).
Proof. intros Hv. unfold setText. completes_run. Qed.

Lemma completes_updateMiniGauge g v :
  printable v = true → completes (updateMiniGauge g v).
Proof. intros Hv. unfold updateMiniGauge. completes_run. Qed.

Lemma completes_updateProgressBar id v :
  printable v = true → completes (updateProgressBar id v).
Proof. intros Hv. unfold updateProgressBar. completes_run. Qed.

Lemma forallb_elem (P : value → bool) l x : forallb P l = true → x ∈ l → P x = true.
Proof. intros Hl Hx. by apply (proj1 (forallb_forall P l) Hl), list_elem_of_In. Qed.

Lemma completes_rebuild_core_bars container n : completes (rebuild_core_bars container n).
Proof. unfold rebuild_core_bars. completes_run. Qed.

Lemma completes_updateCoreBars v :
  list_if_truthy printable v = true → completes (updateCoreBars (or_else v (VArr []))).
Proof.
  intros (l & -> & Hl)%list_or_empty. unfold updateCoreBars, array_of.
  completes_run; try apply completes_rebuild_core_bars.
  apply completes_forEach. intros usage i Hin.
  pose proof (forallb_elem _ _ _ Hl Hin). completes_run.
Qed.

Lemma fan_item_Ok fan : fan_fields fan = true → is_Ok (fan_item fan).
Proof.
  unfold fan_fields. intros H. schema_facts.
  assert (is_nullish fan = false) by (by apply negb_true_iff).
  assert (∀ v, (if negb (is_null v) then v else VNull) = v) as Hsame by (by intros []).
  unfold fan_item. rewrite !(get_field fan) by done. cbn [mbind result_bind].
  cbv zeta. rewrite !Hsame. ok_run.
Qed.

Lemma completes_updateFansList fanData :
  is_nullish fanData = false → fans_fields fanData = true →
  completes (updateFansList fanData).
Proof.
  intros Hv (l & Hl & Hall)%list_or_empty. unfold updateFansList, array_of.
  apply completes_getElementById_bind; [apply completes_ret|].
  apply completes_get_bind; [done|]. cbv zeta. rewrite Hl.
  completes_run. apply is_Ok_mapM, Forall_forall. intros fan Hin.
  by eapply fan_item_Ok, forallb_elem.
Qed.

Lemma not_idle_Ok p : is_nullish p = false → is_Ok (not_idle p).
Proof. intros Hp. unfold not_idle. ok_run. Qed.

Lemma process_item_Ok total p :
  is_number total = true → process_fields p = true → is_Ok (process_item total p).
Proof.
  unfold process_fields. intros Ht H. schema_facts.
  assert (is_nullish p = false) by (by apply negb_true_iff).
  unfold process_item. ok_run.
Qed.

Lemma filterM_not_idle l :
  Forall (λ p, is_nullish p = false) l → filterM not_idle l = Ok (List.filter kept l).
Proof.
  induction 1 as [|p l Hp _ IH]; [done|]. simpl. rewrite IH.
  unfold not_idle, kept. rewrite (get_field p "name") by done. done.
Qed.

Lemma process_item_shown total t p :
  to_number total = Ok t → process_fields p = true →
  ∃ item, process_item total p = Ok item
          ∧ to_string (field p "name") = Ok (item_name item).
Proof.
  unfold process_fields. intros Ht H.
  apply andb_true_iff in H as [[Hp Hc]%andb_true_iff Hrest].
  apply negb_true_iff in Hp. simpl in Hrest.
  apply andb_true_iff in Hrest as [Hm [Hn _]%andb_true_iff].
  destruct (printable_to_number _ Hm) as [m Hmem].
  destruct (printable_to_string _ Hn) as [name Hname].
  destruct (field p "cpu_percent") as [| | |cpu| | |] eqn:Hcpu; try done.
  unfold process_item, div_by.
  rewrite !get_field by done. cbn [mbind result_bind].
  rewrite Hmem. cbn [mbind result_bind]. rewrite Ht. cbn [mbind result_bind].
  rewrite Hcpu. cbn [toFixed mbind result_bind]. rewrite Hname.
  cbn [mbind result_bind]. eexists. split; [reflexivity|]. done.
Qed.

Lemma process_item_raises total p :
  is_nullish p = false → is_nullish (field p "cpu_percent") = true →
  ∃ e, process_item total p = Throw e.
Proof.
  intros Hp Hc. unfold process_item. rewrite !get_field by done.
  cbn [mbind result_bind].
  destruct (div_by _ _) as [q|e]; [|by exists e]. cbn [mbind result_bind].
  destruct (to_number total) as [t|e]; [|by exists e]. cbn [mbind result_bind].
  destruct (field p "cpu_percent"); try done; by eexists.
Qed.

Lemma mapM_shown total t l :
  to_number total = Ok t → Forall (λ p, process_fields p = true) l →
  ∃ items, mapM (process_item total) l = Ok items
           ∧ Forall2 (λ p item, process_item total p = Ok item
                                ∧ to_string (field p "name") = Ok (item_name item))
               l items.
Proof.
  intros Ht. induction 1 as [|p l Hp _ (items & IH & Hall)].
  - exists []. split; [done|constructor].
  - destruct (process_item_shown total t p Ht Hp) as (item & Hitem & Hname).
    exists (item :: items). split.
    + cbn [mapM]. rewrite Hitem. cbn [mbind result_bind]. by rewrite IH.
    + by constructor.
Qed.

Lemma mapM_raises {A B} (f : A → result B) l x :
  x ∈ l → (∃ e, f x = Throw e) → ∃ e, mapM f l = Throw e.
Proof.
  intros Hx [e He]. induction l as [|y l IH]; [by apply elem_of_nil in Hx|].
  simpl. destruct (f y) as [b|e'] eqn:Hy; [|by exists e'].
  apply elem_of_cons in Hx as [->|Hx]; [congruence|].
  destruct (IH Hx) as [e'' ->]. by exists e''.
Qed.

(** C7.  On a page that has the list, for a list of process entries
    (objects) and a [totalMemoryGB] that converts to a number.  When each
    of the first 8 entries not named 'System Idle Process' has a numeric
    [cpu_percent] and a name and a [memory_percent] that can be printed,
    updateProcessList completes and the list shows exactly these entries,
    under their names and in the order of the frame, whatever the entries
    after them hold; so 8 or more such entries give exactly 8 items.  When
    one of these entries has no [cpu_percent], updateProcessList raises and
    the list is left as it was: there the displayed list is not the one the
    claim gives. *)
Theorem process_list_filter_and_cap processes st :
  is_Some (document st !! "process-list") →
  Forall (λ p, is_nullish p = false) processes →
  (∃ t, to_number (totalMemoryGB st) = Ok t) →
  (Forall (λ p, process_fields p = true) (displayed_spec processes) →
     ∃ items,
       updateProcessList (VArr processes) st =
         (Ok (), set_document (alter (set_html items) "process-list" (document st)) st)
       ∧ Forall2 (λ p item, process_item (totalMemoryGB st) p = Ok item
                            ∧ to_string (field p "name") = Ok (item_name item))
           (displayed_spec processes) items
       ∧ (Forall process_entry processes →
            item_name <$> items =
              take 8 (List.filter (λ name, negb (String.eqb name "System Idle Process"))
                        (entry_name <$> processes)))
       ∧ (8 ≤ length (List.filter kept processes) → length items = 8))
  ∧ (∀ p, p ∈ displayed_spec processes →
       is_nullish (field p "cpu_percent") = true →
       ∃ e, updateProcessList (VArr processes) st = (Throw e, st)).
Proof.
  intros Hlist Hobj [t Ht].
  assert (updateProcessList (VArr processes) st =
            match mapM (process_item (totalMemoryGB st)) (displayed_spec processes) with
            | Ok items =>
                (Ok (), set_document (alter (set_html items) "process-list" (document st)) st)
            | Throw e => (Throw e, st)
            end) as Hrun.
  { unfold updateProcessList, getElementById, read, mbind, M_bind.
    destruct (decide _) as [_|[]]; [|done]. cbn [lift array_of].
    rewrite filterM_not_idle by done.
    fold (displayed_spec processes).
    by destruct (mapM _ _). }
  split.
  - intros Hshown.
    destruct (mapM_shown _ t _ Ht Hshown) as (items & Hitems & Hall).
    exists items. rewrite Hrun, Hitems. split_and!; [done|done|..].
    + intros Hentries.
      assert (Forall process_entry (displayed_spec processes)) as Hd.
      { apply Forall_take, Forall_forall. intros p Hp%list_elem_of_In%List.filter_In.
        rewrite Forall_forall in Hentries. apply Hentries, list_elem_of_In. tauto. }
      destruct (process_entries_items _ t _ Hd Ht) as (items' & Hitems' & Hnames).
      rewrite Hitems in Hitems'. injection Hitems' as <-.
      rewrite Hnames. unfold displayed_spec. by rewrite fmap_take, filter_entry_names.
    + intros H8. apply Forall2_length in Hall. rewrite <-Hall.
      unfold displayed_spec. rewrite length_take. lia.
  - intros p Hp Hc.
    assert (is_nullish p = false) as Hnn.
    { rewrite Forall_forall in Hobj. apply Hobj.
      unfold displayed_spec in Hp. apply elem_of_take in Hp as (i & Hi & _).
      apply list_elem_of_lookup_2 in Hi.
      apply list_elem_of_In, List.filter_In in Hi as [Hi _]. by apply list_elem_of_In. }
    destruct (mapM_raises (process_item (totalMemoryGB st)) (displayed_spec processes) p Hp
                (process_item_raises _ p Hnn Hc)) as [e He].
    exists e. by rewrite Hrun, He.
Qed.

Lemma completes_updateProcessList processes :
  truthy processes = true → list_if_truthy process_fields processes = true →
  completes (updateProcessList processes).
Proof.
  intros Ht Hall. apply list_when_truthy in Hall as (l & -> & Hl); [|done].
  unfold updateProcessList, array_of.
  apply completes_getElementById_bind; [apply completes_ret|].
  destruct (is_Ok_filterM not_idle l) as (kept & Hkept & Hin).
  { apply Forall_forall. intros p Hp. apply not_idle_Ok.
    pose proof (forallb_elem _ _ _ Hl Hp) as H. unfold process_fields in H.
    schema_facts. by apply negb_true_iff. }
  apply completes_lift_bind; [by eexists|]. intros ? [= <-].
  apply completes_lift_bind; [by eexists|]. intros ? Hk.
  rewrite Hkept in Hk. injection Hk as <-.
  apply completes_read_total. intros total Htotal.
  apply completes_lift_bind; [|intros ? _; apply completes_modify].
  apply is_Ok_mapM, Forall_forall. intros p Hp.
  apply process_item_Ok; [done|]. eapply forallb_elem; [done|].
  apply Hin. apply elem_of_take in Hp as (i & Hi & _).
  by eapply list_elem_of_lookup_2.
Qed.

Lemma field_primitive v k : primitive v = true → primitive (field v k) = true.
Proof.
  unfold field. destruct v; try done; simpl; by destruct (String.eqb k "length").
Qed.

Lemma or_else_not_nullish a b : is_nullish b = false → is_nullish (or_else a b) = false.
Proof.
  unfold or_else. destruct (truthy a) eqn:Ha; [|done]. intros _.
  by apply truthy_not_nullish.
Qed.

(** Only a string has a length above 20 among the values a model can be. *)
Lemma long_model_is_string model len :
  primitive model = true → to_number (field model "length") = Ok len →
  Number.gtb len (Number.of_Z 20) = true → ∃ s, model = VStr s.
Proof.
  destruct model; try done; simpl; intros _ [= <-]; try done. by eexists.
Qed.

Lemma drive_item_Ok drive : drive_fields drive = true → is_Ok (drive_item drive).
Proof.
  unfold drive_fields. intros H. schema_facts.
  assert (is_nullish drive = false) by (by apply negb_true_iff).
  assert (primitive (or_else (field drive "model") (VStr "Unknown")) = true) as Hmodel
    by ok_fact.
  assert (is_nullish (or_else (field drive "model") (VStr "Unknown")) = false) as Hnn
    by (by apply or_else_not_nullish).
  unfold drive_item. rewrite !(get_field drive) by done. cbn [mbind result_bind].
  apply is_Ok_bind; [ok_run|]. intros n Hn.
  apply is_Ok_bind; [ok_run|]. intros sizeStr _. cbv zeta.
  rewrite get_field by done. cbn [mbind result_bind].
  apply is_Ok_bind.
  { apply printable_to_number, primitive_printable. by apply field_primitive. }
  intros len Hlen. apply is_Ok_bind.
  - destruct (Number.gtb len (Number.of_Z 20)) eqn:Hlong; [|by eexists].
    destruct (long_model_is_string _ _ Hmodel Hlen Hlong) as [s ->]. by eexists.
  - intros shown Hshown.
    assert (printable shown = true).
    { destruct (Number.gtb len (Number.of_Z 20)) eqn:Hlong.
      - destruct (long_model_is_string _ _ Hmodel Hlen Hlong) as [s Hs].
        rewrite Hs in Hshown. by injection Hshown as <-.
      - injection Hshown as <-. by apply primitive_printable. }
    ok_run.
Qed.

Lemma completes_updateSystemInfo system :
  truthy system = true →
  when (field system "available") (λ _, system_fields system) = true →
  completes (updateSystemInfo system).
Proof.
  intros Ht Hsys. unfold updateSystemInfo.
  apply completes_get_bind; [ok_fact|].
  destruct (truthy (field system "available")) eqn:Hav; simpl; [|apply completes_ret].
  unfold when in Hsys. rewrite Hav in Hsys. simpl in Hsys.
  unfold system_fields in Hsys. schema_facts.
  apply completes_get_bind; [ok_fact|].
  apply completes_bind.
  { destruct (truthy (field system "uptime")); [|apply completes_ret].
    by apply completes_setText. }
  intros _. apply completes_get_bind; [ok_fact|].
  apply completes_bind.
  { destruct (truthy (field system "motherboard")) eqn:Hmb; [|apply completes_ret].
    apply completes_get_bind; [ok_fact|]. apply completes_setText. ok_fact. }
  intros _. apply completes_get_bind; [ok_fact|].
  destruct (truthy (field system "drives")) eqn:Hdr.
  - match goal with H : list_if_truthy _ _ = true |- _ =>
      apply list_when_truthy in H as (l & Hl & Hall); [|done] end.
    rewrite Hl. unfold array_of. completes_run.
    apply is_Ok_mapM, Forall_forall. intros drive Hin.
    by eapply drive_item_Ok, forallb_elem.
  - completes_run.
Qed.

(** The test that opens a part: the category is there, and so is what is
    asked of it, or the part is skipped. *)
Ltac completes_when H :=
  lazymatch goal with
  | |- completes (if truthy ?v then _ else _) =>
      let Hv := fresh "Hthere" in
      destruct (truthy v) eqn:Hv; [|apply completes_ret];
      unfold when in H; rewrite Hv in H; cbn [negb orb] in H
  end.

Lemma completes_cpu data :
  is_nullish data = false → when (field data "cpu") cpu_fields = true →
  completes (dashboard_cpu data).
Proof.
  intros Hdata H. unfold dashboard_cpu.
  apply completes_get_bind; [done|]. completes_when H.
  unfold cpu_fields in H. schema_facts.
  repeat first [ apply completes_setText; ok_fact
               | apply completes_updateCoreBars; assumption
               | progress completes_run ].
Qed.

Lemma completes_gpu data :
  is_nullish data = false →
  when (field data "gpu") (λ gpu, when (field gpu "available") (λ _, gpu_fields gpu)) = true →
  completes (dashboard_gpu data).
Proof.
  intros Hdata H. unfold dashboard_gpu.
  apply completes_get_bind; [done|].
  destruct (truthy (field data "gpu")) eqn:Hgpu.
  - unfold when at 1 in H. rewrite Hgpu in H. cbn [negb orb] in H.
    apply completes_get_bind; [ok_fact|]. completes_when H.
    unfold gpu_fields in H. schema_facts.
    repeat first [ apply completes_setText; ok_fact
                 | apply completes_updateMiniGauge; ok_fact
                 | apply completes_updateProgressBar; ok_fact
                 | progress completes_run ].
  - apply completes_lift_bind; [by eexists|]. intros ? [= <-].
    rewrite Hgpu. apply completes_ret.
Qed.

Lemma completes_memory data :
  is_nullish data = false → when (field data "memory") memory_fields = true →
  completes (dashboard_memory data).
Proof.
  intros Hdata H. unfold dashboard_memory.
  apply completes_get_bind; [done|]. completes_when H.
  unfold memory_fields in H. schema_facts.
  repeat first [ apply completes_setText; ok_fact
               | apply completes_updateMiniGauge; ok_fact
               | progress completes_run ].
Qed.

Lemma completes_network data :
  is_nullish data = false →
  when (field data "network") (rate_fields "download_rate" "upload_rate") = true →
  completes (dashboard_network data).
Proof.
  intros Hdata H. unfold dashboard_network.
  apply completes_get_bind; [done|]. completes_when H.
  unfold rate_fields in H. schema_facts.
  repeat first [apply completes_setText; ok_fact | progress completes_run].
Qed.

Lemma completes_ping data :
  is_nullish data = false → when (field data "ping") ping_fields = true →
  completes (dashboard_ping data).
Proof.
  intros Hdata H. unfold dashboard_ping.
  apply completes_get_bind; [done|]. completes_when H.
  unfold ping_fields in H.
  repeat first [apply completes_setText; ok_fact | progress completes_run].
Qed.

Lemma completes_disk data :
  is_nullish data = false →
  when (field data "disk") (rate_fields "read_rate" "write_rate") = true →
  completes (dashboard_disk data).
Proof.
  intros Hdata H. unfold dashboard_disk.
  apply completes_get_bind; [done|]. completes_when H.
  unfold rate_fields in H. schema_facts.
  repeat first [apply completes_setText; ok_fact | progress completes_run].
Qed.

Lemma completes_fans data :
  is_nullish data = false → when (field data "fans") fans_fields = true →
  completes (dashboard_fans data).
Proof.
  intros Hdata H. unfold dashboard_fans.
  apply completes_get_bind; [done|]. completes_when H.
  apply completes_updateFansList; [ok_fact | done].
Qed.

Lemma completes_processes data :
  is_nullish data = false → list_if_truthy process_fields (field data "processes") = true →
  completes (dashboard_processes data).
Proof.
  intros Hdata H. unfold dashboard_processes.
  apply completes_get_bind; [done|].
  destruct (truthy (field data "processes")) eqn:Hthere; [|apply completes_ret].
  by apply completes_updateProcessList.
Qed.

Lemma completes_system data :
  is_nullish data = false →
  when (field data "system")
    (λ system, when (field system "available") (λ _, system_fields system)) = true →
  completes (dashboard_system data).
Proof.
  intros Hdata H. unfold dashboard_system.
  apply completes_get_bind; [done|]. completes_when H.
  by apply completes_updateSystemInfo.
Qed.

Lemma completes_updateDashboard data :
  frame_fields data = true → completes (updateDashboard data).
Proof.
  unfold frame_fields. intros H. schema_facts.
  assert (is_nullish data = false) by (by apply negb_true_iff).
  unfold updateDashboard.
  repeat (apply completes_bind; [|intros _]);
    auto using completes_cpu, completes_gpu, completes_memory, completes_network,
      completes_ping, completes_disk, completes_fans, completes_processes,
      completes_system.
Qed.

Lemma prepared_only D st st' :
  only D (λ _, false) false st st' → prepared st → prepared st' ∧ console st' = console st.
Proof.
  intros Honly [Hsh Hn]. pose proof (only_no_charts _ _ _ _ Honly) as Hc.
  destruct Honly as (_ & _ & Ht & _ & _ & _ & Hl & _).
  split; [|done]. split; [by rewrite Hc | by rewrite Ht].
Qed.

Lemma prepared_constructor doc loc t : prepared (constructor doc loc t).
Proof.
  split.
  - intros id c Hc. pose proof (constructor_chart doc loc t id) as H.
    rewrite Hc in H. apply H.
  - by rewrite (constructor_keeps totalMemoryGB).
Qed.

Lemma only_updateConnectionStatus connected :
  respects (only (λ _, true) (λ _, false) false) (updateConnectionStatus connected).
Proof. unfold updateConnectionStatus. footprint. Qed.

Lemma onmessage_expected raw data st :
  JSON_parse raw = Some data → frame_fields data = true → prepared st →
  prepared (run (onmessage raw) st) ∧ console (run (onmessage raw) st) = console st.
Proof.
  intros Hraw Hdata Hst.
  destruct (completes_updateDashboard data Hdata st Hst) as ([] & st' & Hrun & Hst' & Hc).
  unfold run, onmessage, try_catch. rewrite Hraw.
  unfold mbind, M_bind, lift. by rewrite Hrun.
Qed.

Lemma dispatch_expected ev st st' :
  expected ev → dispatch ev st = Some st' →
  prepared st → Forall (λ line, line = ("WebSocket error:", None)) (console st) →
  prepared st' ∧ Forall (λ line, line = ("WebSocket error:", None)) (console st').
Proof.
  intros Hexp Hev Hst Hlog.
  destruct ev as [i|i|i|i raw|k|d]; simpl in Hev.
  - destruct (sockets st !! i) as [s|]; simpl in Hev; [|done].
    destruct (ready s); try done. injection Hev as <-.
    set (st1 := set_socket _ _ st).
    destruct (prepared_only _ _ _ (only_updateConnectionStatus true st1)) as [? Hc];
      [done|]. unfold run, onopen. by rewrite Hc.
  - destruct (sockets st !! i) as [s|]; simpl in Hev; [|done].
    assert (st' = run onclose
                    (set_socket i (Socket (url s) CLOSED (created s) (Some (now st))) st))
      as -> by (destruct (ready s); congruence).
    set (st1 := set_socket _ _ st).
    destruct (prepared_only _ _ _ (only_updateConnectionStatus false st1)) as [? Hc];
      [done|].
    unfold run, onclose. rewrite seq_Ok by apply updateConnectionStatus_Ok.
    split; [done|]. simpl. by rewrite Hc.
  - destruct (sockets st !! i) as [s|]; simpl in Hev; [|done].
    assert (st' = run onerror st) as -> by (destruct (ready s); congruence).
    split; [done|]. simpl. apply Forall_app. split; [done|]. by apply Forall_singleton.
  - destruct (sockets st !! i) as [s|]; simpl in Hev; [|done].
    assert (st' = run (onmessage raw) st) as -> by (destruct (ready s); congruence).
    destruct Hexp as (data & Hraw & Hdata).
    destruct (onmessage_expected raw data st) as [? Hc]; [done..|]. by rewrite Hc.
  - destruct (timers st !! k) as [due|]; simpl in Hev; [|done].
    case_bool_decide; [|done]. by injection Hev as <-.
  - case_bool_decide; [|done]. by injection Hev as <-.
Qed.

(** X5.  As long as every message decodes to a frame whose fields are
    of the kinds the reducer asks for ([frame_fields]: a number where it
    calls [toFixed], an array where it maps, nothing that cannot be
    printed), no reduction raises: after every such sequence of events the
    monitor is prepared, the console holds nothing but the reports of
    socket errors, and the next such frame is reduced to the end without a
    line being logged. *)
Theorem expected_frames_are_taken doc loc t evs st :
  Forall expected evs → play evs (constructor doc loc t) = Some st →
  prepared st
  ∧ (∀ line, line ∈ console st → line = ("WebSocket error:", None))
  ∧ ∀ data, frame_fields data = true →
      ∃ st', updateDashboard data st = (Ok (), st') ∧ prepared st'
             ∧ console st' = console st.
Proof.
  intros Hevs Hplay.
  assert (prepared st ∧ Forall (λ line, line = ("WebSocket error:", None)) (console st))
    as [Hst Hlog].
  { revert Hplay.
    assert (Forall (λ line, line = ("WebSocket error:", None))
              (console (constructor doc loc t))) as Hlog0
      by (by rewrite (constructor_keeps console)).
    generalize (prepared_constructor doc loc t) Hlog0.
    generalize (constructor doc loc t). clear Hlog0.
    induction Hevs as [|ev evs Hev _ IH]; intros st0 Hst0 Hlog0; simpl.
    - by intros [= <-].
    - destruct (dispatch ev st0) as [st1|] eqn:Hd; simpl; [|done].
      destruct (dispatch_expected ev st0 st1) as [??]; [done..|]. by apply IH. }
  split; [done|]. split; [by apply Forall_forall|].
  intros data Hdata.
  destruct (completes_updateDashboard data Hdata st Hst) as ([] & st' & ? & ? & ?).
  by exists st'.
Qed.

(** *** Gauges, bars and their clamp *)

(** [Math.min(q, b)] is [b] as soon as [q >= b], for a [b] other than
    zero. *)
Lemma min_saturates q s m e :
  Number.geb q (S754_finite s m e) = true →
  Number.min q (S754_finite s m e) = S754_finite s m e.
Proof.
  unfold Number.geb, Number.min, Number.gtb. intros H.
  destruct (SFcompare q (S754_finite s m e)) as [[| |]|] eqn:Hc; try done.
  - destruct q as [| | |s' m' e']; simpl in Hc; try done.
    + by destruct s.
    + by destruct s0.
    + destruct s', s; try done.
      * destruct (Z.compare_spec e' e) as [->| |]; try done.
        rewrite Pos.compare_cont_spec in Hc. simpl in Hc.
        destruct (Pos.compare_spec m' m) as [->| |]; done.
      * destruct (Z.compare_spec e' e) as [->| |]; try done.
        rewrite Pos.compare_cont_spec in Hc. simpl in Hc.
        destruct (Pos.compare_spec m' m) as [->| |]; done.
  - by destruct q.
Qed.

Lemma set_style_eval el prop s st :
  set_style el prop s st =
    (Ok (), set_document (alter (with_style prop s) el (document st)) st).
Proof. reflexivity. Qed.

Lemma updateMiniGauge_eval g f gauge st :
  document st !! g = Some gauge → is_Some (document st !! (g +:+ " .gauge-fill")) →
  updateMiniGauge g (VNum f) st =
    (Ok (),
     let circumference :=
       Number.mul (Number.mul (Number.of_Z 2) Number.PI)
         (Number.of_Z (if bool_decide ("large-gauge" ∈ classList gauge) then 42 else 20)) in
     let percentage := Number.min (Number.div f (Number.of_Z 100)) (Number.of_Z 1) in
     set_document
       (alter (with_style "strokeDashoffset"
                 (Number.to_string
                    (Number.mul circumference (Number.sub (Number.of_Z 1) percentage))))
          (g +:+ " .gauge-fill")
          (alter (with_style "strokeDasharray" (Number.to_string circumference))
             (g +:+ " .gauge-fill") (document st))) st).
Proof.
  intros Hg Hfill.
  unfold updateMiniGauge, querySelector, getElementById, read, mbind at 1, M_bind at 1.
  rewrite decide_True by (by rewrite Hg). cbv beta iota.
  unfold mbind at 1, M_bind at 1. rewrite decide_True by done. cbv beta iota.
  unfold div_by, to_number. cbn [mbind result_bind].
  unfold mbind at 1, M_bind at 1, lift. cbv beta iota.
  unfold mbind at 1, M_bind at 1. cbv beta iota. rewrite Hg. cbn [from_option].
  unfold mbind at 1, M_bind at 1. rewrite !set_style_eval. reflexivity.
Qed.

(** X6.  updateMiniGauge on a gauge that has its fill, for a value that
    is 0 or more: the dash array is the circumference
    [2 * Math.PI * radius] of the circle, of radius 42 for a [large-gauge]
    and 20 otherwise, and the dash offset is
    [circumference * (1 - Math.min(value / 100, 1))], the part of the
    circle that stays empty; nothing else of the fill changes.  The
    circumference prints as "263.89378290154264" or "125.66370614359172";
    when [value / 100] is 1 or more the offset is "0" (the gauge is full
    and goes no further), and at the value 0 it is the whole
    circumference. *)
Theorem gauge_fills_and_saturates g f gauge fill st :
  document st !! g = Some gauge →
  document st !! (g +:+ " .gauge-fill") = Some fill →
  Number.geb f (Number.of_Z 0) = true →
  let large := bool_decide ("large-gauge" ∈ classList gauge) in
  let circumference :=
    Number.mul (Number.mul (Number.of_Z 2) Number.PI)
      (Number.of_Z (if large then 42 else 20)) in
  let percentage := Number.min (Number.div f (Number.of_Z 100)) (Number.of_Z 1) in
  let offset := Number.mul circumference (Number.sub (Number.of_Z 1) percentage) in
  updateMiniGauge g (VNum f) st =
    (Ok (),
     set_document
       (<[g +:+ " .gauge-fill" :=
            with_style "strokeDashoffset" (Number.to_string offset)
              (with_style "strokeDasharray" (Number.to_string circumference) fill)]>
          (document st)) st)
  ∧ Number.to_string circumference =
      (if large then "263.89378290154264" else "125.66370614359172")
  ∧ (Number.geb (Number.div f (Number.of_Z 100)) (Number.of_Z 1) = true →
     Number.to_string offset = "0")
  ∧ (f = Number.of_Z 0 → offset = circumference).
Proof.
  intros Hg Hfill _ large circumference percentage offset. split_and!.
  - rewrite (updateMiniGauge_eval g f gauge) by done. cbv zeta. do 2 f_equal.
    apply map_eq. intros k.
    destruct (decide (k = g +:+ " .gauge-fill")) as [->|Hk].
    + by rewrite !lookup_alter_eq, lookup_insert_eq, Hfill.
    + by rewrite !lookup_alter_ne, lookup_insert_ne.
  - unfold circumference. by destruct large.
  - intros Hq. unfold offset, percentage, circumference.
    change (Number.of_Z 1) with (S754_finite false 4503599627370496 (-52)) in *.
    rewrite (min_saturates _ _ _ _ Hq). by destruct large.
  - intros ->. unfold offset, percentage, circumference. by destruct large.
Qed.

(** *** Integers as Numbers *)

Section integers.
Local Open Scope Z_scope.

Lemma digits2_pos_bounds p :
  2 ^ (Z.pos (digits2_pos p) - 1) ≤ Z.pos p < 2 ^ Z.pos (digits2_pos p).
Proof.
  induction p as [p IH|p IH|]; simpl digits2_pos; [| |simpl; lia].
  - rewrite Pos2Z.inj_succ. replace (Z.succ (Z.pos (digits2_pos p)) - 1) with (Z.succ (Z.pos (digits2_pos p) - 1)) by lia.
    rewrite !Z.pow_succ_r by lia. lia.
  - rewrite Pos2Z.inj_succ. replace (Z.succ (Z.pos (digits2_pos p)) - 1) with (Z.succ (Z.pos (digits2_pos p) - 1)) by lia.
    rewrite !Z.pow_succ_r by lia. lia.
Qed.

Lemma iter_xO_spec p k : Z.pos (Pos.iter xO p k) = Z.pos p * 2 ^ Z.pos k.
Proof.
  induction k as [|k IH] using Pos.peano_ind.
  - simpl. lia.
  - rewrite Pos.iter_succ, Pos2Z.inj_succ, Z.pow_succ_r by lia.
    rewrite Pos2Z.inj_xO, IH. lia.
Qed.

Lemma digits2_pos_iter_xO p k :
  digits2_pos (Pos.iter xO p k) = (digits2_pos p + k)%positive.
Proof.
  induction k as [|k IH] using Pos.peano_ind.
  - simpl. lia.
  - rewrite Pos.iter_succ. simpl. rewrite IH. lia.
Qed.

(** Rounding leaves a mantissa of 53 bits as it is. *)
Lemma binary_round_aux_exact s m e :
  Z.pos (digits2_pos m) = 53 → -1074 ≤ e ≤ 971 →
  binary_round_aux Number.prec Number.emax s (Z.pos m) e loc_Exact = S754_finite s m e.
Proof.
  intros Hm He.
  assert (fexp Number.prec Number.emax (Zdigits2 (Z.pos m) + e) - e = 0) as Hshift.
  { unfold fexp, emin, Zdigits2, Number.prec, Number.emax. lia. }
  unfold binary_round_aux, shr_fexp. rewrite Hshift. simpl shr. cbv iota beta.
  simpl shr_m. simpl loc_of_shr_record. simpl round_nearest_even.
  rewrite Hshift. simpl shr. cbv iota beta. simpl shr_m.
  destruct (Z.leb_spec e (Number.emax - Number.prec)) as [|Hn]; [done|].
  unfold Number.emax, Number.prec in Hn. lia.
Qed.

(** A positive integer below 2^53 is a Number, exactly. *)
Lemma of_Z_pos p :
  Z.pos p < 2 ^ 53 →
  Number.of_Z (Z.pos p) =
    match 53 - Z.pos (digits2_pos p) with
    | Z.pos k => S754_finite false (Pos.iter xO p k) (- Z.pos k)
    | _ => S754_finite false p 0
    end.
Proof.
  intros Hp. pose proof (digits2_pos_bounds p) as [Hlo Hhi].
  assert (Z.pos (digits2_pos p) ≤ 53) as Hd.
  { destruct (decide (Z.pos (digits2_pos p) ≤ 53)) as [|Hn]; [done|].
    assert (2 ^ 53 ≤ 2 ^ (Z.pos (digits2_pos p) - 1)) by (apply Z.pow_le_mono_r; lia). lia. }
  unfold Number.of_Z, binary_normalize, binary_round.
  assert (fexp Number.prec Number.emax (Z.pos (digits2_pos p) + 0) = Z.pos (digits2_pos p) - 53) as ->.
  { unfold fexp, emin, Number.prec, Number.emax. lia. }
  unfold shl_align. rewrite Z.sub_0_r.
  destruct (53 - Z.pos (digits2_pos p)) as [|k|k] eqn:Hk; [|idtac|lia].
  - replace (Z.pos (digits2_pos p) - 53) with 0 by lia.
    apply binary_round_aux_exact; lia.
  - replace (Z.pos (digits2_pos p) - 53) with (Z.neg k) by lia.
    apply binary_round_aux_exact; [|lia].
    rewrite digits2_pos_iter_xO. lia.
Qed.

(** Comparison of Numbers is comparison of the integers. *)
Lemma SFcompare_of_Z (a b : Z) :
  0 ≤ a < 2 ^ 53 → 0 ≤ b < 2 ^ 53 →
  SFcompare (Number.of_Z a) (Number.of_Z b) = Some (a ?= b).
Proof.
  intros Ha Hb.
  destruct a as [|p|p], b as [|q|q]; try lia; try done.
  - rewrite of_Z_pos by lia. unfold Number.of_Z. simpl binary_normalize.
    by destruct (53 - _).
  - rewrite of_Z_pos by lia. unfold Number.of_Z. simpl binary_normalize.
    by destruct (53 - _).
  - rewrite !of_Z_pos by lia.
    pose proof (digits2_pos_bounds p) as [Hplo Hphi].
    pose proof (digits2_pos_bounds q) as [Hqlo Hqhi].
    assert (∀ x y : Z, x < y → 2 ^ x ≤ 2 ^ (y - 1)) as Hmono
      by (intros; apply Z.pow_le_mono_r; lia).
    assert (Z.pos (digits2_pos p) < Z.pos (digits2_pos q) → Z.pos p < Z.pos q) as Hlt.
    { intros H%Hmono. lia. }
    assert (Z.pos (digits2_pos q) < Z.pos (digits2_pos p) → Z.pos q < Z.pos p) as Hgt.
    { intros H%Hmono. lia. }
    assert (∀ x : positive, Z.pos x < 2 ^ 53 → Z.pos (digits2_pos x) ≤ 53) as Hd.
    { intros x Hx. pose proof (digits2_pos_bounds x) as [Hxlo _].
      destruct (decide (Z.pos (digits2_pos x) ≤ 53)) as [|Hn]; [done|].
      assert (2 ^ 53 ≤ 2 ^ (Z.pos (digits2_pos x) - 1)) by (apply Z.pow_le_mono_r; lia). lia. }
    pose proof (Hd p ltac:(lia)). pose proof (Hd q ltac:(lia)).
    destruct (53 - Z.pos (digits2_pos p)) as [|k|k] eqn:Hk,
             (53 - Z.pos (digits2_pos q)) as [|l|l] eqn:Hl; try lia;
      unfold SFcompare; f_equal.
    + assert (Z.pos q < Z.pos p) by (apply Hgt; lia).
      replace (0 ?= - Z.pos l) with Gt by done. symmetry. by apply Z.compare_gt_iff.
    + assert (Z.pos p < Z.pos q) by (apply Hlt; lia).
      replace (- Z.pos k ?= 0) with Lt by done. symmetry. by apply Z.compare_lt_iff.
    + destruct (Z.compare_spec (- Z.pos k) (- Z.pos l)) as [Heq|Hlt'|Hgt'].
      * assert (k = l) as -> by lia. rewrite Pos.compare_cont_spec. simpl.
        change (Pos.iter xO p l ?= Pos.iter xO q l)%positive
          with (Z.pos (Pos.iter xO p l) ?= Z.pos (Pos.iter xO q l)).
        rewrite !iter_xO_spec.
        assert (0 < 2 ^ Z.pos l) by lia.
        change (p ?= q)%positive with (Z.pos p ?= Z.pos q).
        destruct (Z.compare_spec (Z.pos p) (Z.pos q)) as [E|L|G].
        -- injection E as ->. by rewrite Z.compare_refl.
        -- assert (Z.pos p * 2 ^ Z.pos l < Z.pos q * 2 ^ Z.pos l) as Hc by nia.
           apply Z.compare_lt_iff in Hc as ->. done.
        -- assert (Z.pos q * 2 ^ Z.pos l < Z.pos p * 2 ^ Z.pos l) as Hc by nia.
           apply Z.compare_gt_iff in Hc as ->. done.
      * assert (Z.pos p < Z.pos q) by (apply Hlt; lia).
        symmetry. by apply Z.compare_lt_iff.
      * assert (Z.pos q < Z.pos p) by (apply Hgt; lia).
        symmetry. by apply Z.compare_gt_iff.
Qed.

End integers.

(** *** The core bars *)

Lemma of_nat_truthy n :
  (0 < Z.of_nat n < 2 ^ 53)%Z → Number.truthy (Number.of_nat n) = true.
Proof.
  intros Hn. unfold Number.of_nat. destruct (Z.of_nat n) as [|p|p] eqn:Hp; try lia.
  rewrite of_Z_pos by lia. by destruct (53 - _)%Z.
Qed.

Lemma of_nat_eqb n m :
  (Z.of_nat n < 2 ^ 53)%Z → (Z.of_nat m < 2 ^ 53)%Z →
  Number.eqb (Number.of_nat n) (Number.of_nat m) = bool_decide (n = m).
Proof.
  intros Hn Hm. unfold Number.eqb, SFeqb, Number.of_nat.
  rewrite SFcompare_of_Z by lia.
  destruct (Z.compare_spec (Z.of_nat n) (Z.of_nat m));
    [rewrite bool_decide_true | rewrite bool_decide_false..]; lia || done.
Qed.


Lemma core_bar_id_inj i j : core_bar_id i = core_bar_id j → i = j.
Proof. unfold core_bar_id. intros H. simpl in H. injection H as H. by apply (inj pretty). Qed.

Lemma core_bar_id_not_container i : core_bar_id i ≠ "cpu-core-bars".
Proof. unfold core_bar_id. simpl. discriminate. Qed.

Lemma alter_missing {A} (f : A → A) (m : gmap string A) k : m !! k = None → alter f k m = m.
Proof.
  intros Hk. apply map_eq. intros j. destruct (decide (j = k)) as [->|].
  - by rewrite lookup_alter_eq, Hk.
  - by rewrite lookup_alter_ne.
Qed.

Lemma paint_bar f i st :
  (bar ← getElementById (core_bar_id i);
   match bar with
   | None => mret ()
   | Some bar =>
       percent ← lift (Math_min (VNum f) 100);
       let pct := Number.to_string percent +:+ "%" in
       set_style bar "--bar-height" pct;;
       set_style bar "background"
         ("linear-gradient(to top, var(--accent-green) " +:+ pct +:+
          ", var(--bg-secondary) " +:+ pct +:+ ")")
   end) st = (Ok (), set_document (alter (bar_at f) (core_bar_id i) (document st)) st).
Proof.
  unfold getElementById, read, mbind at 1, M_bind at 1.
  destruct (decide _) as [Hbar|Hbar]; cbv beta iota.
  - unfold Math_min, to_number. cbn [mbind result_bind].
    unfold mbind at 1, M_bind at 1, lift. cbv beta iota zeta.
    unfold mbind, M_bind. rewrite !set_style_eval.
    unfold set_document. cbn [ws charts maxHistoryLength totalMemoryGB document location
                                console sockets timers now].
    do 2 f_equal. apply map_eq. intros k.
    destruct (decide (k = core_bar_id i)) as [->|].
    + rewrite !lookup_alter_eq. by destruct (document st !! core_bar_id i).
    + by rewrite !lookup_alter_ne.
  - rewrite alter_missing by (by apply eq_None_not_Some). by rewrite set_document_same.
Qed.

Lemma forEach_paint fs i st :
  forEach (λ usage i,
    bar ← getElementById (core_bar_id i);
    match bar with
    | None => mret ()
    | Some bar =>
        percent ← lift (Math_min usage 100);
        let pct := Number.to_string percent +:+ "%" in
        set_style bar "--bar-height" pct;;
        set_style bar "background"
          ("linear-gradient(to top, var(--accent-green) " +:+ pct +:+
           ", var(--bg-secondary) " +:+ pct +:+ ")")
    end) (VNum <$> fs) i st
  = (Ok (), set_document (paint fs i (document st)) st).
Proof.
  revert i st. induction fs as [|f fs IH]; intros i st; simpl.
  - by rewrite set_document_same.
  - erewrite bind_Ok by apply paint_bar. rewrite IH. by destruct st.
Qed.

Lemma paint_other fs i doc k :
  (∀ j, k ≠ core_bar_id j) → paint fs i doc !! k = doc !! k.
Proof.
  intros Hk. revert i doc. induction fs as [|f fs IH]; intros i doc; simpl; [done|].
  by rewrite IH, lookup_alter_ne.
Qed.

Lemma paint_before fs i doc j :
  j < i → paint fs i doc !! core_bar_id j = doc !! core_bar_id j.
Proof.
  revert i doc. induction fs as [|f fs IH]; intros i doc Hj; simpl; [done|].
  rewrite IH by lia. rewrite lookup_alter_ne; [done|].
  intros ->%core_bar_id_inj. lia.
Qed.

Lemma paint_bar_at fs i doc j f :
  fs !! j = Some f →
  paint fs i doc !! core_bar_id (i + j) = bar_at f <$> doc !! core_bar_id (i + j).
Proof.
  revert i doc j. induction fs as [|f' fs IH]; intros i doc j Hj; [done|]. simpl.
  destruct j as [|j]; simpl in Hj.
  - injection Hj as ->. rewrite Nat.add_0_r, paint_before by lia.
    by rewrite lookup_alter_eq.
  - replace (i + S j) with (S i + j) by lia. rewrite (IH _ _ _ Hj).
    rewrite lookup_alter_ne; [done|]. intros ?%core_bar_id_inj. lia.
Qed.

Lemma paint_beyond fs i doc j :
  i + length fs ≤ j → paint fs i doc !! core_bar_id j = doc !! core_bar_id j.
Proof.
  revert i doc. induction fs as [|f fs IH]; intros i doc Hj; simpl in *; [done|].
  rewrite IH by lia. rewrite lookup_alter_ne; [done|]. intros ?%core_bar_id_inj. lia.
Qed.

Lemma lookup_new_bar (l : list nat) e (d : gmap string element) i :
  i ∈ l → foldr (λ i d, <[core_bar_id i := e]> d) d l !! core_bar_id i = Some e.
Proof.
  induction l as [|j l IH]; simpl; [by intros ?%elem_of_nil|].
  destruct (decide (i = j)) as [->|Hne]; [by rewrite lookup_insert_eq|].
  intros [->|Hi]%elem_of_cons; [done|].
  rewrite lookup_insert_ne; [by apply IH|]. by intros ?%core_bar_id_inj.
Qed.

Lemma lookup_new_bars_other (l : list nat) e (d : gmap string element) k :
  (∀ i, i ∈ l → k ≠ core_bar_id i) →
  foldr (λ i d, <[core_bar_id i := e]> d) d l !! k = d !! k.
Proof.
  induction l as [|j l IH]; simpl; [done|]. intros Hk.
  rewrite lookup_insert_ne.
  - apply IH. intros i Hi. apply Hk. by right.
  - intros <-. by apply (Hk j); [left|].
Qed.

Lemma lookup_old_bar (old : list markup) (d : gmap string element) j :
  CoreBar j ∈ old →
  foldr (λ h d, if h is CoreBar j then delete (core_bar_id j) d else d) d old
    !! core_bar_id j = None.
Proof.
  induction old as [|h old IH]; simpl; [by intros ?%elem_of_nil|].
  intros [<-|Hj]%elem_of_cons; [by rewrite lookup_delete_eq|].
  destruct h as [i| | | |]; try by apply IH.
  destruct (decide (core_bar_id j = core_bar_id i)) as [->|Hne].
  - by rewrite lookup_delete_eq.
  - rewrite lookup_delete_ne by done. by apply IH.
Qed.

Lemma lookup_old_bars_other (old : list markup) (d : gmap string element) k :
  (∀ j, CoreBar j ∈ old → k ≠ core_bar_id j) →
  foldr (λ h d, if h is CoreBar j then delete (core_bar_id j) d else d) d old !! k
  = d !! k.
Proof.
  induction old as [|h old IH]; simpl; [done|]. intros Hk.
  assert (∀ j, CoreBar j ∈ old → k ≠ core_bar_id j) by (intros j Hj; apply Hk; by right).
  destruct h as [i| | | |]; try by apply IH.
  rewrite lookup_delete_ne; [by apply IH|]. intros <-. by apply (Hk i); [left|].
Qed.

Lemma rebuild_core_bars_eval container n st :
  rebuild_core_bars container n st =
    (Ok (), set_document (rebuilt container n (document st)) st).
Proof. reflexivity. Qed.

Lemma updateCoreBars_bars fs container st :
  document st !! "cpu-core-bars" = Some container →
  fs ≠ [] → (Z.of_nat (length fs) < 2 ^ 53)%Z →
  (Z.of_nat (length (innerHTML container)) < 2 ^ 53)%Z →
  updateCoreBars (VArr (VNum <$> fs)) st =
    (Ok (),
     set_document
       (paint fs 0
          (if decide (length (innerHTML container) = length fs) then document st
           else rebuilt "cpu-core-bars" (length fs) (document st))) st).
Proof.
  intros Hc Hfs Hn Hch.
  assert (0 < length fs) by (destruct fs; [done | simpl; lia]).
  unfold updateCoreBars, getElementById, read. unfold mbind at 1, M_bind at 1.
  rewrite decide_True by (by rewrite Hc). cbv beta iota.
  cbn [get]. rewrite String.eqb_refl, length_fmap.
  unfold mbind at 1, M_bind at 1, lift. cbv beta iota.
  cbn [truthy]. rewrite of_nat_truthy by lia. cbn [negb].
  unfold mbind at 1, M_bind at 1. cbv beta iota. rewrite Hc. cbn [from_option].
  cbn [strict_eq_num]. rewrite of_nat_eqb by lia.
  unfold array_of.
  destruct (decide (length (innerHTML container) = length fs)) as [Heq|Hne].
  - rewrite bool_decide_true by done. cbn [negb].
    unfold mbind at 1, M_bind at 1. cbv beta iota.
    unfold mbind at 1, M_bind at 1, lift. cbv beta iota.
    apply forEach_paint.
  - rewrite bool_decide_false by done. cbn [negb].
    unfold mbind at 1, M_bind at 1.
    unfold mbind at 1, M_bind at 1, lift. cbv beta iota.
    rewrite length_fmap, rebuild_core_bars_eval.
    unfold mbind at 1, M_bind at 1, lift. cbv beta iota.
    rewrite forEach_paint. by destruct st.
Qed.

(** X7.  updateCoreBars with the usages [fs] of one or more cores, on a
    page that has the container.  If the container has as many children as
    there are cores it is left as it is and every bar that exists is set to
    its core's usage; if not, its children are replaced by one new bar per
    core, each set to its core's usage, and the bars of cores that are gone
    are removed.  A bar shows [Math.min(usage, 100)] percent.  No element
    other than the container and the bars changes. *)
Theorem core_bars_follow_per_core fs container st :
  document st !! "cpu-core-bars" = Some container →
  fs ≠ [] → (Z.of_nat (length fs) < 2 ^ 53)%Z →
  (Z.of_nat (length (innerHTML container)) < 2 ^ 53)%Z →
  ∃ st',
    updateCoreBars (VArr (VNum <$> fs)) st = (Ok (), st')
    ∧ (∀ k, k ≠ "cpu-core-bars" → (∀ j, k ≠ core_bar_id j) →
         document st' !! k = document st !! k)
    ∧ if decide (length (innerHTML container) = length fs)
      then document st' !! "cpu-core-bars" = Some container
           ∧ ∀ i f, fs !! i = Some f →
               document st' !! core_bar_id i = bar_at f <$> document st !! core_bar_id i
      else html_of st' "cpu-core-bars" = Some (CoreBar <$> seq 0 (length fs))
           ∧ (∀ i f, fs !! i = Some f →
                document st' !! core_bar_id i = Some (bar_at f (Element "" [] ∅ ∅)))
           ∧ (∀ j, length fs ≤ j → CoreBar j ∈ innerHTML container →
                document st' !! core_bar_id j = None).
Proof.
  intros Hc Hfs Hn Hch. eexists. split; [by apply updateCoreBars_bars|].
  assert (∀ j, "cpu-core-bars" ≠ core_bar_id j) as Hcontainer
    by (intros j Hj; by apply (core_bar_id_not_container j)).
  cbn [document set_document].
  destruct (decide (length (innerHTML container) = length fs)) as [Heq|Hne].
  - split_and!.
    + intros k _ Hk. by apply paint_other.
    + by rewrite paint_other.
    + intros i f Hi. by apply (paint_bar_at fs 0).
  - unfold rebuilt. rewrite Hc. cbn [from_option]. split_and!.
    + intros k Hk Hbar. rewrite paint_other, lookup_alter_ne by done.
      rewrite lookup_new_bars_other, lookup_old_bars_other; done.
    + unfold html_of. cbn [document set_document].
      rewrite paint_other, lookup_alter_eq by done.
      rewrite lookup_new_bars_other, lookup_old_bars_other, Hc; done.
    + intros i f Hi. rewrite (paint_bar_at fs 0 _ i f Hi). simpl.
      rewrite lookup_alter_ne by (intros ?; by eapply core_bar_id_not_container).
      rewrite lookup_new_bar; [done|]. apply elem_of_seq.
      apply lookup_lt_Some in Hi. lia.
    + intros j Hj Hold. rewrite paint_beyond by (simpl; lia).
      rewrite lookup_alter_ne by (intros ?; by eapply core_bar_id_not_container).
      rewrite lookup_new_bars_other; [by apply lookup_old_bar|].
      intros i Hi%elem_of_seq ?%core_bar_id_inj. lia.
Qed.

(** *** Drives *)





(** *** Fans *)

Lemma fan_item_entry fan : fan_item (fan_entry fan) = Ok (fan_row fan).
Proof. destruct fan as [[name [p|]] [r|]]; reflexivity. Qed.

Lemma mapM_fmap_Ok {A B C} (f : B → result C) (g : A → B) (h : A → C) l :
  (∀ x, f (g x) = Ok (h x)) → mapM f (g <$> l) = Ok (h <$> l).
Proof.
  intros H. induction l as [|x l IH]; [done|].
  rewrite !fmap_cons. simpl. rewrite H. simpl. by rewrite IH.
Qed.

Lemma updateFansList_eval fanData fans st :
  is_Some (document st !! "fans-list") →
  get fanData "fans" = Ok (VArr fans) → (Z.of_nat (length fans) < 2 ^ 53)%Z →
  updateFansList fanData st =
    if decide (fans = []) then set_innerHTML "fans-list" [NoFans] st
    else (items ← lift (mapM fan_item fans); set_innerHTML "fans-list" items) st.
Proof.
  intros Hc Hfans Hn.
  unfold updateFansList, getElementById, read. unfold mbind at 1, M_bind at 1.
  rewrite decide_True by done. cbv beta iota. rewrite Hfans.
  unfold mbind at 1, M_bind at 1, lift. cbv beta iota zeta.
  change (or_else (VArr fans) (VArr [])) with (VArr fans).
  cbn [get]. rewrite String.eqb_refl.
  unfold mbind at 1, M_bind at 1. cbv beta iota.
  cbn [strict_eq_num]. change (Number.of_Z 0) with (Number.of_nat 0).
  rewrite of_nat_eqb by (done || lia).
  destruct (decide (fans = [])) as [->|Hne].
  - by rewrite bool_decide_true.
  - rewrite bool_decide_false by (by destruct fans). reflexivity.
Qed.

(** X9.  updateFansList on a page that has the list: fans that each
    have a name, and a percentage and a speed that are numbers or null,
    give one row per fan, in the order of the frame ([fan_row]: the
    percentage and the speed when both are there, the one that is there
    otherwise, "--" when none is; the bar as wide as the percentage, 0
    without one); an empty or missing list of fans gives the one
    placeholder row. *)
Theorem fans_list_rows fanData fans st :
  is_Some (document st !! "fans-list") → (Z.of_nat (length fans) < 2 ^ 53)%Z →
  (get fanData "fans" = Ok (VArr (fan_entry <$> fans)) →
   updateFansList fanData st =
     (Ok (), set_document
        (alter (set_html (if fans is [] then [NoFans] else fan_row <$> fans)) "fans-list"
           (document st)) st))
  ∧ (∀ f, get fanData "fans" = Ok f → truthy f = false →
       updateFansList fanData st =
         (Ok (), set_document (alter (set_html [NoFans]) "fans-list" (document st)) st)).
Proof.
  intros Hc Hn. split.
  - intros Hfans. rewrite (updateFansList_eval fanData (fan_entry <$> fans)); try done.
    + destruct fans as [|fan fans]; [done|].
      rewrite decide_False by done.
      unfold mbind, M_bind, lift.
      by rewrite (mapM_fmap_Ok fan_item fan_entry fan_row) by apply fan_item_entry.
    + by rewrite length_fmap.
  - intros f Hf Hfalsy.
    unfold updateFansList, getElementById, read. unfold mbind at 1, M_bind at 1.
    rewrite decide_True by done. cbv beta iota. rewrite Hf.
    unfold mbind at 1, M_bind at 1, lift. cbv beta iota zeta.
    unfold or_else. rewrite Hfalsy. reflexivity.
Qed.

(** *** Parts that are skipped *)

Lemma branch_unavailable c data v st :
  c = Gpu ∨ c = System → get data (key c) = Ok v →
  truthy (field v "available") = false → branch c data st = (Ok (), st).
Proof.
  intros Hc Hget Hav. destruct (truthy v) eqn:Hv; [|by eapply branch_absent].
  pose proof (get_field v "available" (truthy_not_nullish v Hv)) as Hfield.
  destruct Hc as [-> | ->]; simpl in *.
  - unfold dashboard_gpu, mbind, M_bind, lift. rewrite Hget, Hv, Hfield. by rewrite Hav.
  - unfold dashboard_system, mbind, M_bind, lift. rewrite Hget, Hv.
    unfold updateSystemInfo, mbind, M_bind, lift. rewrite Hfield. by rewrite Hav.
Qed.


(** X11.  A frame none of whose categories is there (or, for the GPU and
    the system, available) is reduced without raising and changes nothing
    at all.  The frame [null] (or a missing one) is no such frame: reading
    its first category raises, nothing is changed, and the message handler
    logs it as a message that failed to parse. *)
Theorem frames_without_content data st :
  (is_nullish data = false →
   (∀ c, truthy (field data (key c)) = false
         ∨ ((c = Gpu ∨ c = System)
            ∧ truthy (field (field data (key c)) "available") = false)) →
   updateDashboard data st = (Ok (), st))
  ∧ (is_nullish data = true →
     ∃ e, updateDashboard data st = (Throw e, st)
          ∧ ∀ raw, JSON_parse raw = Some data →
              onmessage raw st =
                (Ok (), set_console (console st ++ [("Failed to parse message:", Some e)])
                          st)).
Proof.
  split.
  - intros Hdata Hall.
    assert (∀ c, branch c data st = (Ok (), st)) as Hb.
    { intros c. pose proof (get_field data (key c) Hdata) as Hget.
      destruct (Hall c) as [Hfalsy|[Hc Hav]].
      - by eapply branch_absent.
      - by eapply branch_unavailable. }
    rewrite updateDashboard_branches.
    repeat (erewrite bind_Ok by apply Hb). apply Hb.
  - intros Hdata.
    assert (∃ e, get data "cpu" = Throw e) as [e He] by (destruct data; by eauto).
    assert (updateDashboard data st = (Throw e, st)) as Hrun.
    { unfold updateDashboard, dashboard_cpu, mbind, M_bind, lift. by rewrite He. }
    exists e. split; [done|]. intros raw Hraw.
    unfold onmessage, try_catch. unfold mbind at 1, M_bind at 1, lift.
    by rewrite Hraw, Hrun.
Qed.

(** *** The memory total and the process list *)

Lemma keeps_total D C {A} (m : M A) :
  respects (only D C false) m → keeps totalMemoryGB m.
Proof. intros Hm st. destruct (Hm st) as (_ & _ & Ht & _). by apply Ht. Qed.

Lemma branch_keeps_total b data : b ≠ Memory → keeps totalMemoryGB (branch b data).
Proof.
  intros Hb.
  destruct b; try done;
    lazymatch goal with
    | |- keeps _ (branch ?c _) =>
        apply (keeps_total (targets c) (series c)); exact (branch_footprint c data)
    end.
Qed.

Lemma memory_sets_total data memory total st st' :
  get data "memory" = Ok memory → truthy memory = true →
  get memory "total" = Ok total →
  dashboard_memory data st = (Ok (), st') →
  totalMemoryGB st' = or_else total (num 0).
Proof.
  intros Hmem Htruthy Htotal. unfold dashboard_memory.
  intros (m & s1 & [Hm ->]%lift_Ok_inv & Hrun)%bind_Ok_inv.
  rewrite Hmem in Hm. injection Hm as <-. rewrite Htruthy in Hrun.
  apply bind_Ok_inv in Hrun as (percent & s1 & [_ ->]%lift_Ok_inv & Hrun).
  apply bind_Ok_inv in Hrun as (t & s1 & [Ht ->]%lift_Ok_inv & Hrun).
  rewrite Htotal in Ht. injection Ht as <-.
  apply bind_Ok_inv in Hrun as ([] & s1 & [= <-] & Hrun).
  match type of Hrun with ?m _ = _ =>
    assert (keeps totalMemoryGB m) as Hkeep
      by (apply (keeps_total (targets Memory) (series Memory)); footprint_all)
  end.
  specialize (Hkeep (set_totalMemoryGB (or_else total (num 0)) st)).
  by rewrite Hrun in Hkeep.
Qed.

(** X12.  A frame that carries both a memory category and a list of
    processes, once reduced to the end, shows the memory of each process
    against the total of that same frame, not the one the monitor had
    before: [totalMemoryGB] is [memory.total || 0], and the rows of the
    process list are those [process_item] gives with that total for the
    first 8 processes other than the idle one. *)
Theorem process_memory_uses_frame_total data memory total processes st st' :
  get data "memory" = Ok memory → truthy memory = true →
  get memory "total" = Ok total →
  get data "processes" = Ok (VArr processes) →
  is_Some (document st !! "process-list") →
  updateDashboard data st = (Ok (), st') →
  totalMemoryGB st' = or_else total (num 0)
  ∧ ∃ items,
      html_of st' "process-list" = Some items
      ∧ Forall2 (λ p item, process_item (or_else total (num 0)) p = Ok item)
          (displayed_spec processes) items.
Proof.
  intros Hmem Htruthy Htotal Hproc Hlist. rewrite updateDashboard_branches.
  intros ([] & s1 & H1 & Hrun)%bind_Ok_inv.
  apply bind_Ok_inv in Hrun as ([] & s2 & H2 & Hrun).
  apply bind_Ok_inv in Hrun as ([] & s3 & H3 & Hrun).
  apply bind_Ok_inv in Hrun as ([] & s4 & H4 & Hrun).
  apply bind_Ok_inv in Hrun as ([] & s5 & H5 & Hrun).
  apply bind_Ok_inv in Hrun as ([] & s6 & H6 & Hrun).
  apply bind_Ok_inv in Hrun as ([] & s7 & H7 & Hrun).
  apply bind_Ok_inv in Hrun as ([] & s8 & H8 & H9).
  assert (∀ b s s', b ≠ Memory → branch b data s = (Ok (), s') →
            totalMemoryGB s' = totalMemoryGB s) as Htot.
  { intros b s s' Hb Hs. pose proof (branch_keeps_total b data Hb s) as Hk.
    by rewrite Hs in Hk. }
  assert (∀ b s s', b ≠ Processes → branch b data s = (Ok (), s') →
            document s' !! "process-list" = document s !! "process-list") as Hel.
  { intros b s s' Hb Hs.
    pose proof (branch_keeps_element b Processes "process-list" data eq_refl Hb s) as Hk.
    by rewrite Hs in Hk. }
  assert (totalMemoryGB s7 = or_else total (num 0)) as Ht7.
  { rewrite (Htot Fans s6 s7), (Htot Disk s5 s6), (Htot Ping s4 s5),
      (Htot Network s3 s4) by done.
    by eapply memory_sets_total. }
  assert (is_Some (document s7 !! "process-list")) as Hl7.
  { by rewrite (Hel Fans s6 s7), (Hel Disk s5 s6), (Hel Ping s4 s5), (Hel Network s3 s4),
      (Hel Memory s2 s3), (Hel Gpu s1 s2), (Hel Cpu st s1). }
  simpl in H8. unfold dashboard_processes in H8.
  apply bind_Ok_inv in H8 as (p & s & [Hp ->]%lift_Ok_inv & H8).
  rewrite Hproc in Hp. injection Hp as <-. simpl in H8.
  destruct (process_list_when_complete processes s7 s8 Hl7 H8) as (items & Hhtml & Hall).
  split.
  - rewrite (Htot System s8 st'), <-Ht7 by done.
    pose proof (only_updateProcessList (targets Processes) (series Processes) false
                  (VArr processes) eq_refl s7) as (_ & _ & Hk & _).
    rewrite H8 in Hk. by apply Hk.
  - exists items. split; [|by rewrite <-Ht7].
    unfold html_of in *. by rewrite (Hel System s8 st').
Qed.

(** *** Rates: what is shown and what is charted *)

Lemma changes_updateDualChart id G v1 v2 :
  G (fmap (pushed_pair v1 v2)) → changes (chart_at id) G (updateDualChart id v1 v2).
Proof.
  intros HG st a st' Hrun. exists (fmap (pushed_pair v1 v2)). split; [done|].
  unfold chart_at. destruct (charts st !! id) as [c|] eqn:Hc.
  - destruct (datasets c !! 0) as [d1|] eqn:Hd1.
    + destruct (datasets c !! 1) as [d2|] eqn:Hd2.
      * erewrite updateDualChart_Some in Hrun by done. injection Hrun as _ <-.
        unfold set_charts. cbn [charts]. rewrite lookup_insert_eq.
        cbn [fmap option_fmap option_map]. unfold pushed_pair. by rewrite Hd1, Hd2.
      * exfalso. revert Hrun.
        unfold updateDualChart, read, mbind, M_bind, data_push, data_shift, with_data.
        rewrite Hc. simpl. rewrite Hc, Hd1. simpl. rewrite lookup_insert_eq. simpl.
        rewrite list_lookup_insert_eq by (by eapply lookup_lt_Some). simpl.
        rewrite lookup_insert_eq. simpl.
        rewrite list_insert_insert_eq, list_lookup_insert_ne, Hd2 by done. done.
    + exfalso. revert Hrun.
      unfold updateDualChart, read, mbind, M_bind, data_push, with_data.
      rewrite Hc. simpl. by rewrite Hc, Hd1.
  - rewrite updateDualChart_None in Hrun by done. injection Hrun as _ <-. by rewrite Hc.
Qed.

Lemma toFixed_number v n s : toFixed v n = Ok s → ∃ f, v = VNum f ∧ s = Number.toFixed f n.
Proof. destruct v; try done. intros [= <-]. by eexists. Qed.

Ltac rates_facts :=
  repeat match goal with
    | H : Ok _ = Ok _ |- _ => injection H as <-
    | H : toFixed _ _ = Ok _ |- _ => apply toFixed_number in H as (? & ? & ->)
    end.

(** The three things a rates part changes; [part] is [dashboard_network] or
    [dashboard_disk] with its category. *)
Ltac rates_changes c :=
  lazymatch goal with
  | |- changes (chart_at _) _ _ =>
      repeat lazymatch goal with
        | |- changes _ _ (lift _ ≫= _) => apply changes_lift_bind; intros ? ?
        | |- changes _ _ (_ ≫= _) =>
            apply changes_bind_keep; [solve [keeps_run c] | intros ?]
        end;
      cbv zeta; rates_facts; by apply changes_updateDualChart
  | |- changes (element_at _) _ _ =>
      changes_run c; rates_facts; eexists; split; [reflexivity|]; by eexists
  end.

Lemma network_shown data network :
  get data "network" = Ok network → truthy network = true →
  changes (element_at "net-down")
    (λ g, ∃ f, or_else (field network "download_rate") (num 0) = VNum f
               ∧ g = fmap (set_text (Number.toFixed f 2 +:+ " MB/s")))
    (dashboard_network data)
  ∧ changes (element_at "net-up")
      (λ g, ∃ f, or_else (field network "upload_rate") (num 0) = VNum f
                 ∧ g = fmap (set_text (Number.toFixed f 2 +:+ " MB/s")))
      (dashboard_network data)
  ∧ changes (chart_at "network-chart")
      (λ g, g = fmap (pushed_pair (or_else (field network "download_rate") (num 0))
                        (or_else (field network "upload_rate") (num 0))))
      (dashboard_network data).
Proof.
  intros Hnet Htruthy.
  pose proof (truthy_not_nullish _ Htruthy) as Hnn.
  unfold dashboard_network. rewrite Hnet.
  split_and!;
    (apply changes_lift_bind; intros ? [= <-]; rewrite Htruthy, !get_field by done;
     rates_changes Network).
Qed.

Lemma disk_shown data disk :
  get data "disk" = Ok disk → truthy disk = true →
  changes (element_at "disk-read")
    (λ g, ∃ f, or_else (field disk "read_rate") (num 0) = VNum f
               ∧ g = fmap (set_text (Number.toFixed f 2 +:+ " MB/s")))
    (dashboard_disk data)
  ∧ changes (element_at "disk-write")
      (λ g, ∃ f, or_else (field disk "write_rate") (num 0) = VNum f
                 ∧ g = fmap (set_text (Number.toFixed f 2 +:+ " MB/s")))
      (dashboard_disk data)
  ∧ changes (chart_at "disk-chart")
      (λ g, g = fmap (pushed_pair (or_else (field disk "read_rate") (num 0))
                        (or_else (field disk "write_rate") (num 0))))
      (dashboard_disk data).
Proof.
  intros Hdisk Htruthy.
  pose proof (truthy_not_nullish _ Htruthy) as Hnn.
  unfold dashboard_disk. rewrite Hdisk.
  split_and!;
    (apply changes_lift_bind; intros ? [= <-]; rewrite Htruthy, !get_field by done;
     rates_changes Disk).
Qed.

Lemma pushed_pair_datasets v1 v2 c d1 d2 :
  datasets c = [d1; d2] → datasets (pushed_pair v1 v2 c) = [slide d1 v1; slide d2 v2].
Proof. intros Hd. unfold pushed_pair. simpl. by rewrite Hd. Qed.

(** X13.  For a network (a disk) category of a frame that is reduced to
    the end, the two rates, each defaulting to 0 when it is missing, are
    numbers; the two displays show them with two decimals and "MB/s", and
    the values pushed into the two series of the chart are those same
    numbers: what is shown is what is charted. *)
Theorem rates_shown_and_charted data st st' :
  updateDashboard data st = (Ok (), st') →
  (∀ network, get data "network" = Ok network → truthy network = true →
     ∃ down up,
       or_else (field network "download_rate") (num 0) = VNum down
       ∧ or_else (field network "upload_rate") (num 0) = VNum up
       ∧ text_of st' "net-down" =
           (λ _, Number.toFixed down 2 +:+ " MB/s") <$> text_of st "net-down"
       ∧ text_of st' "net-up" =
           (λ _, Number.toFixed up 2 +:+ " MB/s") <$> text_of st "net-up"
       ∧ ∀ c d1 d2, charts st !! "network-chart" = Some c → datasets c = [d1; d2] →
           ∃ c', charts st' !! "network-chart" = Some c'
                 ∧ datasets c' = [slide d1 (VNum down); slide d2 (VNum up)])
  ∧ (∀ disk, get data "disk" = Ok disk → truthy disk = true →
       ∃ read write,
         or_else (field disk "read_rate") (num 0) = VNum read
         ∧ or_else (field disk "write_rate") (num 0) = VNum write
         ∧ text_of st' "disk-read" =
             (λ _, Number.toFixed read 2 +:+ " MB/s") <$> text_of st "disk-read"
         ∧ text_of st' "disk-write" =
             (λ _, Number.toFixed write 2 +:+ " MB/s") <$> text_of st "disk-write"
         ∧ ∀ c d1 d2, charts st !! "disk-chart" = Some c → datasets c = [d1; d2] →
             ∃ c', charts st' !! "disk-chart" = Some c'
                   ∧ datasets c' = [slide d1 (VNum read); slide d2 (VNum write)]).
Proof.
  intros Hrun. split.
  - intros network Hnet Htruthy.
    destruct (network_shown data network Hnet Htruthy) as (Hd & Hu & Hc).
    apply (changes_element_updateDashboard _ _ Network) in Hd; [|reflexivity].
    apply (changes_element_updateDashboard _ _ Network) in Hu; [|reflexivity].
    apply (changes_chart_updateDashboard _ _ Network) in Hc; [|reflexivity].
    destruct (Hd st () st' Hrun) as (g1 & (down & Hdown & ->) & Hg1).
    destruct (Hu st () st' Hrun) as (g2 & (up & Hup & ->) & Hg2).
    destruct (Hc st () st' Hrun) as (g3 & -> & Hg3).
    exists down, up. split_and!; [done | done | by apply text_of_changed
                                 | by apply text_of_changed |].
    intros c d1 d2 Hc0 Hd0. unfold chart_at in Hg3. rewrite Hc0 in Hg3.
    eexists. split; [exact Hg3|]. rewrite Hdown, Hup. by apply pushed_pair_datasets.
  - intros disk Hdisk Htruthy.
    destruct (disk_shown data disk Hdisk Htruthy) as (Hd & Hu & Hc).
    apply (changes_element_updateDashboard _ _ Disk) in Hd; [|reflexivity].
    apply (changes_element_updateDashboard _ _ Disk) in Hu; [|reflexivity].
    apply (changes_chart_updateDashboard _ _ Disk) in Hc; [|reflexivity].
    destruct (Hd st () st' Hrun) as (g1 & (read & Hread & ->) & Hg1).
    destruct (Hu st () st' Hrun) as (g2 & (write & Hwrite & ->) & Hg2).
    destruct (Hc st () st' Hrun) as (g3 & -> & Hg3).
    exists read, write. split_and!; [done | done | by apply text_of_changed
                                    | by apply text_of_changed |].
    intros c d1 d2 Hc0 Hd0. unfold chart_at in Hg3. rewrite Hc0 in Hg3.
    eexists. split; [exact Hg3|]. rewrite Hread, Hwrite. by apply pushed_pair_datasets.
Qed.

(** *** What the reducer leaves alone *)

#[local] Instance outside_panels_preorder : PreOrder outside_panels.
Proof.
  split.
  - intros st. by split_and!.
  - intros s1 s2 s3 (Hc & ? & ? & ? & ? & ? & ? & ?) (Hc' & ? & ? & ? & ? & ? & ? & ?).
    split_and!; try congruence.
    intros id Hid. by rewrite Hc', Hc.
Qed.

Lemma outside_panels_updateDashboard data : respects outside_panels (updateDashboard data).
Proof.
  rewrite updateDashboard_branches.
  repeat (apply respects_bind; [apply _ | | intros _]);
    (eapply respects_mono; [|apply branch_footprint]);
    intros st st' (_ & Hc & _ & ? & ? & ? & ? & ? & ? & ?);
    (split_and!; [intros id Hid; by apply Hc | done..]).
Qed.

(** X14.  The reducer never touches the connection or the console, for
    every frame and however the reduction ends: the socket in use, the
    sockets, the timers, the clock, the location, the console and
    [maxHistoryLength] are left as they were, and so is a chart that
    belongs to no category. *)
Theorem reducer_leaves_connection_and_console data st :
  let st' := (updateDashboard data st).2 in
  (∀ id, (∀ c, series c id = false) → charts st' !! id = charts st !! id)
  ∧ ws st' = ws st ∧ sockets st' = sockets st ∧ timers st' = timers st
  ∧ now st' = now st ∧ location st' = location st ∧ console st' = console st
  ∧ maxHistoryLength st' = maxHistoryLength st.
Proof.
  cbv zeta. change (outside_panels st (updateDashboard data st).2).
  apply outside_panels_updateDashboard.
Qed.

(** X1.  Whatever a message holds, the message handler ends normally: an
    exception of [JSON.parse] or of the reducer never escapes it.  When the
    message decodes and is reduced to the end, nothing is logged; when the
    decoding fails or the reducer raises, exactly one line is logged,
    'Failed to parse message:' with the exception, and what the reducer
    wrote before it raised stays. *)
Theorem message_handler_contains_failures raw st :
  ∃ st', onmessage raw st = (Ok (), st')
    ∧ match JSON_parse raw with
      | None =>
          st' = set_console
                  (console st ++
                   [("Failed to parse message:", Some (SyntaxError "JSON.parse"))]) st
      | Some data =>
          match (updateDashboard data st).1 with
          | Ok _ => st' = (updateDashboard data st).2 ∧ console st' = console st
          | Throw e =>
              st' = set_console (console st ++ [("Failed to parse message:", Some e)])
                      (updateDashboard data st).2
          end
      end.
Proof.
  unfold onmessage, try_catch. unfold mbind at 1, M_bind at 1, lift.
  destruct (JSON_parse raw) as [data|]; [|by eexists].
  pose proof (outside_panels_updateDashboard data st) as (_ & _ & _ & _ & _ & _ & Hcons & _).
  destruct (updateDashboard data st) as [[[]|e] st1] eqn:Hrun; simpl in *.
  - by eexists.
  - eexists. split; [reflexivity|]. by rewrite Hcons.
Qed.

(** *** The progress bar and the ping *)

Lemma min_below f s m e :
  Number.gtb f (S754_finite s m e) = false → Number.min f (S754_finite s m e) = f.
Proof. unfold Number.min. intros ->. by destruct f. Qed.

(** X16.  updateProgressBar on an element that exists, for a percentage
    that is 0 or more, sets its width to [Math.min(percent, 100)] percent
    and nothing else: "100%" from 100 on, and the percentage as it came
    below. *)
Theorem progress_bar_caps_at_100 id f el st :
  document st !! id = Some el →
  Number.geb f (Number.of_Z 0) = true →
  ∃ w,
    updateProgressBar id (VNum f) st =
      (Ok (), set_document (<[id := with_style "width" (w +:+ "%") el]> (document st)) st)
    ∧ w = Number.to_string (Number.min f (Number.of_Z 100))
    ∧ (Number.geb f (Number.of_Z 100) = true → w = "100")
    ∧ (Number.gtb f (Number.of_Z 100) = false → w = Number.to_string f).
Proof.
  intros Hel _. exists (Number.to_string (Number.min f (Number.of_Z 100))). split_and!.
  - unfold updateProgressBar, getElementById, read. unfold mbind at 1, M_bind at 1.
    rewrite decide_True by (by rewrite Hel). cbv beta iota.
    unfold Math_min, to_number. cbn [mbind result_bind].
    unfold mbind, M_bind, lift. rewrite set_style_eval. do 2 f_equal.
    apply map_eq. intros k. destruct (decide (k = id)) as [->|].
    + by rewrite lookup_alter_eq, lookup_insert_eq, Hel.
    + by rewrite lookup_alter_ne, lookup_insert_ne.
  - done.
  - change (Number.of_Z 100) with (S754_finite false 7036874417766400 (-46)).
    intros H. by rewrite (min_saturates _ _ _ _ H).
  - change (Number.of_Z 100) with (S754_finite false 7036874417766400 (-46)).
    intros H. by rewrite (min_below _ _ _ _ H).
Qed.

Lemma ping_shown data ping :
  get data "ping" = Ok ping → truthy ping = true →
  changes (element_at "ping-value")
    (λ g, ∃ s, g = fmap (set_text s)
               ∧ if truthy (field ping "success") && negb (is_null (field ping "ping"))
                 then ∃ l, to_string (field ping "ping") = Ok l ∧ s = l +:+ " ms"
                 else s = "--")
    (dashboard_ping data).
Proof.
  intros Hping Htruthy. pose proof (truthy_not_nullish _ Htruthy) as Hnn.
  unfold dashboard_ping. rewrite Hping.
  apply changes_lift_bind. intros ? [= <-]. rewrite Htruthy, !get_field by done.
  apply changes_lift_bind. intros ? [= <-]. apply changes_lift_bind. intros ? [= <-].
  destruct (truthy (field ping "success") && negb (is_null (field ping "ping"))).
  - apply changes_lift_bind. intros l Hl. apply changes_setText.
    eexists. split; [reflexivity|]. eexists. split; [reflexivity|]. by exists l.
  - apply changes_setText. eexists. split; [reflexivity|]. by eexists.
Qed.

(** X17.  For a ping category of a frame that is reduced to the end the
    display shows the latency followed by " ms" when [success] is truthy
    and the latency is not null (a latency of 0 is shown as such), and the
    placeholder "--" otherwise. *)
Theorem ping_display data ping st st' :
  get data "ping" = Ok ping → truthy ping = true →
  updateDashboard data st = (Ok (), st') →
  ∃ s, text_of st' "ping-value" = (λ _, s) <$> text_of st "ping-value"
       ∧ if truthy (field ping "success") && negb (is_null (field ping "ping"))
         then ∃ l, to_string (field ping "ping") = Ok l ∧ s = l +:+ " ms"
         else s = "--".
Proof.
  intros Hping Htruthy Hrun.
  pose proof (ping_shown data ping Hping Htruthy) as Hch.
  apply (changes_element_updateDashboard _ _ Ping) in Hch; [|reflexivity].
  destruct (Hch st () st' Hrun) as (g & (s & -> & Hs) & Hg).
  exists s. split; [by apply text_of_changed | done].
Qed.

End PCMonitor.

(** ** Runs on a sample page *)

Local Open Scope nat_scope.

(** A reading of strings as numbers that knows the empty string and the
    unsigned decimal integers, and gives NaN for the rest. *)
Fixpoint digits_value (s : string) (acc : Z) : option Z :=
  match s with
  | "" => Some acc
  | String c s =>
      let n := Z.of_nat (Ascii.nat_of_ascii c) in
      if ((48 <=? n) && (n <=? 57))%Z then digits_value s (10 * acc + (n - 48))%Z
      else None
  end.

Definition StringToNumber_integers (s : string) : spec_float :=
  match digits_value s 0 with
  | Some n => Number.of_Z n
  | None => Number.NaN
  end.

(** A decoder that knows the texts of a few values and rejects the rest. *)
Definition JSON_parse_literals (s : string) : option value :=
  if String.eqb s "{}" then Some (VObj ∅)
  else if String.eqb s "[]" then Some (VArr [])
  else if String.eqb s "null" then Some VNull
  else if String.eqb s "true" then Some (VBool true)
  else if String.eqb s "false" then Some (VBool false)
  else num <$> (if String.eqb s "" then None else digits_value s 0).

(** A page with every element the monitor looks for, each showing "?". *)
Definition sample_page : gmap string element :=
  list_to_map ((λ id, (id, Element "?" [] ∅ ∅)) <$>
    ["status-dot"; "status-text";
     "cpu-chart"; "gpu-chart"; "memory-chart"; "network-chart"; "disk-chart";
     "cpu-name"; "cpu-usage"; "cpu-freq"; "cpu-cores"; "cpu-threads"; "cpu-temp";
     "cpu-l2"; "cpu-l3"; "cpu-core-bars";
     "gpu-name"; "gpu-usage"; "gpu-temp"; "gpu-vram"; "gpu-clock"; "gpu-mem-clock";
     "gpu-fan"; "gpu-power"; "gpu-usage-gauge"; "gpu-usage-gauge .gauge-fill";
     "gpu-temp-gauge"; "gpu-temp-gauge .gauge-fill"; "gpu-vram-bar";
     "mem-pct"; "mem-used-total"; "mem-speed"; "mem-type"; "mem-slots";
     "memory-gauge"; "memory-gauge .gauge-fill"; "memory-gauge .gauge-text";
     "net-down"; "net-up"; "ping-value"; "disk-read"; "disk-write";
     "fans-list"; "process-list"; "sys-uptime"; "sys-mb-model"; "sys-drives"]).

Definition sample_state : state := constructor sample_page ("http:", "localhost:8000") 0.

(** A cpu category with no field at all. *)
Definition empty_cpu : value := VObj {[ "cpu" := VObj ∅ ]}.

(** A memory category reporting 2 of 8 slots. *)
Definition eight_slots : value :=
  VObj {[ "memory" := VObj {[ "slots_used" := num 2; "slots_total" := num 8 ]} ]}.

Definition process (name : string) (cpu_percent memory_percent : Z) : value :=
  VObj {[ "name" := VStr name; "cpu_percent" := num cpu_percent;
          "memory_percent" := num memory_percent ]}.

(** The idle process among 10 others. *)
Definition eleven_processes : list value :=
  [process "chrome" 9 50; process "System Idle Process" 90 0; process "code" 8 4;
   process "node" 7 3; process "python" 6 3; process "slack" 5 2; process "steam" 4 2;
   process "explorer" 3 1; process "dwm" 2 1; process "svchost" 1 1;
   process "spotify" 1 2].

Definition sample_events : list event :=
  [Open 0; Message 0 "{}"; Elapse 5; Error 0; Close 0; Elapse 2000; Timer 0; Open 1].

(** The page after the sample events. *)
Definition sample_run : state :=
  default sample_state
    (play StringToNumber_integers JSON_parse_literals sample_events sample_state).

(** An element as the sample page has them. *)
Definition sample_element : element := Element "?" [] ∅ ∅.


(** Two fans: one with a percentage and a speed, one with neither. *)
Definition two_fans : list (string * option spec_float * option spec_float) :=
  [("CPU Fan", Some (Number.of_Z 45), Some (Number.of_Z 1200)); ("Pump", None, None)].

(** A frame whose GPU is not available, beside a ping, the two pairs of
    rates, and a memory category with a process. *)
Definition mixed_frame : value :=
  VObj {[ "gpu" := VObj {[ "available" := VBool false; "name" := VStr "RTX" ]};
          "ping" := VObj {[ "success" := VBool true; "ping" := num 12 ]};
          "network" := VObj {[ "download_rate" := num 3 ]};
          "disk" := VObj {[ "read_rate" := num 7; "write_rate" := num 2 ]};
          "memory" := VObj {[ "total" := num 16; "percent" := num 25 ]};
          "processes" := VArr [process "chrome" 9 50] ]}.

(** The sample page after [mixed_frame]. *)
Definition mixed_run : state :=
  (updateDashboard StringToNumber_integers mixed_frame sample_state).2.

(** The idle process, an entry without [cpu_percent] and a complete one. *)
Definition broken_processes : list value :=
  [process "System Idle Process" 90 0;
   VObj {[ "name" := VStr "chrome"; "memory_percent" := num 2 ]};
   process "code" 8 4].

(** The sample page with a large memory gauge. *)
Definition large_gauge : element := Element "?" [] ∅ {[ "large-gauge" ]}.

Definition large_gauge_state : state :=
  set_document (<["memory-gauge" := large_gauge]> (document sample_state)) sample_state.

(** The sample page once its first socket has had its close event. *)
Definition closed_once : state :=
  default sample_state
    (dispatch StringToNumber_integers JSON_parse_literals (Close 0) sample_state).


(** The failing input of C1 on the sample page. *)
Lemma missing_cpu_percent_raises_witness :
  is_Some (document sample_state !! "process-list")
  ∧ ∃ e, updateDashboard StringToNumber_integers no_cpu_percent sample_state
         = (Throw e, sample_state).
Proof.
  assert (is_Some (document sample_state !! "process-list")) as H
    by (eexists; vm_compute; reflexivity).
  split; [exact H|].
  destruct (missing_cpu_percent_raises StringToNumber_integers JSON_parse_literals
              sample_state H) as [(e & He & _) _].
  by exists e.
Defined.

Lemma sliding_window_length_witness :
  "cpu-chart" ∈ canvases ∧ is_Some (sample_page !! "cpu-chart")
  ∧ ∃ c0 c,
      charts sample_state !! "cpu-chart" = Some c0
      ∧ datasets c0 = [replicate 60 VNull]
      ∧ charts (run (updateChart "cpu-chart" (num 7)) sample_state)
          !! "cpu-chart" = Some c
      ∧ datasets c !! 0 = Some (replicate 59 VNull ++ [num 7]).
Proof.
  assert ("cpu-chart" ∈ canvases) as H1 by (unfold canvases; apply list_elem_of_here).
  assert (is_Some (sample_page !! "cpu-chart")) as H2
    by (eexists; vm_compute; reflexivity).
  split; [exact H1|]. split; [exact H2|].
  destruct (sliding_window_length sample_page
              ("http:", "localhost:8000") 0 []) as (Hnew & _ & _ & Hpush & _).
  destruct (Hnew "cpu-chart" H1 H2) as [(c0 & Hc0 & Hd0) _].
  destruct (Hpush "cpu-chart" (num 7) c0 (replicate 60 VNull) Hc0) as (c & Hc & Hd & _);
    [by rewrite Hd0|].
  exists c0, c. split; [exact Hc0|]. split; [exact Hd0|]. split; [exact Hc | exact Hd].
Defined.

Lemma dual_series_aligned_witness :
  ("network-chart" = "network-chart" ∨ "network-chart" = "disk-chart")
  ∧ charts (pushPairs "network-chart" [(num 1, num 2)] sample_state) !! "network-chart"
    = Some (dual_after [(num 1, num 2)])
  ∧ ∃ s1 s2, datasets (dual_after [(num 1, num 2)]) = [s1; s2]
             ∧ s1 !! 59 = Some (num 1) ∧ s2 !! 59 = Some (num 2).
Proof.
  assert (charts (pushPairs "network-chart" [(num 1, num 2)] sample_state)
            !! "network-chart" = Some (dual_after [(num 1, num 2)])) as H
    by (vm_compute; reflexivity).
  split; [by left|]. split; [exact H|].
  destruct (dual_series_aligned sample_page ("http:", "localhost:8000") 0 "network-chart"
              [(num 1, num 2)] (dual_after [(num 1, num 2)]) (or_introl eq_refl) H)
    as (s1 & s2 & Hd & _ & _ & Hi & _).
  exists s1, s2. split; [exact Hd|].
  destruct (Hi 59) as (a & b & Hab & Ha & Hb); [lia|].
  injection Hab as <- <-. by split.
Defined.

Lemma malformed_message_dropped_witness :
  JSON_parse_literals "{" = None
  ∧ onmessage StringToNumber_integers JSON_parse_literals "{" sample_state =
      (Ok (), set_console
                (console sample_state ++
                 [("Failed to parse message:", Some (SyntaxError "JSON.parse"))])
                sample_state).
Proof.
  split; [reflexivity|].
  apply (malformed_message_dropped StringToNumber_integers JSON_parse_literals "{").
  reflexivity.
Defined.

Lemma reconnect_discipline_witness :
  play StringToNumber_integers JSON_parse_literals sample_events sample_state
    = Some sample_run
  ∧ connections sample_run + length (timers sample_run) = 1
  ∧ spaced (sockets sample_run).
Proof.
  assert (play StringToNumber_integers JSON_parse_literals sample_events sample_state
          = Some sample_run) as H by (vm_compute; reflexivity).
  split; [exact H|].
  destruct (reconnect_discipline StringToNumber_integers JSON_parse_literals sample_page
              ("http:", "localhost:8000") 0 sample_events sample_run H) as (H1 & H2 & _).
  by split.
Defined.

(** The discipline as the specification has it fails on the sample page:
    a connection attempt while the first connection is live leaves two
    connections in flight, and a second run of the close handler before the
    timer fires leaves two timers pending. *)
Lemma reconnect_as_stated_counterexample :
  (one_in_flight sample_state ∧ connections (run connect sample_state) = 2)
  ∧ (one_in_flight closed_once
     ∧ timers (run onclose closed_once) = [2000%Z; 2000%Z])
  ∧ ¬ reconnect_as_stated.
Proof.
  assert (one_in_flight sample_state) as H1 by (split; vm_compute; lia).
  assert (connections (run connect sample_state) = 2) as H2 by (vm_compute; reflexivity).
  split; [by split|]. split.
  - split; [split; vm_compute; lia | vm_compute; reflexivity].
  - intros H. destruct (H sample_state H1) as [[Hc _] _]. rewrite H2 in Hc. lia.
Qed.


Lemma eleven_process_entries : Forall process_entry eleven_processes.
Proof.
  repeat constructor;
    (eexists _, _, _; split; [reflexivity|]; split_and!;
       [reflexivity | reflexivity | right; eexists; reflexivity]).
Qed.

Lemma process_list_filter_and_cap_witness :
  is_Some (document sample_state !! "process-list")
  ∧ Forall (λ p, is_nullish p = false) eleven_processes
  ∧ Forall (λ p, is_nullish p = false) broken_processes
  ∧ (∃ t, to_number StringToNumber_integers (totalMemoryGB sample_state) = Ok t)
  ∧ (∃ items,
       html_of (updateProcessList StringToNumber_integers (VArr eleven_processes)
                  sample_state).2 "process-list" = Some items
       ∧ item_name <$> items =
           ["chrome"; "code"; "node"; "python"; "slack"; "steam"; "explorer"; "dwm"])
  ∧ ∃ e, updateProcessList StringToNumber_integers (VArr broken_processes) sample_state
         = (Throw e, sample_state).
Proof.
  assert (is_Some (document sample_state !! "process-list")) as H1
    by (eexists; vm_compute; reflexivity).
  assert (Forall (λ p, is_nullish p = false) eleven_processes) as H2
    by (repeat constructor).
  assert (Forall (λ p, is_nullish p = false) broken_processes) as H3
    by (repeat constructor).
  assert (∃ t, to_number StringToNumber_integers (totalMemoryGB sample_state) = Ok t)
    as H4 by (eexists; vm_compute; reflexivity).
  split_and!; [exact H1 | exact H2 | exact H3 | exact H4 | |].
  - destruct (process_list_filter_and_cap StringToNumber_integers eleven_processes
                sample_state H1 H2 H4) as [Hshown _].
    destruct Hshown as (items & Hrun & _ & Hnames & _).
    { unfold displayed_spec. simpl. repeat constructor. }
    exists items. split.
    + rewrite Hrun. vm_compute. reflexivity.
    + rewrite (Hnames eleven_process_entries). vm_compute. reflexivity.
  - destruct (process_list_filter_and_cap StringToNumber_integers broken_processes
                sample_state H1 H3 H4) as [_ Hraises].
    apply (Hraises (VObj {[ "name" := VStr "chrome"; "memory_percent" := num 2 ]})).
    + unfold displayed_spec. simpl. apply list_elem_of_here.
    + reflexivity.
Defined.


Lemma cpu_scalars_policy_witness :
  get empty_cpu "cpu" = Ok (VObj ∅) ∧ truthy (VObj ∅) = true
  ∧ updateDashboard StringToNumber_integers empty_cpu sample_state =
      (Ok (), (updateDashboard StringToNumber_integers empty_cpu sample_state).2)
  ∧ get (VObj ∅) "usage" = Ok VUndefined ∧ truthy VUndefined = false
  ∧ shows sample_state (updateDashboard StringToNumber_integers empty_cpu sample_state).2
      "cpu-usage" "0%".
Proof.
  assert (updateDashboard StringToNumber_integers empty_cpu sample_state =
            (Ok (), (updateDashboard StringToNumber_integers empty_cpu sample_state).2))
    as H by (vm_compute; reflexivity).
  split; [reflexivity|]. split; [reflexivity|]. split; [exact H|].
  split; [reflexivity|]. split; [reflexivity|].
  destruct (cpu_scalars_policy StringToNumber_integers empty_cpu (VObj ∅) sample_state _
              eq_refl eq_refl H) as (Husage & _).
  destruct (Husage VUndefined eq_refl) as [Hmissing _].
  apply Hmissing. reflexivity.
Defined.

(** C9 as stated fails: with an empty cpu category the usage display goes
    from "?" to "0%", which is neither its previous text nor a placeholder. *)
Lemma usage_policy_counterexample : ¬ usage_policy_as_stated StringToNumber_integers.
Proof.
  intros Hclaim.
  assert (updateDashboard StringToNumber_integers empty_cpu sample_state =
            (Ok (), (updateDashboard StringToNumber_integers empty_cpu sample_state).2))
    as Hrun by (vm_compute; reflexivity).
  assert (get empty_cpu "cpu" = Ok (VObj ∅)) as Hcpu by (vm_compute; reflexivity).
  destruct (Hclaim empty_cpu (VObj ∅) sample_state _ Hcpu eq_refl eq_refl Hrun)
    as [Hsame | (s & Hs & [-> | ->])].
  - vm_compute in Hsame. discriminate.
  - vm_compute in Hs. discriminate.
  - vm_compute in Hs. discriminate.
Qed.

Lemma memory_slots_denominator_witness :
  get eight_slots "memory" = Ok (VObj {[ "slots_used" := num 2; "slots_total" := num 8 ]})
  ∧ truthy (VObj {[ "slots_used" := num 2; "slots_total" := num 8 ]}) = true
  ∧ get (VObj {[ "slots_used" := num 2; "slots_total" := num 8 ]}) "slots_used"
    = Ok (num 2)
  ∧ num 2 ≠ VUndefined
  ∧ updateDashboard StringToNumber_integers eight_slots sample_state =
      (Ok (), (updateDashboard StringToNumber_integers eight_slots sample_state).2)
  ∧ text_of (updateDashboard StringToNumber_integers eight_slots sample_state).2
      "mem-slots" = Some "2/4".
Proof.
  assert (updateDashboard StringToNumber_integers eight_slots sample_state =
            (Ok (), (updateDashboard StringToNumber_integers eight_slots sample_state).2))
    as H by (vm_compute; reflexivity).
  split; [reflexivity|]. split; [reflexivity|]. split; [reflexivity|].
  split; [discriminate|]. split; [exact H|].
  destruct (memory_slots_denominator StringToNumber_integers eight_slots
              (VObj {[ "slots_used" := num 2; "slots_total" := num 8 ]}) (num 2)
              sample_state _ eq_refl eq_refl eq_refl ltac:(discriminate) H)
    as (used & slots_total & total & Hu & Ht & Hn & Htext & _).
  rewrite Htext. vm_compute in Hu, Ht. injection Hu as <-. injection Ht as <-.
  vm_compute in Hn. injection Hn as <-. reflexivity.
Defined.

(** *** The monitor as a whole on the sample page *)

(** A page loaded over http from [localhost:8000], after the sample events:
    the second socket is open. *)
Lemma sample_run_played :
  play StringToNumber_integers JSON_parse_literals sample_events sample_state
    = Some sample_run.
Proof. vm_compute. reflexivity. Qed.

Lemma status_tracks_connection_witness :
  is_Some (sample_page !! "status-dot") ∧ is_Some (sample_page !! "status-text")
  ∧ play StringToNumber_integers JSON_parse_literals sample_events sample_state
      = Some sample_run
  ∧ (ready <$> last (sockets sample_run)) = Some OPEN
  ∧ status_shown sample_run true.
Proof.
  assert (is_Some (sample_page !! "status-dot")) as H1
    by (eexists; vm_compute; reflexivity).
  assert (is_Some (sample_page !! "status-text")) as H2
    by (eexists; vm_compute; reflexivity).
  assert (ready <$> last (sockets sample_run) = Some OPEN) as H3
    by (vm_compute; reflexivity).
  split_and!; [exact H1 | exact H2 | exact sample_run_played | exact H3 |].
  destruct (status_tracks_connection StringToNumber_integers JSON_parse_literals
              sample_page ("http:", "localhost:8000") 0 sample_events sample_run
              H1 H2 sample_run_played) as (newest & Hlast & Hshown).
  rewrite Hlast in H3. simpl in H3. injection H3 as H3.
  rewrite H3 in Hshown. exact Hshown.
Defined.

Lemma sockets_use_page_origin_witness :
  play StringToNumber_integers JSON_parse_literals sample_events sample_state
    = Some sample_run
  ∧ ∃ s, sockets sample_run !! 1 = Some s ∧ s ∈ sockets sample_run
         ∧ url s = "ws://localhost:8000/ws".
Proof.
  split; [exact sample_run_played|].
  assert (is_Some (sockets sample_run !! 1)) as [s Hs]
    by (eexists; vm_compute; reflexivity).
  exists s. split; [exact Hs|].
  assert (s ∈ sockets sample_run) as Hin by (by eapply list_elem_of_lookup_2).
  split; [exact Hin|].
  exact (sockets_use_page_origin StringToNumber_integers JSON_parse_literals
           sample_page "http:" "localhost:8000" 0 sample_events sample_run s
           sample_run_played Hin).
Defined.

Lemma charts_stay_as_set_up_witness :
  play StringToNumber_integers JSON_parse_literals sample_events sample_state
    = Some sample_run
  ∧ ∃ c, charts sample_run !! "network-chart" = Some c
         ∧ chart_shape "network-chart" c.
Proof.
  split; [exact sample_run_played|].
  pose proof (charts_stay_as_set_up StringToNumber_integers JSON_parse_literals
                sample_page ("http:", "localhost:8000") 0 sample_events sample_run
                "network-chart" sample_run_played) as H.
  destruct (charts sample_run !! "network-chart") as [c|] eqn:E.
  - exists c. split; [reflexivity|]. apply H.
  - exfalso. vm_compute in E. discriminate E.
Defined.

Lemma sample_events_expected : Forall (expected JSON_parse_literals) sample_events.
Proof.
  repeat constructor. exists (VObj ∅). split; vm_compute; reflexivity.
Qed.

Lemma expected_frames_are_taken_witness :
  Forall (expected JSON_parse_literals) sample_events
  ∧ play StringToNumber_integers JSON_parse_literals sample_events sample_state
      = Some sample_run
  ∧ prepared sample_run
  ∧ console sample_run = [("WebSocket error:", None)]
  ∧ ∃ st', updateDashboard StringToNumber_integers eight_slots sample_run = (Ok (), st')
           ∧ console st' = console sample_run.
Proof.
  split; [exact sample_events_expected|]. split; [exact sample_run_played|].
  destruct (expected_frames_are_taken StringToNumber_integers JSON_parse_literals
              sample_page ("http:", "localhost:8000") 0 sample_events sample_run
              sample_events_expected sample_run_played) as (Hp & _ & Hnext).
  split; [exact Hp|]. split; [vm_compute; reflexivity|].
  destruct (Hnext eight_slots) as (st' & Hrun & _ & Hc); [vm_compute; reflexivity|].
  exists st'. split; [exact Hrun | exact Hc].
Defined.

Lemma gauge_fills_and_saturates_witness :
  document large_gauge_state !! "memory-gauge" = Some large_gauge
  ∧ document large_gauge_state !! "memory-gauge .gauge-fill" = Some sample_element
  ∧ Number.geb (Number.of_Z 25) (Number.of_Z 0) = true
  ∧ updateMiniGauge StringToNumber_integers "memory-gauge" (VNum (Number.of_Z 25))
      large_gauge_state
    = (Ok (),
       set_document
         (<["memory-gauge .gauge-fill" :=
              with_style "strokeDashoffset" "197.92033717615698"
                (with_style "strokeDasharray" "263.89378290154264" sample_element)]>
            (document large_gauge_state))
         large_gauge_state).
Proof.
  assert (document large_gauge_state !! "memory-gauge" = Some large_gauge) as H1
    by (vm_compute; reflexivity).
  assert (document large_gauge_state !! "memory-gauge .gauge-fill" = Some sample_element)
    as H2 by (vm_compute; reflexivity).
  assert (Number.geb (Number.of_Z 25) (Number.of_Z 0) = true) as H3
    by (vm_compute; reflexivity).
  split_and!; [exact H1 | exact H2 | exact H3 |].
  destruct (gauge_fills_and_saturates StringToNumber_integers "memory-gauge"
              (Number.of_Z 25) large_gauge sample_element large_gauge_state H1 H2 H3)
    as (Hrun & _).
  rewrite Hrun. vm_compute. reflexivity.
Defined.

Lemma progress_bar_caps_at_100_witness :
  document sample_state !! "gpu-vram-bar" = Some sample_element
  ∧ Number.geb (Number.of_Z 150) (Number.of_Z 0) = true
  ∧ Number.geb (Number.of_Z 150) (Number.of_Z 100) = true
  ∧ updateProgressBar StringToNumber_integers "gpu-vram-bar" (VNum (Number.of_Z 150))
      sample_state
    = (Ok (),
       set_document
         (<["gpu-vram-bar" := with_style "width" "100%" sample_element]>
            (document sample_state))
         sample_state).
Proof.
  assert (document sample_state !! "gpu-vram-bar" = Some sample_element) as H1
    by (vm_compute; reflexivity).
  assert (Number.geb (Number.of_Z 150) (Number.of_Z 0) = true) as H0
    by (vm_compute; reflexivity).
  assert (Number.geb (Number.of_Z 150) (Number.of_Z 100) = true) as H2
    by (vm_compute; reflexivity).
  split_and!; [exact H1 | exact H0 | exact H2 |].
  destruct (progress_bar_caps_at_100 StringToNumber_integers "gpu-vram-bar"
              (Number.of_Z 150) sample_element sample_state H1 H0)
    as (w & Hrun & _ & Hfull & _).
  rewrite (Hfull H2) in Hrun. exact Hrun.
Defined.

Lemma core_bars_follow_per_core_witness :
  document sample_state !! "cpu-core-bars" = Some sample_element
  ∧ [Number.of_Z 50; Number.of_Z 120] ≠ []
  ∧ ∃ st', updateCoreBars StringToNumber_integers
             (VArr [VNum (Number.of_Z 50); VNum (Number.of_Z 120)]) sample_state
           = (Ok (), st')
         ∧ html_of st' "cpu-core-bars" = Some [CoreBar 0; CoreBar 1]
         ∧ document st' !! core_bar_id 1
           = Some (bar_at (Number.of_Z 120) (Element "" [] ∅ ∅))
         ∧ document st' !! "cpu-name" = document sample_state !! "cpu-name".
Proof.
  assert (document sample_state !! "cpu-core-bars" = Some sample_element) as H1
    by (vm_compute; reflexivity).
  assert ([Number.of_Z 50; Number.of_Z 120] ≠ []) as H2 by discriminate.
  split_and!; [exact H1 | exact H2 |].
  destruct (core_bars_follow_per_core StringToNumber_integers
              [Number.of_Z 50; Number.of_Z 120] sample_element sample_state H1 H2)
    as (st' & Hrun & Hother & Hbars); [simpl; lia | simpl; lia |].
  exists st'. split; [exact Hrun|].
  simpl in Hbars. destruct Hbars as (Hhtml & Hnew & _).
  split; [exact Hhtml|]. split; [apply Hnew; reflexivity|].
  apply Hother; [discriminate|]. intros j Hj. 
  apply (f_equal (λ s, String.get 1 s)) in Hj. unfold core_bar_id in Hj. discriminate Hj.
Defined.

Lemma mixed_frame_reduced :
  updateDashboard StringToNumber_integers mixed_frame sample_state = (Ok (), mixed_run).
Proof. vm_compute. reflexivity. Qed.


Lemma fans_list_rows_witness :
  is_Some (document sample_state !! "fans-list")
  ∧ html_of (updateFansList (VObj {[ "fans" := VArr (fan_entry <$> two_fans) ]})
               sample_state).2 "fans-list"
    = Some [FanItem "CPU Fan" "45" [("fan-percent", "45%"); ("fan-rpm", "1200 RPM")];
            FanItem "Pump" "0" [("fan-percent", "--")]].
Proof.
  assert (is_Some (document sample_state !! "fans-list")) as H1
    by (eexists; vm_compute; reflexivity).
  split; [exact H1|].
  destruct (fans_list_rows (VObj {[ "fans" := VArr (fan_entry <$> two_fans) ]})
              two_fans sample_state H1) as [Hrows _]; [simpl; lia|].
  rewrite Hrows; [|reflexivity]. vm_compute. reflexivity.
Defined.


Lemma process_memory_uses_frame_total_witness :
  is_Some (document sample_state !! "process-list")
  ∧ updateDashboard StringToNumber_integers mixed_frame sample_state = (Ok (), mixed_run)
  ∧ totalMemoryGB sample_state = num 0
  ∧ totalMemoryGB mixed_run = num 16
  ∧ html_of mixed_run "process-list"
    = Some [ProcessItem "chrome" "chrome" "9.0%" "8.0 GB"].
Proof.
  assert (is_Some (document sample_state !! "process-list")) as H1
    by (eexists; vm_compute; reflexivity).
  split; [exact H1|]. split; [exact mixed_frame_reduced|].
  split; [vm_compute; reflexivity|].
  destruct (process_memory_uses_frame_total StringToNumber_integers mixed_frame
              (VObj {[ "total" := num 16; "percent" := num 25 ]}) (num 16)
              [process "chrome" 9 50] sample_state mixed_run)
    as (Htotal & items & Hhtml & Hitems);
    [vm_compute; reflexivity | reflexivity | vm_compute; reflexivity
    | vm_compute; reflexivity | exact H1 | exact mixed_frame_reduced |].
  split; [rewrite Htotal; reflexivity|].
  rewrite Hhtml. f_equal.
  change (displayed_spec [process "chrome" 9 50]) with [process "chrome" 9 50] in Hitems.
  inversion Hitems as [|p item ps items' Hitem Hrest]; subst.
  inversion Hrest; subst.
  change (or_else (num 16) (num 0)) with (num 16) in Hitem.
  vm_compute in Hitem. injection Hitem as <-. reflexivity.
Defined.

Lemma rates_shown_and_charted_witness :
  updateDashboard StringToNumber_integers mixed_frame sample_state = (Ok (), mixed_run)
  ∧ text_of mixed_run "net-down" = Some "3.00 MB/s"
  ∧ text_of mixed_run "net-up" = Some "0.00 MB/s"
  ∧ ∃ c, charts mixed_run !! "network-chart" = Some c
         ∧ last <$> datasets c = [Some (num 3); Some (num 0)].
Proof.
  split; [exact mixed_frame_reduced|].
  destruct (rates_shown_and_charted StringToNumber_integers mixed_frame sample_state
              mixed_run mixed_frame_reduced) as [Hnet _].
  destruct (Hnet (VObj {[ "download_rate" := num 3 ]}))
    as (down & up & Hdown & Hup & Htd & Htu & Hchart);
    [vm_compute; reflexivity | reflexivity |].
  vm_compute in Hdown. injection Hdown as <-.
  vm_compute in Hup. injection Hup as <-.
  split; [rewrite Htd; vm_compute; reflexivity|].
  split; [rewrite Htu; vm_compute; reflexivity|].
  destruct (Hchart (Chart (replicate 60 "") [replicate 60 VNull; replicate 60 VNull] [])
              (replicate 60 VNull) (replicate 60 VNull))
    as (c' & Hc' & Hd'); [vm_compute; reflexivity | reflexivity |].
  exists c'. split; [exact Hc'|]. rewrite Hd'. vm_compute. reflexivity.
Defined.

Lemma ping_display_witness :
  get mixed_frame "ping" = Ok (VObj {[ "success" := VBool true; "ping" := num 12 ]})
  ∧ updateDashboard StringToNumber_integers mixed_frame sample_state = (Ok (), mixed_run)
  ∧ text_of mixed_run "ping-value" = Some "12 ms".
Proof.
  split; [vm_compute; reflexivity|]. split; [exact mixed_frame_reduced|].
  destruct (ping_display StringToNumber_integers mixed_frame
              (VObj {[ "success" := VBool true; "ping" := num 12 ]})
              sample_state mixed_run) as (s & Htext & Hs);
    [vm_compute; reflexivity | reflexivity | exact mixed_frame_reduced |].
  rewrite Htext.
  change (truthy (field (VObj {[ "success" := VBool true; "ping" := num 12 ]}) "success")
          && negb (is_null (field (VObj {[ "success" := VBool true; "ping" := num 12 ]})
                              "ping"))) with true in Hs.
  destruct Hs as (l & Hl & ->). vm_compute in Hl. injection Hl as <-.
  vm_compute. reflexivity.
Defined.
